(** * Relation Engine importers: bulk import, data_sources importer, DJORNL parser

    A shallow embedding of
      - [relation_engine_server/utils/bulk_import.py]
      - [importers/data_sources/importer.py]
      - the DJORNL parser exercised by [importers/test/test_djornl_parser.py]
    together with the properties stated about them. *)

From Stdlib Require Import ZArith String Ascii List Lia Bool Sorted.
From Stdlib.Strings Require Import Byte.
From Stdlib.Floats Require Import SpecFloat.
From stdpp Require Import gmap strings list fin_maps pretty.
Import ListNotations.

Set Warnings "-register-all".

Local Open Scope string_scope.
Local Open Scope list_scope.

(* ===================================================================== *)
(** * BLAKE2b (RFC 7693), as computed by [hashlib.blake2b]                *)
(* ===================================================================== *)

Module Blake2b.
Local Open Scope Z_scope.

(** 64-bit words are integers reduced modulo 2^64. *)
Definition w64 (x : Z) : Z := x mod 2 ^ 64.

Definition add64 (a b : Z) : Z := w64 (a + b).

Definition rotr64 (x n : Z) : Z :=
  Z.lor (Z.shiftr x n) (w64 (Z.shiftl x (64 - n))).

Definition IV : list Z :=
  [ 0x6a09e667f3bcc908; 0xbb67ae8584caa73b;
    0x3c6ef372fe94f82b; 0xa54ff53a5f1d36f1;
    0x510e527fade682d1; 0x9b05688c2b3e6c1f;
    0x1f83d9abfb41bd6b; 0x5be0cd19137e2179 ].

Definition SIGMA : list (list nat) :=
  [ [ 0;  1;  2;  3;  4;  5;  6;  7;  8;  9; 10; 11; 12; 13; 14; 15];
    [14; 10;  4;  8;  9; 15; 13;  6;  1; 12;  0;  2; 11;  7;  5;  3];
    [11;  8; 12;  0;  5;  2; 15; 13; 10; 14;  3;  6;  7;  1;  9;  4];
    [ 7;  9;  3;  1; 13; 12; 11; 14;  2;  6;  5; 10;  4;  0; 15;  8];
    [ 9;  0;  5;  7;  2;  4; 10; 15; 14;  1; 11; 12;  6;  8;  3; 13];
    [ 2; 12;  6; 10;  0; 11;  8;  3;  4; 13;  7;  5; 15; 14;  1;  9];
    [12;  5;  1; 15; 14; 13;  4; 10;  0;  7;  6;  3;  9;  2;  8; 11];
    [13; 11;  7; 14; 12;  1;  3;  9;  5;  0; 15;  4;  8;  6;  2; 10];
    [ 6; 15; 14;  9; 11;  3;  0;  8; 12;  2; 13;  7;  1;  4; 10;  5];
    [10;  2;  8;  4;  7;  6;  1;  5; 15; 11;  9; 14;  3; 12; 13;  0] ]%nat.

Definition word (v : list Z) (i : nat) : Z := nth i v 0.

(** The mixing function G. *)
Definition G (v : list Z) (a b c d : nat) (x y : Z) : list Z :=
  let v := <[a := add64 (add64 (word v a) (word v b)) x]> v in
  let v := <[d := rotr64 (Z.lxor (word v d) (word v a)) 32]> v in
  let v := <[c := add64 (word v c) (word v d)]> v in
  let v := <[b := rotr64 (Z.lxor (word v b) (word v c)) 24]> v in
  let v := <[a := add64 (add64 (word v a) (word v b)) y]> v in
  let v := <[d := rotr64 (Z.lxor (word v d) (word v a)) 16]> v in
  let v := <[c := add64 (word v c) (word v d)]> v in
  let v := <[b := rotr64 (Z.lxor (word v b) (word v c)) 63]> v in
  v.

Definition round (m : list Z) (v : list Z) (r : nat) : list Z :=
  let s := nth (r mod 10) SIGMA [] in
  let mw (i : nat) := word m (nth i s 0%nat) in
  let v := G v 0 4  8 12 (mw 0%nat)  (mw 1%nat) in
  let v := G v 1 5  9 13 (mw 2%nat)  (mw 3%nat) in
  let v := G v 2 6 10 14 (mw 4%nat)  (mw 5%nat) in
  let v := G v 3 7 11 15 (mw 6%nat)  (mw 7%nat) in
  let v := G v 0 5 10 15 (mw 8%nat)  (mw 9%nat) in
  let v := G v 1 6 11 12 (mw 10%nat) (mw 11%nat) in
  let v := G v 2 7  8 13 (mw 12%nat) (mw 13%nat) in
  let v := G v 3 4  9 14 (mw 14%nat) (mw 15%nat) in
  v.

(** The compression function F: [h] is the chaining value (8 words), [m]
    the message block (16 words), [t] the byte offset counter and [f] the
    final-block flag. *)
Definition F (h m : list Z) (t : Z) (f : bool) : list Z :=
  let v := firstn 8 h ++ IV in
  let v := <[12%nat := Z.lxor (word v 12) (w64 t)]> v in
  let v := <[13%nat := Z.lxor (word v 13) (w64 (Z.shiftr t 64))]> v in
  let v := if f then <[14%nat := Z.lxor (word v 14) (2 ^ 64 - 1)]> v else v in
  let v := fold_left (round m) (seq 0 12) v in
  map (fun i => Z.lxor (Z.lxor (word h i) (word v i)) (word v (i + 8)))
      (seq 0 8).

Definition byte_to_Z (b : byte) : Z := Z.of_N (Byte.to_N b).

Definition byte_of_Z (z : Z) : byte :=
  byte_of_ascii (ascii_of_N (Z.to_N (z mod 256))).

(** Little-endian 64-bit word stored at byte offset [8 * i] of [block];
    bytes beyond the end of [block] read as zero (the zero padding of the
    last block). *)
Definition le_word (block : list byte) (i : nat) : Z :=
  fold_right (fun k acc => byte_to_Z (nth (8 * i + k) block x00) + 256 * acc)
             0 (seq 0 8).

Definition block_words (block : list byte) : list Z :=
  map (le_word block) (seq 0 16).

(** Absorbs [n] full non-final blocks, then the final (padded) block. *)
Fixpoint absorb (n : nat) (h : list Z) (t : Z) (data : list byte) : list Z :=
  match n with
  | O => F h (block_words data) (t + Z.of_nat (length data)) true
  | S n' =>
      absorb n' (F h (block_words (firstn 128 data)) (t + 128) false)
             (t + 128) (skipn 128 data)
  end.

(** Unkeyed BLAKE2b with an [outlen]-byte digest. *)
Definition state (data : list byte) (outlen : nat) : list Z :=
  let h := <[0%nat := Z.lxor (word IV 0)
                        (Z.lxor 0x01010000 (Z.of_nat outlen))]> IV in
  absorb ((length data - 1) / 128) h 0 data.

Definition digest (data : list byte) (digest_size : nat) : list byte :=
  let h := state data digest_size in
  map (fun i => byte_of_Z (Z.shiftr (word h (i / 8)) (8 * Z.of_nat (i mod 8))))
      (seq 0 digest_size).

Definition hex_digit (n : Z) : ascii :=
  nth (Z.to_nat n) (list_ascii_of_string "0123456789abcdef") "0"%char.

Fixpoint hex (bs : list byte) : string :=
  match bs with
  | [] => EmptyString
  | b :: bs' =>
      String (hex_digit (byte_to_Z b / 16))
        (String (hex_digit (byte_to_Z b mod 16)) (hex bs'))
  end.

(** [hashlib.blake2b(data, digest_size=n).hexdigest()] *)
Definition hexdigest (data : list byte) (digest_size : nat) : string :=
  hex (digest data digest_size).

End Blake2b.

(* ===================================================================== *)
(** * Python values and exceptions                                        *)
(* ===================================================================== *)

(** Exception classes raised by the modelled code and its collaborators. *)
Inductive exn_class :=
| TypeError | AttributeError | KeyError | ValueError | OverflowError
| UnicodeEncodeError
| JSONDecodeError | ValidationError | RuntimeError
| OSError | FileNotFoundError | IsADirectoryError
| ConfigurationError | FormatError.

Record exn := Exn { exn_cls : exn_class; exn_msg : string }.

Inductive result (A : Type) :=
| Ok (a : A)
| Raise (e : exn).
Arguments Ok {A} a.
Arguments Raise {A} e.

Definition rbind {A B} (r : result A) (k : A -> result B) : result B :=
  match r with
  | Ok a => k a
  | Raise e => Raise e
  end.

Notation "'do' x <- r ; k" := (rbind r (fun x => k))
  (at level 10, x name, r at level 100, k at level 200,
   format "'[v' 'do'  x  <-  r ; '/' k ']'").

(** Values produced by [json.loads].  A Python [str] is represented by its
    UTF-8 encoding, a [dict] by a finite map on its keys.  A [str] may hold
    a lone surrogate (U+D800 to U+DFFF: [json.loads] returns one for an
    escape such as [\ud800]); UTF-8 has no encoding for it, and it is
    represented by the three bytes that the generalised encoding gives it,
    [ED], then [A0] to [BF], then a continuation byte. *)
Inductive json :=
| JNull
| JBool (b : bool)
| JInt (z : Z)
| JFloat (f : spec_float)
| JStr (s : string)
| JArr (l : list json)
| JObj (m : gmap string json).

(** The UTF-8 bytes of a string. *)
Definition encode (s : string) : list byte := list_byte_of_string s.

(** The string holds a surrogate: a byte [ED] followed by a byte of [A0] to
    [BF].  (The lead byte [ED] followed by [80] to [9F] starts a character
    of U+D000 to U+D7FF.) *)
Fixpoint has_surrogate (s : string) : bool :=
  match s with
  | EmptyString => false
  | String c rest =>
      (N_of_ascii c =? 237)%N
      && match rest with
         | String c' _ => (160 <=? N_of_ascii c')%N && (N_of_ascii c' <? 192)%N
         | EmptyString => false
         end
      || has_surrogate rest
  end.

(** The strings that [str.encode()] accepts. *)
Definition encodable (s : string) : bool := negb (has_surrogate s).

(** [s.encode()], with the default codec and error handler: the UTF-8
    bytes of the string, and [UnicodeEncodeError] when it holds a
    surrogate. *)
Definition str_encode (s : string) : result (list byte) :=
  if encodable s then Ok (encode s)
  else Raise (Exn UnicodeEncodeError "surrogates not allowed").

(** [type(v).__name__]. *)
Definition type_name (v : json) : string :=
  match v with
  | JNull => "NoneType"
  | JBool _ => "bool"
  | JInt _ => "int"
  | JFloat _ => "float"
  | JStr _ => "str"
  | JArr _ => "list"
  | JObj _ => "dict"
  end.

(** [needle in haystack] on two Python strings. *)
Fixpoint is_substring (needle haystack : string) : bool :=
  String.prefix needle haystack
  || match haystack with
     | EmptyString => false
     | String _ rest => is_substring needle rest
     end.

(** [key in container] for a string [key]: key membership on a dict,
    element membership on a list, substring test on a string, and a
    [TypeError] on values that are not iterable. *)
Definition py_contains (key : string) (container : json) : result bool :=
  match container with
  | JObj m => Ok (bool_decide (is_Some (m !! key)))
  | JArr l =>
      Ok (existsb (fun x => match x with
                            | JStr s => String.eqb s key
                            | _ => false
                            end) l)
  | JStr s => Ok (is_substring key s)
  | _ => Raise (Exn TypeError "argument is not iterable")
  end.

(** [container[key]] for a string [key]. *)
Definition py_getitem (container : json) (key : string) : result json :=
  match container with
  | JObj m =>
      match m !! key with
      | Some v => Ok v
      | None => Raise (Exn KeyError key)
      end
  | JArr _ | JStr _ => Raise (Exn TypeError "indices must be integers")
  | _ => Raise (Exn TypeError "object is not subscriptable")
  end.

(** [container[key] = v] for a string [key]. *)
Definition py_setitem (container : json) (key : string) (v : json)
  : result json :=
  match container with
  | JObj m => Ok (JObj (<[key := v]> m))
  | _ => Raise (Exn TypeError "object does not support item assignment")
  end.

(** [v.encode()]: only strings have the method. *)
Definition py_encode (v : json) : result (list byte) :=
  match v with
  | JStr s => str_encode s
  | _ => Raise (Exn AttributeError
                  ("'" +:+ type_name v
                   +:+ "' object has no attribute 'encode'"))
  end.

(* ===================================================================== *)
(** * relation_engine_server/utils/bulk_import.py : [_write_edge_key]     *)
(* ===================================================================== *)

(** The key derived from an ordered pair of endpoint identifiers. *)
Definition edge_key (from to : string) : string :=
  Blake2b.hexdigest (encode from ++ encode to) 8.

Definition _write_edge_key (json_line : json) : result json :=
  do has_key <- py_contains "_key" json_line;
  if has_key then Ok json_line else
  do has_from <- py_contains "_from" json_line;
  if negb has_from then Ok json_line else
  do has_to <- py_contains "_to" json_line;
  if negb has_to then Ok json_line else
  do from <- py_getitem json_line "_from";
  do from_bytes <- py_encode from;
  do to <- py_getitem json_line "_to";
  do to_bytes <- py_encode to;
  py_setitem json_line "_key"
    (JStr (Blake2b.hexdigest (from_bytes ++ to_bytes) 8)).


(** Documents used to exercise the statements: an edge without a key, the
    same edge with a key, and a document that is not an edge. *)
Definition edge_doc : gmap string json :=
  <["_from" := JStr "a"]> (<["_to" := JStr "b"]> ∅).

Definition keyed_doc : gmap string json :=
  <["_key" := JStr "k"]> edge_doc.

(** The string of the one character U+D800, a lone surrogate: what
    [json.loads] returns for the escape [\ud800]. *)
Definition lone_surrogate : string :=
  String (ascii_of_N 237) (String (ascii_of_N 160)
    (String (ascii_of_N 128) EmptyString)).

Definition node_doc : gmap string json := <["name" := JStr "n"]> ∅.

(* ===================================================================== *)
(** * Python floats (IEEE 754 binary64) and the schema validator          *)
(* ===================================================================== *)

Definition prec : Z := 53.
Definition emax : Z := 1024.

(** [float(n)] for an integer [n]. *)
Definition float_of_int (n : Z) : spec_float :=
  binary_normalize prec emax n 0 false.

(** [x * n] for a float [x] and an integer [n]: [n] is converted to a
    float and the product is rounded to nearest, ties to even. *)
Definition float_mul_int (x : spec_float) (n : Z) : spec_float :=
  SFmul prec emax x (float_of_int n).

(** [int(x)]: truncation towards zero. *)
Definition py_int (x : spec_float) : result Z :=
  match x with
  | S754_zero _ => Ok 0%Z
  | S754_finite s m e =>
      let magnitude :=
        match e with
        | Zneg p => Z.shiftr (Zpos m) (Zpos p)
        | _ => Z.shiftl (Zpos m) e
        end in
      Ok (if s then Z.opp magnitude else magnitude)
  | S754_infinity _ =>
      Raise (Exn OverflowError "cannot convert float infinity to integer")
  | S754_nan => Raise (Exn ValueError "cannot convert float NaN to integer")
  end.

Definition newline : string := String "010"%char EmptyString.

(** One error reported by the schema validator: [e.message] and [str(e)]. *)
Record verror := VError { message : string; verror_str : string }.

(** The validator object returned by [get_schema_validator]: the methods
    the callers use.  The object belongs to the schema validation
    collaborator and is a parameter of the model. *)
Record validator := Validator {
  is_valid : json -> bool;
  iter_errors : json -> list verror;
  validate : json -> result unit
}.

(** A validator whose three methods agree, built from its list of errors:
    [is_valid] holds when there is no error and [validate] raises the
    first one.  Used to build test validators. *)
Definition validator_of (errors : json -> list verror) : validator :=
  Validator
    (fun instance => match errors instance with
                     | [] => true
                     | _ :: _ => false
                     end)
    errors
    (fun instance => match errors instance with
                     | [] => Ok tt
                     | e :: _ => Raise (Exn ValidationError (message e))
                     end).

(* ===================================================================== *)
(** * Computations with state and exceptions                              *)
(* ===================================================================== *)

(** A computation reads and updates a world of type [W] and either
    returns a value or raises; the world reached is kept in both cases. *)
Definition M (W A : Type) : Type := W -> result A * W.

Definition ret {W A} (a : A) : M W A := fun w => (Ok a, w).

Definition bind {W A B} (c : M W A) (k : A -> M W B) : M W B :=
  fun w =>
    match c w with
    | (Ok a, w') => k a w'
    | (Raise e, w') => (Raise e, w')
    end.

Definition lift {W A} (r : result A) : M W A := fun w => (r, w).

Notation "'run' x <- c ; k" := (bind c (fun x => k))
  (at level 10, x name, c at level 100, k at level 200,
   format "'[v' 'run'  x  <-  c ; '/' k ']'").

(** [try: body finally: final]. The [final] block runs on every exit of
    [body]; an exception raised by [final] replaces the outcome of [body]. *)
Definition try_finally {W A} (body : M W A) (final : M W unit) : M W A :=
  fun w =>
    let '(r, w1) := body w in
    match final w1 with
    | (Ok _, w2) => (r, w2)
    | (Raise e, w2) => (Raise e, w2)
    end.

(** [try: body except <classes>: handler] *)
Definition try_except {W A} (catches : exn_class -> bool)
    (body : M W A) (handler : exn -> M W A) : M W A :=
  fun w =>
    match body w with
    | (Raise e, w') =>
        if catches (exn_cls e) then handler e w' else (Raise e, w')
    | outcome => outcome
    end.

(** [for x in xs: body x] *)
Fixpoint for_each {W A} (body : A -> M W unit) (xs : list A) : M W unit :=
  match xs with
  | [] => ret tt
  | x :: xs' => run _ <- body x; for_each body xs'
  end.

(* ===================================================================== *)
(** * relation_engine_server/utils/bulk_import.py : [bulk_import]         *)
(* ===================================================================== *)

Module BulkImport.

(** File operations performed by the call, oldest first. *)
Inductive event :=
| EvCreate (path : string)
| EvWrite (path data : string)
| EvClose (path : string)
| EvImport (path contents : string)
| EvRemove (path : string).

(** The part of the process state the function touches. *)
Record world := World {
  files : gmap string string;    (* files on disk: path to contents *)
  buffers : gmap string string;  (* open file objects: unflushed data *)
  ticks : nat;                   (* readings of the clock taken so far *)
  journal : list event
}.

(** The collaborators of [bulk_import]: imported functions, the request
    being served and the system clock. *)
Record env := Env {
  get_collection : string -> result string;
  get_schema_validator : string -> string -> result validator;
  json_loads : string -> result json;
  json_dumps : json -> string;
  import_from_file :
    string -> gmap string string -> gmap string string -> result json;
  clock : nat -> spec_float;
  request_stream : list string
}.

Definition log (e : event) (w : world) : world :=
  World (files w) (buffers w) (ticks w) (journal w ++ [e]).

(** [tempfile.NamedTemporaryFile(mode="a", delete=False)]: creates an empty
    file under a name not in use and returns the open file object, which
    is identified by that name. *)
Definition NamedTemporaryFile : M world string :=
  fun w =>
    let name := fresh (dom (files w)) in
    (Ok name,
     log (EvCreate name)
       (World (<[name := ""]> (files w)) (<[name := ""]> (buffers w))
              (ticks w) (journal w))).

(** [fd.write(data)] *)
Definition fd_write (fd data : string) : M world unit :=
  fun w =>
    match buffers w !! fd with
    | Some buffered =>
        (Ok tt,
         log (EvWrite fd data)
           (World (files w) (<[fd := buffered +:+ data]> (buffers w))
                  (ticks w) (journal w)))
    | None => (Raise (Exn ValueError "I/O operation on closed file"), w)
    end.

(** [fd.close()]: flushes the buffered data to the file. *)
Definition fd_close (fd : string) : M world unit :=
  fun w =>
    match buffers w !! fd with
    | Some buffered =>
        (Ok tt,
         log (EvClose fd)
           (World (alter (fun c => c +:+ buffered) fd (files w))
                  (delete fd (buffers w)) (ticks w) (journal w)))
    | None => (Ok tt, w)
    end.

(** [os.remove(path)] *)
Definition os_remove (path : string) : M world unit :=
  fun w =>
    match files w !! path with
    | Some _ =>
        (Ok tt,
         log (EvRemove path)
           (World (delete path (files w)) (buffers w) (ticks w) (journal w)))
    | None => (Raise (Exn FileNotFoundError path), w)
    end.

(** [time.time()] *)
Definition time_time (E : env) : M world spec_float :=
  fun w =>
    (Ok (clock E (ticks w)),
     World (files w) (buffers w) (S (ticks w)) (journal w)).

(** [import_from_file(path, query_params)]: the bulk loader reads the file
    at [path]. *)
Definition call_import_from_file (E : env) (path : string)
    (query_params : gmap string string) : M world json :=
  fun w =>
    (import_from_file E path query_params (files w),
     log (EvImport path (default "" (files w !! path))) w).

(** [query_params[key]] *)
Definition param (query_params : gmap string string) (key : string)
  : result string :=
  match query_params !! key with
  | Some v => Ok v
  | None => Raise (Exn KeyError key)
  end.

(** The body of the loop over the request stream. *)
Definition bulk_import_line (E : env) (v : validator) (temp_fd : string)
    (line : string) : M world unit :=
  run json_line <- lift (json_loads E line);
  run _ <- lift (validate v json_line);
  run json_line <- lift (_write_edge_key json_line);
  run now <- time_time E;
  run stamp <- lift (py_int (float_mul_int now 1000));
  run json_line <- lift (py_setitem json_line "updated_at" (JInt stamp));
  fd_write temp_fd (json_dumps E json_line +:+ newline).

(** The [try] block. *)
Definition bulk_import_body (E : env) (v : validator) (temp_fd : string)
    (query_params : gmap string string) : M world json :=
  run _ <- for_each (bulk_import_line E v temp_fd) (request_stream E);
  run _ <- fd_close temp_fd;
  call_import_from_file E temp_fd query_params.

Definition bulk_import (E : env) (query_params : gmap string string)
  : M world json :=
  run collection <- lift (param query_params "collection");
  run schema_file <- lift (get_collection E collection);
  run v <- lift (get_schema_validator E schema_file "/schema");
  run temp_fd <- NamedTemporaryFile;
  try_finally (bulk_import_body E v temp_fd query_params)
              (os_remove temp_fd).

End BulkImport.

(* --------------------------------------------------------------------- *)
(** ** Vocabulary for statements about [bulk_import]                      *)
(* --------------------------------------------------------------------- *)

Module BulkImportSpec.
Import BulkImport.

(** The steps of [bulk_import] that precede the creation of the temporary
    file. *)
Definition prelude (E : env) (query_params : gmap string string)
  : result validator :=
  do collection <- param query_params "collection";
  do schema_file <- get_collection E collection;
  get_schema_validator E schema_file "/schema".

(** Events that neither create nor remove a file. *)
Definition is_body_event (e : event) : Prop :=
  match e with
  | EvWrite _ _ | EvClose _ | EvImport _ _ => True
  | EvCreate _ | EvRemove _ => False
  end.

(** [w1] is reached from [w] by steps that leave every file other than
    [name] alone, keep [name] in place and log only body events. *)
Definition body_step (name : string) (w w1 : world) : Prop :=
  delete name (files w1) = delete name (files w)
  /\ (is_Some (files w !! name) -> is_Some (files w1 !! name))
  /\ exists evs, journal w1 = journal w ++ evs /\ Forall is_body_event evs.

Definition respects {A} (name : string) (c : M world A) : Prop :=
  forall w, body_step name w (c w).2.

(** A line of the request that parses, passes the schema and comes out of
    the key derivation as an object. *)
Definition accepted (E : env) (v : validator) (line : string) : Prop :=
  exists (doc : json) (m : gmap string json),
    json_loads E line = Ok doc
    /\ validate v doc = Ok tt
    /\ _write_edge_key doc = Ok (JObj m).

(** [text] is what is written for [line] when the clock is read for the
    [k]-th time: the document after key derivation with [updated_at] set to
    [int(t * 1000)], dumped and followed by a newline. *)
Definition stamped_line (E : env) (k : nat) (line text : string) : Prop :=
  exists (doc : json) (m : gmap string json) (stamp : Z),
    json_loads E line = Ok doc
    /\ _write_edge_key doc = Ok (JObj m)
    /\ py_int (float_mul_int (clock E k) 1000) = Ok stamp
    /\ text = json_dumps E (JObj (<["updated_at" := JInt stamp]> m))
              +:+ newline.

(** [stamped_lines E k lines texts]: the [i]-th text is the stamped line of
    the [i]-th line, for the clock reading [k + i]. *)
Inductive stamped_lines (E : env)
  : nat -> list string -> list string -> Prop :=
| stamped_nil k : stamped_lines E k [] []
| stamped_cons k line text lines texts :
    stamped_line E k line text ->
    stamped_lines E (S k) lines texts ->
    stamped_lines E k (line :: lines) (text :: texts).

(** Every reading of the clock is a finite time, and stays finite when
    multiplied by 1000. *)
Definition clock_in_range (E : env) : Prop :=
  forall k, exists stamp, py_int (float_mul_int (clock E k) 1000) = Ok stamp.

Definition join (texts : list string) : string :=
  fold_right String.append "" texts.

End BulkImportSpec.

Module BulkImportFixture.
Import BulkImport.

(** A small request environment on which the definitions can be run: the
    parser knows three lines, the schema rejects documents with a field
    [invalid], and the loader fails under the policy [error]. *)
Definition test_loads (line : string) : result json :=
  if String.eqb line "edge" then Ok (JObj edge_doc)
  else if String.eqb line "node" then Ok (JObj node_doc)
  else if String.eqb line "invalid"
       then Ok (JObj (<["invalid" := JBool true]> ∅))
  else Raise (Exn JSONDecodeError "Expecting value").

Definition test_validator : validator :=
  validator_of (fun d =>
    match d with
    | JObj m => if bool_decide (is_Some (m !! "invalid"))
                then [VError "invalid is not allowed" "invalid"] else []
    | _ => [VError "not an object" "type"]
    end).

Definition test_dumps (d : json) : string :=
  match d with
  | JObj m =>
      String.concat ","
        (map (fun kv => match kv.2 with
                        | JStr s => kv.1 +:+ "=" +:+ s
                        | JInt z => kv.1 +:+ "=" +:+ pretty z
                        | _ => kv.1
                        end)
             (map_to_list m))
  | _ => "?"
  end.

Definition test_import (path : string) (q files : gmap string string)
  : result json :=
  match q !! "on_duplicate" with
  | Some "error" => Raise (Exn RuntimeError "unique constraint violated")
  | _ => Ok (JObj (<["path" := JStr path]> ∅))
  end.

Definition test_env (stream : list string) : env :=
  Env (fun c => Ok ("/spec/collections/" +:+ c +:+ ".yaml"))
      (fun _ _ => Ok test_validator)
      test_loads test_dumps test_import
      (fun k => match k with
                | 0 => float_of_int 1700000000
                | 1 => SFdiv prec emax (float_of_int 3400000001)
                                       (float_of_int 2)
                | _ => SFdiv prec emax (float_of_int 1001)
                                       (float_of_int 1000)
                end)
      stream.

Definition test_world : world :=
  World (<["/tmp/other" := "kept"]> ∅) ∅ 0 [].

Definition test_params : gmap string string :=
  <["collection" := "edges"]> ∅.

End BulkImportFixture.

(* ===================================================================== *)
(** * importers/data_sources/importer.py                                  *)
(* ===================================================================== *)

Module DataSources.

Definition dquote : string := String "034"%char EmptyString.

(** [str(b)] for a boolean. *)
Definition str_bool (b : bool) : string := if b then "True" else "False".

(** A configuration value formatted in an f-string; [None] prints as
    [None]. *)
Definition str_value (v : option string) : string := default "None" v.

Definition starts_with_slash (s : string) : bool :=
  match s with
  | String c _ => Ascii.eqb c "/"
  | EmptyString => false
  end.

Fixpoint ends_with_slash (s : string) : bool :=
  match s with
  | EmptyString => false
  | String c EmptyString => Ascii.eqb c "/"
  | String _ rest => ends_with_slash rest
  end.

(** [os.path.join(a, *p)] on POSIX. *)
Definition join_component (path b : string) : string :=
  if starts_with_slash b then b
  else if String.eqb path "" || ends_with_slash path then path +:+ b
  else path +:+ "/" +:+ b.

Definition os_path_join (a : string) (p : list string) : string :=
  fold_left join_component p a.

(** [sorted(errors, key=str)]: a stable sort on [str(e)]. *)
Fixpoint insert_by_str (e : verror) (sorted : list verror) : list verror :=
  match sorted with
  | [] => [e]
  | x :: rest =>
      if String.ltb (verror_str x) (verror_str e)
      then x :: insert_by_str e rest
      else e :: x :: rest
  end.

Definition sorted_by_str (errors : list verror) : list verror :=
  fold_right insert_by_str [] errors.

(** The characters of a string: every byte that is not a UTF-8
    continuation byte starts a new character. *)
Definition is_continuation (c : ascii) : bool :=
  let n := N_of_ascii c in (128 <=? n)%N && (n <? 192)%N.

Fixpoint utf8_chars (s : string) : list string :=
  match s with
  | EmptyString => []
  | String c rest =>
      match utf8_chars rest with
      | next :: chars =>
          match rest with
          | String c' _ =>
              if is_continuation c' then String c next :: chars
              else String c EmptyString :: next :: chars
          | EmptyString => String c EmptyString :: next :: chars
          end
      | [] => [String c EmptyString]
      end
  end.

(** [for x in value]: the elements of a list, the keys of a dict (here in
    the order of the map, not of insertion), the characters of a string;
    other values are not iterable. *)
Definition py_iter (value : json) : result (list json) :=
  match value with
  | JArr l => Ok l
  | JObj m => Ok (map (fun kv => JStr kv.1) (map_to_list m))
  | JStr s => Ok (map JStr (utf8_chars s))
  | _ => Raise (Exn TypeError "object is not iterable")
  end.

Record response := Response {
  ok : bool;
  text : string;
  body : list (string * string)   (* [resp.json().items()], formatted *)
}.

Record put_request := Put {
  url : string;
  params : list (string * string);
  headers : list (string * string);
  data : string
}.

(** What the importer does to the outside: lines printed and requests
    sent, oldest first. *)
Record world := World {
  stdout : list string;
  requests : list put_request
}.

(** The collaborators of the importer. *)
Record env := Env {
  module_dir : string;   (* [os.path.dirname(os.path.realpath(__file__))] *)
  get_schema_validator : string -> result validator;
  open_read : string -> result string;
  json_load : string -> result json;
  json_dumps : json -> string;
  requests_put : put_request -> result response
}.

Definition is_OSError (c : exn_class) : bool :=
  match c with
  | OSError | FileNotFoundError | IsADirectoryError => true
  | _ => false
  end.

Definition print (line : string) : M world unit :=
  fun w => (Ok tt, World (stdout w ++ [line]) (requests w)).

Definition get_dataset_schema_dir (E : env) : string :=
  os_path_join (module_dir E)
    ["../"; "../"; "spec"; "datasets"; "data_sources"].

Definition get_relative_dir (E : env) (path : string) : string :=
  os_path_join (module_dir E) [path].

(** The line printed by [note(type, message)]. *)
Definition note_line (type message : string) : string :=
  let icon :=
    if String.eqb type "info" then "ℹ"
    else if String.eqb type "success" then "✓"
    else if String.eqb type "warning" then "⚠"
    else if String.eqb type "error" then "🐛"
    else "?" in
  "[importer] " +:+ icon +:+ " " +:+ message.

Definition note (type message : string) : M world unit :=
  print (note_line type message).

(** The [Importer] object: its [_config] attribute. *)
Record Importer := { _config : gmap string (option string) }.

Definition get_config_or_fail (self : Importer) (key : string)
  : result (option string) :=
  match _config self !! key with
  | None =>
      Raise (Exn KeyError
               ("No such config key: " +:+ dquote +:+ key +:+ dquote))
  | Some v => Ok v
  end.

Definition get_config (self : Importer) (key : string)
    (default_value : option string) : option string :=
  match _config self !! key with
  | None => default_value
  | Some v => v
  end.

Definition requests_put_call (E : env) (req : put_request)
  : M world response :=
  fun w => (requests_put E req, World (stdout w) (requests w ++ [req])).

Definition save_docs (E : env) (self : Importer) (collection : string)
    (docs : list json) (on_duplicate : string) : M world response :=
  run api_url <- lift (get_config_or_fail self "API_URL");
  run token <- lift (get_config_or_fail self "AUTH_TOKEN");
  run resp <- requests_put_call E
    (Put (str_value api_url +:+ "/api/v1/documents")
         [("collection", collection); ("on_duplicate", on_duplicate)]
         [("Authorization", str_value token)]
         (String.concat newline (map (json_dumps E) docs)));
  if negb (ok resp) then lift (Raise (Exn RuntimeError (text resp))) else
  run _ <- note "success"
             ("Saved docs to collection " +:+ collection +:+ "!");
  run _ <- for_each (fun kv => note "info"
                       ("     " +:+ kv.1 +:+ ": " +:+ kv.2)) (body resp);
  ret resp.

(** The inner loop over the errors of one invalid document. *)
Fixpoint report_errors (errors : list verror) (is_error : bool)
  : M world bool :=
  match errors with
  | [] => ret is_error
  | e :: rest =>
      run _ <- note "error" ("Validation error: " +:+ message e);
      report_errors rest true
  end.

(** The loop over the loaded documents; [is_error] and
    [data_sources_to_save] are the local variables it updates. *)
Fixpoint check_data_sources (v : validator) (data_sources : list json)
    (is_error : bool) (data_sources_to_save : list json)
  : M world (bool * list json) :=
  match data_sources with
  | [] => ret (is_error, data_sources_to_save)
  | data_source :: rest =>
      if negb (is_valid v data_source) then
        run is_error <- report_errors
                          (sorted_by_str (iter_errors v data_source))
                          is_error;
        check_data_sources v rest is_error data_sources_to_save
      else
        run ns <- lift (py_getitem data_source "ns");
        run data_source <- lift (py_setitem data_source "_key" ns);
        check_data_sources v rest is_error
          (data_sources_to_save ++ [data_source])
  end.

Definition load_data (E : env) (self : Importer) (dry_run : bool)
  : M world bool :=
  run _ <- note "info" "Loading data";
  run _ <- note "info" "Parameters:";
  run api_url <- lift (get_config_or_fail self "API_URL");
  run _ <- note "info" ("     API_URL: " +:+ str_value api_url);
  run _ <- note "info" ("     dry run: " +:+ str_bool dry_run);
  let default_data_dir := get_relative_dir E "data" in
  let env_data_dir := get_config self "ROOT_DATA_PATH" None in
  run data_dir <-
    match env_data_dir with
    | Some dir =>
        run _ <- note "info"
          ("     (Taking data dir from environment variable "
           +:+ dquote +:+ "RES_ROOT_DATA_PATH" +:+ dquote +:+ ")");
        ret dir
    | None =>
        run _ <- note "info" "     (Taking data dir from default)";
        ret default_data_dir
    end;
  run _ <- note "info"
             ("     data_dir: " +:+ dquote +:+ data_dir +:+ dquote);
  let schema_file :=
    os_path_join (get_dataset_schema_dir E) ["data_sources_nodes.yaml"] in
  run validator <- lift (get_schema_validator E schema_file);
  let file_path := os_path_join data_dir ["data_sources.json"] in
  run loaded <-
    try_except is_OSError
      (run contents <- lift (open_read E file_path);
       run data_sources <- lift (json_load E contents);
       ret (Some data_sources))
      (fun ose =>
         run _ <- note "error" "Error loading import data file";
         ret None);
  match loaded with
  | None => ret false
  | Some data_sources =>
      run documents <- lift (py_iter data_sources);
      run checked <- check_data_sources validator documents false [];
      let '(is_error, data_sources_to_save) := checked in
      if is_error then
        run _ <- note "error" "Data did not validate";
        run _ <- (if dry_run
                  then note "error" "Dry run completed with errors"
                  else note "error"
                         "Due to errors, data will not be loaded");
        ret false
      else
        run _ <- note "success" "Data loaded and validated successfully";
        run _ <- (if dry_run then
                    run _ <- note "success" "Dry run completed successfully";
                    note "warning" "REMEMBER: Data not loaded"
                  else
                    run _ <- save_docs E self "data_sources_nodes"
                               data_sources_to_save "update";
                    ret tt);
        ret true
  end.

End DataSources.

(* --------------------------------------------------------------------- *)
(** ** Vocabulary for statements about [load_data]                        *)
(* --------------------------------------------------------------------- *)

Module DataSourcesSpec.
Import DataSources.

Definition data_dir (E : env) (self : Importer) : string :=
  match get_config self "ROOT_DATA_PATH" None with
  | Some dir => dir
  | None => get_relative_dir E "data"
  end.

Definition file_path (E : env) (self : Importer) : string :=
  os_path_join (data_dir E self) ["data_sources.json"].

Definition schema_file (E : env) : string :=
  os_path_join (get_dataset_schema_dir E) ["data_sources_nodes.yaml"].

(** The lines printed before the data file is opened. *)
Definition preamble (E : env) (self : Importer) (api_url : option string)
    (dry_run : bool) : list string :=
  [ note_line "info" "Loading data";
    note_line "info" "Parameters:";
    note_line "info" ("     API_URL: " +:+ str_value api_url);
    note_line "info" ("     dry run: " +:+ str_bool dry_run);
    match get_config self "ROOT_DATA_PATH" None with
    | Some _ =>
        note_line "info"
          ("     (Taking data dir from environment variable "
           +:+ dquote +:+ "RES_ROOT_DATA_PATH" +:+ dquote +:+ ")")
    | None => note_line "info" "     (Taking data dir from default)"
    end;
    note_line "info"
      ("     data_dir: " +:+ dquote +:+ data_dir E self +:+ dquote) ].

(** The error report printed for one document: one line per violation,
    in the order of [str(e)]; nothing for a valid document. *)
Definition error_report (v : validator) (d : json) : list string :=
  if is_valid v d then []
  else map (fun e => note_line "error" ("Validation error: " +:+ message e))
           (sorted_by_str (iter_errors v d)).

(** The document is an object with a field [ns]. *)
Definition has_ns (d : json) : Prop :=
  exists (m : gmap string json) (ns : json),
    d = JObj m /\ m !! "ns" = Some ns.

(** What [load_data] relies on from the schema of the data sources: a
    document it accepts is an object with a field [ns], and a document it
    rejects has at least one error to report. *)
Definition schema_contract (v : validator) (d : json) : Prop :=
  if is_valid v d then has_ns d else iter_errors v d <> [].

(** A validator for a schema that requires [ns] to be a string and
    forbids a field [invalid], and an environment with two data files. *)
Definition test_validator : validator :=
  validator_of (fun d =>
    match d with
    | JObj m =>
        match m !! "ns" with
        | Some (JStr _) => []
        | Some _ => [VError "ns is not of type 'string'" "2 type"]
        | None => [VError "'ns' is a required property" "1 required"]
        end
        ++ (if bool_decide (is_Some (m !! "invalid"))
            then [VError "invalid is not allowed" "0 additional"] else [])
    | _ => [VError "not of type 'object'" "type"]
    end).

Definition good_doc (ns : string) : json :=
  JObj (<["ns" := JStr ns]> ∅).

Definition bad_doc : json :=
  JObj (<["ns" := JInt 7]> (<["invalid" := JNull]> ∅)).

Definition test_env : env :=
  Env "/app/importers/data_sources"
      (fun _ => Ok test_validator)
      (fun path =>
         if String.eqb path "/data/data_sources.json" then Ok "mixed"
         else if String.eqb path "/good/data_sources.json" then Ok "good"
         else Raise (Exn FileNotFoundError path))
      (fun contents =>
         if String.eqb contents "mixed"
         then Ok (JArr [good_doc "a"; bad_doc; good_doc "b"; JArr []])
         else Ok (JArr [good_doc "a"; good_doc "b"]))
      (fun d => match d with
                | JObj m => match m !! "_key" with
                            | Some (JStr k) => k
                            | _ => "?"
                            end
                | _ => "?"
                end)
      (fun req => Ok (Response true "" [("created", "2")])).

Definition test_importer (root : string) : Importer :=
  {| _config := <["API_URL" := Some "http://re"]>
                 (<["AUTH_TOKEN" := Some "t"]>
                   (<["ROOT_DATA_PATH" := Some root]> ∅)) |}.

End DataSourcesSpec.

(* ===================================================================== *)
(** * The DJORNL parser (importers/djornl/parser.py)                      *)
(* ===================================================================== *)

(** The parser module is exercised by [importers/test/test_djornl_parser.py]
    but its source is not part of the sources at hand; the definitions of
    this module follow the specification (sections 3, 4.1 to 4.6 and 7). *)

Module Djornl.

(** [s] occurs in [t]. *)
Definition contains (s t : string) : Prop :=
  exists pre post, t = pre +:+ s +:+ post.

(** Modelled from the spec: the logical roles of a file (section 3). *)
Inductive role := edges | node_metadata | cluster.

#[global] Instance role_eq_dec : EqDecision role.
Proof. solve_decision. Defined.

(** Modelled from the spec: the file descriptor of the manifest (section 3
    and 6): relative path, role, expected column count, index of the type
    column if any, the closed vocabulary of type values, and the declared
    column delimiter (section 4.2). *)
Record descriptor := Descriptor {
  path : string;
  file_role : role;
  expected_columns : nat;
  type_column : option nat;
  vocabulary : list string;
  delimiter : ascii
}.

(** Modelled from the spec: the root data directory (section 6); a path
    holds a regular file, given by its lines, or a directory. *)
Inductive entry :=
| File (lines : list string)
| Directory.

(** Modelled from the spec: the files under the root data directory, by
    path. *)
Definition file_system := gmap string entry.

(** Modelled from the spec: the outcome of parsing the manifest document
    and validating it against the manifest schema (section 4.1); the YAML
    parser and the schema are collaborators. *)
Inductive manifest_check :=
| Valid (file_list : list descriptor)
| Invalid (violations : list string).

(** Modelled from the spec: the parts of the parser that the spec leaves
    to the implementation: the manifest reader, and how the columns of a
    data row (given with the header row of its file) become the fields of
    the record emitted for it. *)
Record collaborators := Collaborators {
  read_manifest : list string -> manifest_check;
  row_record : descriptor -> list string -> list string -> json
}.

(** Modelled from the spec: the configured parser, that is the root data
    path and the validated manifest (section 4.1). *)
Record parser := Parser {
  root_data_path : string;
  manifest : list descriptor
}.

(** Modelled from the spec: the reads of a call (section 5), as a log of
    the lines read from data files: file name and 1-indexed line number,
    oldest first. *)
Definition read_log := list (string * nat).

(** Modelled from the spec: the path of a descriptor is relative to the
    root data directory (section 3). *)
Definition full_path (root : string) (d : descriptor) : string :=
  DataSources.os_path_join root [path d].

(** Modelled from the spec: [manifest.yaml] under the root data path
    (section 4.1). *)
Definition manifest_path (root : string) : string :=
  DataSources.os_path_join root ["manifest.yaml"].

(** Modelled from the spec: the configuration-time check of one referenced
    path (section 4.1). *)
Definition check_path (fs : file_system) (root : string) (d : descriptor)
  : list string :=
  match fs !! full_path root d with
  | Some (File _) => []
  | Some Directory => [full_path root d +:+ ": not a file"]
  | None => [full_path root d +:+ ": file does not exist"]
  end.

(** Modelled from the spec: the manifest loader [configure] (section 4.1).
    Every descriptor is checked; the message of the error lists the
    offending paths, one per line. *)
Definition configure (C : collaborators) (fs : file_system)
    (root : string) : result parser :=
  match fs !! manifest_path root with
  | Some (File lines) =>
      match read_manifest C lines with
      | Invalid violations =>
          Raise (Exn ConfigurationError
                   (String.concat newline
                      ("The manifest file failed validation" :: violations)))
      | Valid file_list =>
          match flat_map (check_path fs root) file_list with
          | [] => Ok (Parser root file_list)
          | errors =>
              Raise (Exn ConfigurationError (String.concat newline errors))
          end
      end
  | _ =>
      Raise (Exn ConfigurationError
               ("No manifest file found at " +:+ manifest_path root))
  end.

(** Modelled from the spec: column splitting (section 4.2); a line is cut
    at every occurrence of the delimiter, without trimming. *)
Fixpoint split (delim : ascii) (s : string) : list string :=
  match s with
  | EmptyString => [EmptyString]
  | String c rest =>
      if Ascii.eqb c delim then EmptyString :: split delim rest
      else match split delim rest with
           | col :: cols => String c col :: cols
           | [] => [String c EmptyString]
           end
  end.

(** Modelled from the spec: reading line [n] of a data file. *)
Definition read_line (name : string) (n : nat) : M read_log unit :=
  fun log => (Ok tt, log ++ [(name, n)]).

(** Modelled from the spec: the message of a column count violation
    (section 4.2). *)
Definition col_count_message (d : descriptor) (n found : nat) : string :=
  path d +:+ " line " +:+ pretty n +:+ ": expected "
  +:+ pretty (expected_columns d) +:+ " cols, found " +:+ pretty found.

(** Modelled from the spec: the structural row validator (section 4.2),
    together with the loop that consumes the rows it yields.  [n] is the
    line number of the first of [rows]; each line is read, split and
    checked in turn, and [on_row] is applied to a row before the next line
    is read. *)
Fixpoint scan_rows {A} (d : descriptor)
    (on_row : nat -> list string -> A -> result A)
    (n : nat) (rows : list string) (acc : A) : M read_log A :=
  match rows with
  | [] => ret acc
  | line :: rest =>
      run _ <- read_line (path d) n;
      let cols := split (delimiter d) line in
      if Nat.eqb (length cols) (expected_columns d) then
        run acc <- lift (on_row n cols acc);
        scan_rows d on_row (S n) rest acc
      else
        lift (Raise (Exn FormatError
                       (col_count_message d n (length cols))))
  end.

(** Modelled from the spec: edge files report an edge type, node-role
    files a node type (section 4.3). *)
Definition type_label (r : role) : string :=
  match r with
  | edges => "edge"
  | node_metadata | cluster => "node"
  end.

(** Modelled from the spec: the message of a vocabulary violation
    (section 4.3). *)
Definition type_message (d : descriptor) (n : nat) (value : string)
  : string :=
  path d +:+ " line " +:+ pretty n +:+ ": invalid "
  +:+ type_label (file_role d) +:+ " type: " +:+ value.

(** Modelled from the spec: the type vocabulary checker (section 4.3). *)
Definition check_type (d : descriptor) (n : nat) (cols : list string)
  : result unit :=
  match type_column d with
  | None => Ok tt
  | Some i =>
      match cols !! i with
      | Some value =>
          if bool_decide (value ∈ vocabulary d) then Ok tt
          else Raise (Exn FormatError (type_message d n value))
      | None => Ok tt
      end
  end.

(** Modelled from the spec: what a loader does with a data row (sections
    4.3 and 4.4): the type value is checked, then the record of the row is
    emitted. *)
Definition on_row (C : collaborators) (d : descriptor)
    (header : list string) (n : nat) (cols : list string)
    (records : list json) : result (list json) :=
  do _ <- check_type d n cols;
  Ok (records ++ [row_record C d header cols]).

(** Modelled from the spec: the scan of one data file (sections 4.2 to
    4.4).  Line 1 is the header row; the data rows start at line 2. *)
Definition scan_file (C : collaborators) (fs : file_system) (root : string)
    (d : descriptor) (records : list json) : M read_log (list json) :=
  match fs !! full_path root d with
  | Some (File []) => ret records
  | Some (File (header :: rows)) =>
      run _ <- read_line (path d) 1;
      scan_rows d (on_row C d (split (delimiter d) header)) 2 rows records
  | Some Directory =>
      lift (Raise (Exn IsADirectoryError (full_path root d)))
  | None => lift (Raise (Exn FileNotFoundError (full_path root d)))
  end.

(** Modelled from the spec: the files of a call are read one after the
    other, in manifest order (sections 4.4 and 5). *)
Fixpoint scan_files (C : collaborators) (fs : file_system) (root : string)
    (ds : list descriptor) (records : list json)
  : M read_log (list json) :=
  match ds with
  | [] => ret records
  | d :: rest =>
      run records <- scan_file C fs root d records;
      scan_files C fs root rest records
  end.

(** Modelled from the spec: a loader iterates the descriptors of its role
    (section 4.4). *)
Definition files_of (r : role) (p : parser) : list descriptor :=
  filter (fun d => file_role d = r) (manifest p).

(** Modelled from the spec: the records of the files of a role, each call
    starting from nothing (section 3, lifecycle). *)
Definition load_role (C : collaborators) (fs : file_system) (p : parser)
    (r : role) : M read_log (list json) :=
  scan_files C fs (root_data_path p) (files_of r p) [].

(** Modelled from the spec: the endpoint identifiers of an edge record
    (section 3). *)
Definition endpoints (edge : json) : list string :=
  match edge with
  | JObj m =>
      match m !! "_from", m !! "_to" with
      | Some (JStr from), Some (JStr to) => [from; to]
      | _, _ => []
      end
  | _ => []
  end.

(** Modelled from the spec: the stub node of an endpoint (section 4.4). *)
Definition node_stub (key : string) : json :=
  JObj (<["_key" := JStr key]> ∅).

(** Modelled from the spec: the edge loader (section 4.4). *)
Definition load_edges (C : collaborators) (fs : file_system) (p : parser)
  : M read_log json :=
  run records <- load_role C fs p edges;
  ret (JObj (<["nodes" := JArr (map node_stub
                                  (remove_dups (flat_map endpoints records)))]>
             (<["edges" := JArr records]> ∅))).

(** Modelled from the spec: the node metadata loader (section 4.5). *)
Definition load_node_metadata (C : collaborators) (fs : file_system)
    (p : parser) : M read_log json :=
  run records <- load_role C fs p node_metadata;
  ret (JObj (<["nodes" := JArr records]> ∅)).

(** Modelled from the spec: the cluster data loader (section 4.6). *)
Definition load_cluster_data (C : collaborators) (fs : file_system)
    (p : parser) : M read_log json :=
  run records <- load_role C fs p cluster;
  ret (JObj (<["nodes" := JArr records]> ∅)).

(** Modelled from the spec: the three loaders, by role. *)
Definition load (C : collaborators) (fs : file_system) (p : parser)
    (r : role) : M read_log json :=
  match r with
  | edges => load_edges C fs p
  | node_metadata => load_node_metadata C fs p
  | cluster => load_cluster_data C fs p
  end.

(** Modelled from the spec: configuration followed by a load (section 2),
    as the tests do it. *)
Definition configure_and_load (C : collaborators) (fs : file_system)
    (root : string) (r : role) : M read_log json :=
  run p <- lift (configure C fs root);
  load C fs p r.

End Djornl.

(* --------------------------------------------------------------------- *)
(** ** Vocabulary for statements about the parser, and test data          *)
(* --------------------------------------------------------------------- *)

Module DjornlSpec.
Import Djornl.

(** A data row with the expected number of columns and an admissible
    type value. *)
Definition row_clean (d : descriptor) (line : string) : Prop :=
  length (split (delimiter d) line) = expected_columns d
  /\ check_type d 0 (split (delimiter d) line) = Ok tt.

(** A file all of whose data rows are clean. *)
Definition file_clean (fs : file_system) (root : string) (d : descriptor)
  : Prop :=
  exists lines,
    fs !! full_path root d = Some (File lines)
    /\ Forall (row_clean d) (tail lines).

(** Lines [1] to [k] of the file of [d]. *)
Definition lines_read (d : descriptor) (k : nat) : read_log :=
  map (fun n => (path d, n)) (seq 1 k).

(** Every line of the file of [d]. *)
Definition file_read (fs : file_system) (root : string) (d : descriptor)
  : read_log :=
  match fs !! full_path root d with
  | Some (File lines) => lines_read d (length lines)
  | _ => []
  end.

Definition tab : ascii := "009"%char.

Definition tsv (cols : list string) : string :=
  String.concat (String tab EmptyString) cols.

Definition edges_tsv : descriptor :=
  Descriptor "edges.tsv" edges 5 (Some 2) ["regulatory"; "physical"] tab.

Definition nodes_csv : descriptor :=
  Descriptor "nodes.csv" node_metadata 3 (Some 1) ["gene"; "pheno"]
             ","%char.

Definition clusters_tsv : descriptor :=
  Descriptor "clusters.tsv" cluster 2 None [] tab.

(** The manifest file holds one word; the reader recognises the word
    [broken] as a document that violates the schema. *)
Definition test_collaborators : collaborators :=
  Collaborators
    (fun lines =>
       match lines with
       | ["broken"] => Invalid ["'file_list' is a required property"]
       | _ => Valid [edges_tsv; nodes_csv; clusters_tsv]
       end)
    (fun d header cols =>
       match file_role d, cols with
       | edges, from :: to :: _ =>
           JObj (<["_key" := JStr (edge_key from to)]>
                 (<["_from" := JStr from]> (<["_to" := JStr to]> ∅)))
       | _, key :: _ => JObj (<["_key" := JStr key]> ∅)
       | _, [] => JNull
       end).

Definition edges_header : string :=
  tsv ["node1"; "node2"; "edge_type"; "score"; "layer"].

Definition nodes_header : string := "node_id,node_type,name".

Definition with_files (edge_lines node_lines cluster_lines : entry)
  : file_system :=
  <["/data/manifest.yaml" := File ["ok"]]>
    (<["/data/edges.tsv" := edge_lines]>
       (<["/data/nodes.csv" := node_lines]>
          (<["/data/clusters.tsv" := cluster_lines]> ∅))).

(** Headers only. *)
Definition empty_files : file_system :=
  with_files (File [edges_header]) (File [nodes_header]) (File []).

(** Three valid edges, two valid nodes. *)
Definition test_data : file_system :=
  with_files
    (File [ edges_header;
            tsv ["g1"; "g2"; "regulatory"; "1.0"; "x"];
            tsv ["g2"; "g3"; "physical"; "2.0"; "x"];
            tsv ["g1"; "g3"; "physical"; "3.0"; "y"] ])
    (File [ nodes_header; "g1,gene,first"; "g2,pheno,second" ])
    (File [ "cluster_id"; tsv ["c1"; "g1"] ]).

(** Row 3 of the edge file carries a type outside the vocabulary, row 5 of
    the node file too. *)
Definition invalid_types : file_system :=
  with_files
    (File [ edges_header;
            tsv ["g1"; "g2"; "regulatory"; "1.0"; "x"];
            tsv ["g2"; "g3"; "bogus-type"; "2.0"; "x"];
            tsv ["g1"; "g3"; "bogus-too"; "3.0"; "y"] ])
    (File [ nodes_header; "g1,gene,a"; "g2,pheno,b"; "g3,gene,c";
            "g4,Monkey,d" ])
    (File []).

(** Line 6 of the edge file has 3 columns, line 3 of the node file 4. *)
Definition col_count_errors : file_system :=
  with_files
    (File [ edges_header;
            tsv ["g1"; "g2"; "regulatory"; "1.0"; "x"];
            tsv ["g2"; "g3"; "physical"; "2.0"; "x"];
            tsv ["g1"; "g3"; "physical"; "3.0"; "y"];
            tsv ["g3"; "g4"; "physical"; "3.0"; "y"];
            tsv ["g4"; "g5"; "physical"];
            tsv ["g5"] ])
    (File [ nodes_header; "g1,gene,a"; "g2,pheno,b,extra"; "g3" ])
    (File []).

Definition test_parser : parser :=
  Parser "/data" [edges_tsv; nodes_csv; clusters_tsv].

(** Three edge files: the first is clean, the second is malformed at its
    line 3, the third is never reached. *)
Definition more_edges (name : string) : descriptor :=
  Descriptor name edges 5 (Some 2) ["regulatory"; "physical"] tab.

Definition three_edge_files : parser :=
  Parser "/data" [edges_tsv; nodes_csv; more_edges "b.tsv";
                  more_edges "c.tsv"].

Definition short_row_in_b : file_system :=
  <["/data/b.tsv" :=
      File [ edges_header;
             tsv ["g1"; "g2"; "physical"; "1.0"; "x"];
             tsv ["g2"; "g3"; "physical"];
             tsv ["g3"] ]]>
    (<["/data/c.tsv" := File [edges_header; "never read"]]> test_data).

Definition bad_type_in_b : file_system :=
  <["/data/b.tsv" :=
      File [ edges_header;
             tsv ["g1"; "g2"; "physical"; "1.0"; "x"];
             tsv ["g2"; "g3"; "bogus-type"; "2.0"; "x"];
             tsv ["g3"] ]]>
    (<["/data/c.tsv" := File [edges_header; "never read"]]> test_data).

End DjornlSpec.

(* ===================================================================== *)
(** * importers/data_sources/importer.py : [do_import], [main], [init]    *)
(* ===================================================================== *)

Module DataSourcesMain.
Import DataSources.

(** How a call ends: it returns, it raises an exception, or it leaves
    through [sys.exit(code)].  [SystemExit] is not an [Exception] and is
    not caught by [except Exception]. *)
Inductive outcome (A : Type) :=
| Returned (a : A)
| Raised (e : exn)
| Exited (code : Z).
Arguments Returned {A} a.
Arguments Raised {A} e.
Arguments Exited {A} code.

(** What the module takes from the process it runs in. *)
Record process := Process {
  load_from_env : result (gmap string (option string));
                                 (* [config.load_from_env(...)] *)
  str_of : exn -> string;        (* [str(err)] *)
  format_exc : exn -> string;    (* [traceback.format_exc()] *)
  parse_args : outcome bool;     (* [get_args().dry_run], or argparse exits *)
  module_name : string           (* [__name__] *)
}.

(** [Importer()]: the constructor calls [load_config]. *)
Definition new_Importer (P : process) : result Importer :=
  do config <- load_from_env P;
  Ok {| _config := config |}.

Definition do_import (E : env) (P : process) (dry_run : bool)
  : world -> outcome unit * world :=
  fun w =>
    let w := (note "info" "Starting Import" w).2 in
    match new_Importer P with
    | Raise e => (Raised e, w)
    | Ok importer =>
        let '(r, w) := load_data E importer dry_run w in
        let '(out, w) :=
          match r with
          | Ok _ => (Returned tt, w)
          | Raise err =>
              let w := (note "error" "Unhandled exception:" w).2 in
              let w := (note "error" (str_of P err) w).2 in
              let w := (note "error" (format_exc P err) w).2 in
              (Exited 1, w)
          end in
        (out, (note "info" "Finished Import" w).2)
    end.

Definition main (E : env) (P : process) : world -> outcome unit * world :=
  fun w =>
    match parse_args P with
    | Returned dry_run =>
        match do_import E P dry_run w with
        | (Returned _, w) => (Exited 0, w)
        | stopped => stopped
        end
    | Raised e => (Raised e, w)
    | Exited code => (Exited code, w)
    end.

Definition init (E : env) (P : process) : world -> outcome unit * world :=
  fun w =>
    if String.eqb (module_name P) "__main__" then main E P w
    else (Returned tt, w).

End DataSourcesMain.

(* --------------------------------------------------------------------- *)
(** ** Vocabulary for further statements                                  *)
(* --------------------------------------------------------------------- *)

Module MoreSpec.

(** A character of [0123456789abcdef]. *)
Definition is_lower_hex (c : ascii) : bool :=
  existsb (Ascii.eqb c) (list_ascii_of_string "0123456789abcdef").

(** The values that are neither a dict, a list nor a string. *)
Definition is_scalar (d : json) : bool :=
  match d with
  | JNull | JBool _ | JInt _ | JFloat _ => true
  | JStr _ | JArr _ | JObj _ => false
  end.

Definition is_object (d : json) : bool :=
  match d with
  | JObj _ => true
  | _ => false
  end.

Definition is_string (d : json) : bool :=
  match d with
  | JStr _ => true
  | _ => false
  end.

(** [key in d] is [True]. *)
Definition holds (key : string) (d : json) : bool :=
  match py_contains key d with
  | Ok b => b
  | Raise _ => false
  end.

(** The call raises an exception of the class [cls]. *)
Definition raises {A} (cls : exn_class) (r : result A) : Prop :=
  exists msg, r = Raise (Exn cls msg).

(** The line does not parse, or its document does not pass the schema;
    [e] is the exception raised. *)
Definition rejected (E : BulkImport.env) (v : validator) (line : string)
    (e : exn) : Prop :=
  BulkImport.json_loads E line = Raise e
  \/ exists doc, BulkImport.json_loads E line = Ok doc
                 /\ validate v doc = Raise e.

(** The document as [load_data] saves it: [_key] set to the value of
    [ns]. *)
Definition keyed (d : json) : json :=
  match d with
  | JObj m =>
      match m !! "ns" with
      | Some ns => JObj (<["_key" := ns]> m)
      | None => d
      end
  | _ => d
  end.

(** The request sent by [save_docs]. *)
Definition save_request (E : DataSources.env) (api_url token : option string)
    (collection on_duplicate : string) (docs : list json)
  : DataSources.put_request :=
  DataSources.Put
    (DataSources.str_value api_url +:+ "/api/v1/documents")
    [("collection", collection); ("on_duplicate", on_duplicate)]
    [("Authorization", DataSources.str_value token)]
    (String.concat newline (map (DataSources.json_dumps E) docs)).

(** The part of [load_data] that follows the creation of the validator:
    opening and parsing the data file, checking the documents, and saving
    them. *)
Definition load_documents (E : DataSources.env) (self : DataSources.Importer)
    (dry_run : bool) (validator : validator) (file_path : string)
  : M DataSources.world bool :=
  run loaded <-
    try_except DataSources.is_OSError
      (run contents <- lift (DataSources.open_read E file_path);
       run data_sources <- lift (DataSources.json_load E contents);
       ret (Some data_sources))
      (fun ose =>
         run _ <- DataSources.note "error" "Error loading import data file";
         ret None);
  match loaded with
  | None => ret false
  | Some data_sources =>
      run documents <- lift (DataSources.py_iter data_sources);
      run checked <- DataSources.check_data_sources validator documents
                       false [];
      let '(is_error, data_sources_to_save) := checked in
      if is_error then
        run _ <- DataSources.note "error" "Data did not validate";
        run _ <- (if dry_run
                  then DataSources.note "error"
                         "Dry run completed with errors"
                  else DataSources.note "error"
                         "Due to errors, data will not be loaded");
        ret false
      else
        run _ <- DataSources.note "success"
                   "Data loaded and validated successfully";
        run _ <- (if dry_run then
                    run _ <- DataSources.note "success"
                               "Dry run completed successfully";
                    DataSources.note "warning" "REMEMBER: Data not loaded"
                  else
                    run _ <- DataSources.save_docs E self
                               "data_sources_nodes"
                               data_sources_to_save "update";
                    ret tt);
        ret true
  end.

(** The data file as [load_data] reads it: the outcome of opening the file
    and parsing its contents. *)
Definition read_data_file (E : DataSources.env) (self : DataSources.Importer)
  : result json :=
  do contents <- DataSources.open_read E (DataSourcesSpec.file_path E self);
  DataSources.json_load E contents.

(** A document that the schema accepts and that has a field [ns]. *)
Definition loadable (v : validator) (d : json) : Prop :=
  is_valid v d = true /\ DataSourcesSpec.has_ns d.

(** Environments of the importer whose data file is not valid JSON, and
    whose data file holds a number. *)
Definition broken_json_env : DataSources.env :=
  DataSources.Env "/app" (fun _ => Ok DataSourcesSpec.test_validator)
    (fun _ => Ok "{")
    (fun _ => Raise (Exn JSONDecodeError "Expecting property name"))
    (fun _ => "") (fun _ => Ok (DataSources.Response true "" [])).

Definition number_env : DataSources.env :=
  DataSources.Env "/app" (fun _ => Ok DataSourcesSpec.test_validator)
    (fun _ => Ok "42") (fun _ => Ok (JInt 42))
    (fun _ => "") (fun _ => Ok (DataSources.Response true "" [])).

(** An environment whose server refuses the documents. *)
Definition refusing_env : DataSources.env :=
  DataSources.Env "/app/importers/data_sources"
    (fun _ => Ok DataSourcesSpec.test_validator)
    (DataSources.open_read DataSourcesSpec.test_env)
    (DataSources.json_load DataSourcesSpec.test_env)
    (DataSources.json_dumps DataSourcesSpec.test_env)
    (fun _ => Ok (DataSources.Response false "Unauthorized" [])).

(** A process started as a script, with the test configuration for the
    given data directory. *)
Definition test_process (root : string) (args : DataSourcesMain.outcome bool)
  : DataSourcesMain.process :=
  DataSourcesMain.Process
    (Ok (DataSources._config (DataSourcesSpec.test_importer root)))
    exn_msg
    (fun e => "Traceback (most recent call last): " +:+ exn_msg e)
    args "__main__".

(** The world when [load_data] is entered from [do_import]. *)
Definition started (w : DataSources.world) : DataSources.world :=
  DataSources.World
    (DataSources.stdout w
     ++ [DataSources.note_line "info" "Starting Import"])
    (DataSources.requests w).

(** A computation that sends no request. *)
Definition quiet {A} (c : M DataSources.world A) : Prop :=
  forall w, DataSources.requests (c w).2 = DataSources.requests w.

(** A computation that has sent no request whenever it returns [False]. *)
Definition quiet_when_false (c : M DataSources.world bool) : Prop :=
  forall w, (c w).1 = Ok false ->
            DataSources.requests (c w).2 = DataSources.requests w.

(** A computation that sends at most one request. *)
Definition at_most_one_request {A} (c : M DataSources.world A) : Prop :=
  forall w,
    DataSources.requests (c w).2 = DataSources.requests w
    \/ exists req,
         DataSources.requests (c w).2 = DataSources.requests w ++ [req].

(** A computation that has sent exactly one request whenever it returns a
    value that satisfies [P]. *)
Definition sends_one_when {A} (P : A -> Prop) (c : M DataSources.world A)
  : Prop :=
  forall w a, (c w).1 = Ok a -> P a ->
    exists req,
      DataSources.requests (c w).2 = DataSources.requests w ++ [req].

(** [str(a)] is not greater than [str(b)]. *)
Definition str_le (a b : verror) : Prop :=
  String.ltb (verror_str b) (verror_str a) = false.

End MoreSpec.
(* --------------------------------------------------------------------- *)
(** ** Properties of the digest and of [_write_edge_key]                  *)
(* --------------------------------------------------------------------- *)

Lemma digest_length (data : list byte) (n : nat) :
  length (Blake2b.digest data n) = n.
Proof. unfold Blake2b.digest. by rewrite length_map, length_seq. Qed.

Lemma hex_length (bs : list byte) :
  String.length (Blake2b.hex bs) = 2 * length bs.
Proof. induction bs as [|b bs IH]; simpl; [done | rewrite IH; lia]. Qed.

Lemma hexdigest_length (data : list byte) (n : nat) :
  String.length (Blake2b.hexdigest data n) = 2 * n.
Proof. unfold Blake2b.hexdigest. by rewrite hex_length, digest_length. Qed.

(** Test vectors of [hashlib.blake2b]. *)
Example blake2b_abc :
  Blake2b.hexdigest (encode "abc") 64 =
  "ba80a53f981c4d0d6a2797b69f12f6e94c212f14685ac4b74b12bb6fdbffa2d1" +:+
  "7d87c5392aab792dc252d5de4533cc9518d38aa8dbf1925ab92386edd4009923".
Proof. vm_compute. reflexivity. Qed.

Example edge_key_a_b : edge_key "a" "b" = "0e52b5f187de1088".
Proof. vm_compute. reflexivity. Qed.

Example edge_key_b_a : edge_key "b" "a" = "ee3f6b40991a6c7a".
Proof. vm_compute. reflexivity. Qed.

Lemma py_contains_present (k : string) (m : gmap string json) (v : json) :
  m !! k = Some v -> py_contains k (JObj m) = Ok true.
Proof. intros H; simpl. rewrite bool_decide_eq_true_2; eauto. Qed.

Lemma py_contains_absent (k : string) (m : gmap string json) :
  m !! k = None -> py_contains k (JObj m) = Ok false.
Proof.
  intros H; simpl. rewrite bool_decide_eq_false_2; [done|].
  rewrite H. by intros [? ?].
Qed.

Lemma py_getitem_present (k : string) (m : gmap string json) (v : json) :
  m !! k = Some v -> py_getitem (JObj m) k = Ok v.
Proof. intros H; simpl. by rewrite H. Qed.

(** The call on an object that has both endpoints and no key. *)
Lemma write_edge_key_run (m : gmap string json) (a b : json) :
  m !! "_key" = None -> m !! "_from" = Some a -> m !! "_to" = Some b ->
  _write_edge_key (JObj m) =
  (do from_bytes <- py_encode a;
   do to_bytes <- py_encode b;
   py_setitem (JObj m) "_key"
     (JStr (Blake2b.hexdigest (from_bytes ++ to_bytes) 8))).
Proof.
  intros Hk Hf Ht. unfold _write_edge_key.
  rewrite (py_contains_absent _ _ Hk); cbn [rbind negb].
  rewrite (py_contains_present _ _ _ Hf); cbn [rbind negb].
  rewrite (py_contains_present _ _ _ Ht); cbn [rbind negb].
  rewrite (py_getitem_present _ _ _ Hf); cbn [rbind].
  destruct (py_encode a); cbn [rbind]; [|done].
  by rewrite (py_getitem_present _ _ _ Ht).
Qed.

Lemma py_encode_encodable (s : string) :
  encodable s = true -> py_encode (JStr s) = Ok (encode s).
Proof. intros H. cbn [py_encode]. unfold str_encode. by rewrite H. Qed.

Lemma write_edge_key_edge (m : gmap string json) (from to : string) :
  m !! "_key" = None ->
  m !! "_from" = Some (JStr from) ->
  m !! "_to" = Some (JStr to) ->
  encodable from = true ->
  encodable to = true ->
  _write_edge_key (JObj m) =
  Ok (JObj (<["_key" := JStr (edge_key from to)]> m)).
Proof.
  intros Hk Hf Ht Hfrom Hto.
  rewrite (write_edge_key_run m _ _ Hk Hf Ht).
  by rewrite (py_encode_encodable _ Hfrom), (py_encode_encodable _ Hto).
Qed.

Lemma write_edge_key_has_key (m : gmap string json) (v : json) :
  m !! "_key" = Some v -> _write_edge_key (JObj m) = Ok (JObj m).
Proof.
  intros Hk. unfold _write_edge_key.
  by rewrite (py_contains_present _ _ _ Hk).
Qed.

Lemma write_edge_key_no_from (m : gmap string json) :
  m !! "_from" = None -> _write_edge_key (JObj m) = Ok (JObj m).
Proof.
  intros Hf. unfold _write_edge_key.
  destruct (m !! "_key") as [v|] eqn:Hk.
  - by rewrite (py_contains_present _ _ _ Hk).
  - rewrite (py_contains_absent _ _ Hk); cbn [rbind negb].
    by rewrite (py_contains_absent _ _ Hf).
Qed.

Lemma write_edge_key_no_to (m : gmap string json) :
  m !! "_to" = None -> _write_edge_key (JObj m) = Ok (JObj m).
Proof.
  intros Ht. unfold _write_edge_key.
  destruct (m !! "_key") as [v|] eqn:Hk.
  - by rewrite (py_contains_present _ _ _ Hk).
  - rewrite (py_contains_absent _ _ Hk); cbn [rbind negb].
    destruct (m !! "_from") as [f|] eqn:Hf.
    + rewrite (py_contains_present _ _ _ Hf); cbn [rbind negb].
      by rewrite (py_contains_absent _ _ Ht).
    + by rewrite (py_contains_absent _ _ Hf).
Qed.

(** An endpoint that is not a string has no [encode] method, and a string
    that holds a lone surrogate cannot be encoded: the call raises instead
    of returning. *)
Remark write_edge_key_non_string :
  _write_edge_key (JObj (<["_from" := JInt 1]> edge_doc)) =
  Raise (Exn AttributeError "'int' object has no attribute 'encode'").
Proof. vm_compute. reflexivity. Qed.

Remark write_edge_key_lone_surrogate :
  _write_edge_key (JObj (<["_from" := JStr lone_surrogate]> edge_doc)) =
  Raise (Exn UnicodeEncodeError "surrogates not allowed").
Proof. vm_compute. reflexivity. Qed.

(** C1. A document that has a [_from] and a [_to] string, both of which
    can be encoded, and no [_key] comes back with [_key] set to the
    hexadecimal encoding of the 8-byte BLAKE2b digest of the bytes of
    [_from] followed by the bytes of [_to]; the key is a function of that
    ordered pair alone (the rest of the document does not enter it). *)
Theorem write_edge_key_sets_digest
    (m : gmap string json) (from to : string) :
  m !! "_key" = None ->
  m !! "_from" = Some (JStr from) ->
  m !! "_to" = Some (JStr to) ->
  encodable from = true ->
  encodable to = true ->
  let d := Blake2b.digest (encode from ++ encode to) 8 in
  _write_edge_key (JObj m) = Ok (JObj (<["_key" := JStr (Blake2b.hex d)]> m))
  /\ length d = 8
  /\ String.length (Blake2b.hex d) = 16
  /\ Blake2b.hex d = edge_key from to.
Proof.
  intros Hk Hf Ht Hfrom Hto d. split; [|split; [|split]].
  - by rewrite (write_edge_key_edge m from to).
  - apply digest_length.
  - unfold d. by rewrite hex_length, digest_length.
  - reflexivity.
Qed.

Lemma write_edge_key_sets_digest_witness :
  _write_edge_key (JObj edge_doc) =
  Ok (JObj (<["_key" := JStr "0e52b5f187de1088"]> edge_doc)).
Proof.
  destruct (write_edge_key_sets_digest edge_doc "a" "b") as (H & _ & _ & Hd);
    [reflexivity | reflexivity | reflexivity | reflexivity | reflexivity |].
  rewrite H, Hd. reflexivity.
Defined.

(** C9. Key derivation is deterministic: two documents with equal [_from]
    and equal [_to], strings that can be encoded, and no [_key] receive the
    same key, which is the digest of the concatenation of the two
    endpoints; and the key depends on the order of the endpoints. *)
Theorem edge_key_deterministic
    (m1 m2 : gmap string json) (from to : string) :
  m1 !! "_key" = None -> m1 !! "_from" = Some (JStr from) ->
  m1 !! "_to" = Some (JStr to) ->
  m2 !! "_key" = None -> m2 !! "_from" = Some (JStr from) ->
  m2 !! "_to" = Some (JStr to) ->
  encodable from = true -> encodable to = true ->
  (exists k,
     _write_edge_key (JObj m1) = Ok (JObj (<["_key" := JStr k]> m1))
     /\ _write_edge_key (JObj m2) = Ok (JObj (<["_key" := JStr k]> m2))
     /\ k = Blake2b.hexdigest (encode from ++ encode to) 8)
  /\ edge_key "a" "b" <> edge_key "b" "a".
Proof.
  intros Hk1 Hf1 Ht1 Hk2 Hf2 Ht2 Hfrom Hto. split.
  - exists (edge_key from to). repeat split.
    + by apply write_edge_key_edge.
    + by apply write_edge_key_edge.
  - rewrite edge_key_a_b, edge_key_b_a. discriminate.
Qed.

Lemma edge_key_deterministic_witness :
  exists k,
    _write_edge_key (JObj edge_doc) = Ok (JObj (<["_key" := JStr k]> edge_doc))
    /\ _write_edge_key (JObj (<["weight" := JInt 3]> edge_doc)) =
       Ok (JObj (<["_key" := JStr k]> (<["weight" := JInt 3]> edge_doc)))
    /\ k = Blake2b.hexdigest (encode "a" ++ encode "b") 8.
Proof.
  apply (edge_key_deterministic edge_doc (<["weight" := JInt 3]> edge_doc)
           "a" "b"); reflexivity.
Defined.

(** C10. A document that already has a [_key], or that lacks [_from] or
    [_to], is returned unchanged. *)
Theorem write_edge_key_unchanged (m : gmap string json) :
  is_Some (m !! "_key") \/ m !! "_from" = None \/ m !! "_to" = None ->
  _write_edge_key (JObj m) = Ok (JObj m).
Proof.
  intros [[v Hk] | [Hf | Ht]].
  - by apply (write_edge_key_has_key m v).
  - by apply write_edge_key_no_from.
  - by apply write_edge_key_no_to.
Qed.

Lemma write_edge_key_unchanged_witness :
  _write_edge_key (JObj keyed_doc) = Ok (JObj keyed_doc)
  /\ _write_edge_key (JObj (delete "_to" edge_doc)) =
     Ok (JObj (delete "_to" edge_doc)).
Proof.
  split.
  - apply write_edge_key_unchanged. left. exists (JStr "k"). reflexivity.
  - apply write_edge_key_unchanged. right. right. reflexivity.
Defined.

(* --------------------------------------------------------------------- *)
(** ** [bulk_import]: the temporary file                                  *)
(* --------------------------------------------------------------------- *)

Section BulkImportFile.
Import BulkImport BulkImportSpec.

Lemma body_step_refl name w : body_step name w w.
Proof.
  split; [done|]. split; [done|]. exists []. by rewrite app_nil_r.
Qed.

Lemma body_step_trans name w1 w2 w3 :
  body_step name w1 w2 -> body_step name w2 w3 -> body_step name w1 w3.
Proof.
  intros (Hd1 & Hs1 & evs1 & Hj1 & Hf1) (Hd2 & Hs2 & evs2 & Hj2 & Hf2).
  split; [congruence|]. split; [auto|].
  exists (evs1 ++ evs2). split.
  - by rewrite Hj2, Hj1, <- app_assoc.
  - by apply Forall_app.
Qed.

Lemma respects_lift {A} name (r : result A) :
  respects name (lift (W := world) r).
Proof. intros w. apply body_step_refl. Qed.

Lemma respects_ret {A} name (a : A) : respects name (ret (W := world) a).
Proof. intros w. apply body_step_refl. Qed.

Lemma respects_bind {A B} name (c : M world A) (k : A -> M world B) :
  respects name c -> (forall a, respects name (k a)) ->
  respects name (bind c k).
Proof.
  intros Hc Hk w. unfold bind. specialize (Hc w).
  destruct (c w) as [[a|e] w1]; simpl in *; [|done].
  eapply body_step_trans; [exact Hc | apply Hk].
Qed.

Lemma respects_for_each {A} name (body : A -> M world unit) (xs : list A) :
  (forall x, respects name (body x)) -> respects name (for_each body xs).
Proof.
  intros Hb. induction xs as [|x xs IH]; simpl.
  - apply respects_ret.
  - apply respects_bind; [apply Hb | intros _; apply IH].
Qed.

Lemma respects_time_time name E : respects name (time_time E).
Proof.
  intros w; unfold body_step; simpl. split; [done|]. split; [done|].
  exists []. by rewrite app_nil_r.
Qed.

Lemma respects_fd_write name fd data : respects name (fd_write fd data).
Proof.
  intros w. unfold body_step, fd_write, log. destruct (buffers w !! fd); simpl.
  - split; [done|]. split; [done|]. exists [EvWrite fd data].
    split; [done|]. by repeat constructor.
  - apply body_step_refl.
Qed.

Lemma respects_fd_close name : respects name (fd_close name).
Proof.
  intros w. unfold body_step, fd_close, log. destruct (buffers w !! name); simpl.
  - split; [|split].
    + apply map_eq; intros p. destruct (decide (p = name)) as [->|Hne].
      * by rewrite !lookup_delete_eq.
      * rewrite !lookup_delete_ne by done. by rewrite lookup_alter_ne.
    + intros [c Hc]. rewrite lookup_alter_eq, Hc. by eexists.
    + exists [EvClose name]. split; [done|]. by repeat constructor.
  - apply body_step_refl.
Qed.

Lemma respects_import name E path q :
  respects name (call_import_from_file E path q).
Proof.
  intros w; unfold body_step, call_import_from_file, log; simpl. split; [done|]. split; [done|].
  eexists [_]. split; [done|]. by repeat constructor.
Qed.

Lemma respects_line name E v line :
  respects name (bulk_import_line E v name line).
Proof.
  unfold bulk_import_line.
  repeat (apply respects_bind; [| intros ?]);
    auto using @respects_lift, respects_time_time, respects_fd_write.
Qed.

Lemma respects_body name E v q :
  respects name (bulk_import_body E v name q).
Proof.
  unfold bulk_import_body.
  apply respects_bind; [| intros _; apply respects_bind; [| intros _]].
  - apply respects_for_each. intros line. apply respects_line.
  - apply respects_fd_close.
  - apply respects_import.
Qed.

Lemma fresh_name_unused (w : world) : files w !! fresh (dom (files w)) = None.
Proof. apply not_elem_of_dom. apply is_fresh. Qed.

End BulkImportFile.

Section BulkImportTempFile.
Import BulkImport BulkImportSpec BulkImportFixture.

Lemma bulk_import_prelude_fails E q w e :
  prelude E q = Raise e -> bulk_import E q w = (Raise e, w).
Proof.
  unfold prelude, bulk_import, bind, lift.
  destruct (param q "collection") as [c|?]; simpl; [|congruence].
  destruct (get_collection E c) as [s|?]; simpl; [|congruence].
  destruct (get_schema_validator E s "/schema"); simpl; congruence.
Qed.

Lemma bulk_import_prelude_ok E q w v :
  prelude E q = Ok v ->
  bulk_import E q w =
  try_finally (bulk_import_body E v (fresh (dom (files w))) q)
              (os_remove (fresh (dom (files w))))
              (NamedTemporaryFile w).2.
Proof.
  unfold prelude, bulk_import, bind, lift.
  destruct (param q "collection") as [c|?]; simpl; [|congruence].
  destruct (get_collection E c) as [s|?]; simpl; [|congruence].
  destruct (get_schema_validator E s "/schema"); simpl; congruence.
Qed.

(** C2. Whatever the outcome of the [try] block (a normal return, or an
    exception from the JSON parser, the schema validator, the bulk loader
    or any other step), the temporary file created by the call has been
    removed when the call completes: the file system is as it was on
    entry and the removal is the last file operation of the call.  A call
    that fails before the temporary file is created leaves the world
    untouched. *)
Theorem bulk_import_removes_temp_file
    (E : env) (q : gmap string string) (w : world) :
  let name := fresh (dom (files w)) in
  let r := (bulk_import E q w).1 in
  let w' := (bulk_import E q w).2 in
  files w' = files w
  /\ files w' !! name = None
  /\ match prelude E q with
     | Raise e => r = Raise e /\ w' = w
     | Ok v =>
         r = (bulk_import_body E v name q (NamedTemporaryFile w).2).1
         /\ exists evs,
              journal w' =
              journal w ++ EvCreate name :: evs ++ [EvRemove name]
              /\ Forall is_body_event evs
     end.
Proof.
  intros name r w'. subst r w'.
  destruct (prelude E q) as [v|e] eqn:Hp.
  - rewrite (bulk_import_prelude_ok E q w v Hp). fold name.
    unfold try_finally.
    pose proof (respects_body name E v q (NamedTemporaryFile w).2) as Hb.
    destruct (bulk_import_body E v name q (NamedTemporaryFile w).2)
      as [r w1] eqn:Hbody.
    destruct Hb as (Hd & Hs & evs & Hj & Hf). simpl in Hd, Hs, Hj.
    unfold log in Hd, Hs, Hj; simpl in Hd, Hs, Hj.
    fold name in Hd, Hs, Hj.
    assert (Hfresh : files w !! name = None) by apply fresh_name_unused.
    destruct Hs as [c Hc]; [rewrite lookup_insert_eq; by eexists|].
    unfold os_remove. rewrite Hc. unfold log; simpl.
    assert (Hfiles : delete name (files w1) = files w).
    { rewrite Hd, delete_insert_eq. by apply delete_id. }
    split; [done|]. split; [by rewrite Hfiles|]. split; [done|].
    exists evs. split; [|done].
    rewrite Hj, <- !app_assoc. reflexivity.
  - rewrite (bulk_import_prelude_fails E q w e Hp). simpl.
    split; [done|]. split; [apply fresh_name_unused|done].
Qed.

(** Four runs on the test request: a normal return, a line that does not
    parse, a document rejected by the schema and a failure of the loader.
    Each ends with the removal of the temporary file and leaves the other
    files as they were. *)
Example bulk_import_run_ok :
  let out := bulk_import (test_env ["edge"; "node"]) test_params test_world in
  out.1 = Ok (JObj (<["path" := JStr "0"]> ∅))
  /\ files out.2 = files test_world
  /\ last (journal out.2) = Some (EvRemove "0").
Proof. vm_compute. repeat split. Qed.

Example bulk_import_run_parse_error :
  let out := bulk_import (test_env ["edge"; "oops"; "node"])
                         test_params test_world in
  out.1 = Raise (Exn JSONDecodeError "Expecting value")
  /\ files out.2 = files test_world
  /\ journal out.2 =
     [ EvCreate "0";
       EvWrite "0" ("_key=0e52b5f187de1088,_from=a,_to=b,"
                    +:+ "updated_at=1700000000000" +:+ newline);
       EvRemove "0" ].
Proof. vm_compute. repeat split. Qed.

Example bulk_import_run_invalid :
  let out := bulk_import (test_env ["invalid"; "node"])
                         test_params test_world in
  out.1 = Raise (Exn ValidationError "invalid is not allowed")
  /\ files out.2 = files test_world
  /\ journal out.2 = [EvCreate "0"; EvRemove "0"].
Proof. vm_compute. repeat split. Qed.

Example bulk_import_run_loader_fails :
  let out := bulk_import (test_env ["edge"])
                         (<["on_duplicate" := "error"]> test_params)
                         test_world in
  out.1 = Raise (Exn RuntimeError "unique constraint violated")
  /\ files out.2 = files test_world
  /\ last (journal out.2) = Some (EvRemove "0").
Proof. vm_compute. repeat split. Qed.

(** Without a [collection] parameter the call fails before a temporary
    file exists. *)
Example bulk_import_run_no_collection :
  bulk_import (test_env ["edge"]) ∅ test_world =
  (Raise (Exn KeyError "collection"), test_world).
Proof. vm_compute. reflexivity. Qed.

(* --------------------------------------------------------------------- *)
(** ** [bulk_import]: the ingestion timestamp                             *)
(* --------------------------------------------------------------------- *)

Lemma append_assoc (a b c : string) : (a +:+ b) +:+ c = a +:+ (b +:+ c).
Proof.
  induction a as [|x a IH]; [done|].
  change (String x ((a +:+ b) +:+ c) = String x (a +:+ b +:+ c)).
  by f_equal.
Qed.

Lemma append_empty_r (a : string) : a +:+ "" = a.
Proof.
  induction a as [|x a IH]; [done|].
  change (String x (a +:+ "") = String x a). by f_equal.
Qed.

Lemma bulk_import_line_accepted E v fd line doc m stamp buffered w :
  json_loads E line = Ok doc ->
  validate v doc = Ok tt ->
  _write_edge_key doc = Ok (JObj m) ->
  py_int (float_mul_int (clock E (ticks w)) 1000) = Ok stamp ->
  buffers w !! fd = Some buffered ->
  let text :=
    json_dumps E (JObj (<["updated_at" := JInt stamp]> m)) +:+ newline in
  bulk_import_line E v fd line w =
  (Ok tt, World (files w) (<[fd := buffered +:+ text]> (buffers w))
                (S (ticks w)) (journal w ++ [EvWrite fd text])).
Proof.
  intros Hl Hv Hk Hs Hb text.
  unfold bulk_import_line, bind, lift, time_time, fd_write, log.
  rewrite Hl, Hv, Hk; simpl. rewrite Hs; simpl. rewrite Hb. reflexivity.
Qed.

Lemma for_each_accepted E v fd :
  clock_in_range E ->
  forall lines w buffered,
    Forall (accepted E v) lines ->
    buffers w !! fd = Some buffered ->
    exists texts,
      stamped_lines E (ticks w) lines texts
      /\ for_each (bulk_import_line E v fd) lines w =
         (Ok tt, World (files w)
                       (<[fd := buffered +:+ join texts]> (buffers w))
                       (length lines + ticks w)
                       (journal w ++ map (EvWrite fd) texts)).
Proof.
  intros Hclock lines. induction lines as [|line lines IH];
    intros w buffered Hacc Hb.
  - exists []. split; [constructor|]. simpl. unfold ret.
    rewrite append_empty_r, app_nil_r, insert_id by done.
    by destruct w.
  - inversion Hacc as [|? ? (doc & m & Hl & Hv & Hk) Hrest]; subst.
    destruct (Hclock (ticks w)) as [stamp Hs].
    pose proof (bulk_import_line_accepted E v fd line doc m stamp buffered w
                  Hl Hv Hk Hs Hb) as Hline.
    cbv zeta in Hline.
    set (text := json_dumps E (JObj (<["updated_at" := JInt stamp]> m))
                 +:+ newline) in *.
    set (w1 := World (files w) (<[fd := buffered +:+ text]> (buffers w))
                     (S (ticks w)) (journal w ++ [EvWrite fd text])) in *.
    destruct (IH w1 (buffered +:+ text) Hrest) as (texts & Hst & Hrun).
    { subst w1; simpl. apply lookup_insert_eq. }
    exists (text :: texts). split.
    + constructor; [|exact Hst]. by exists doc, m, stamp.
    + cbn [for_each]. unfold bind at 1. rewrite Hline, Hrun.
      subst w1; simpl. rewrite insert_insert_eq, append_assoc, <- app_assoc.
      do 3 f_equal. lia.
Qed.

Lemma for_each_app {W A} (body : A -> M W unit) (l1 l2 : list A) (w : W) :
  for_each body (l1 ++ l2) w =
  bind (for_each body l1) (fun _ => for_each body l2) w.
Proof.
  revert w. induction l1 as [|x l1 IH]; intros w; [done|].
  cbn [app for_each]. unfold bind at 1 2 3.
  destruct (body x w) as [[[]|e] w1]; [|done].
  rewrite IH. reflexivity.
Qed.

(** C8. Every document of the request that is accepted (it parses, passes
    the schema and comes out of the key derivation as an object) before
    the first line that is not, is written to the temporary file with
    [updated_at] set to [int(time.time() * 1000)] for the clock reading
    taken for that line, whatever its other fields are.  When all the
    lines of the request are accepted, these stamped lines, in order, are
    the file handed to the loader. *)
Theorem bulk_import_stamps_updated_at
    (E : env) (q : gmap string string) (w : world) (v : validator)
    (lines rest : list string) :
  prelude E q = Ok v ->
  request_stream E = lines ++ rest ->
  Forall (accepted E v) lines ->
  clock_in_range E ->
  let name := fresh (dom (files w)) in
  exists texts later,
    stamped_lines E (ticks w) lines texts
    /\ journal (bulk_import E q w).2 =
       journal w ++ EvCreate name :: map (EvWrite name) texts ++ later
    /\ (rest = [] ->
        later = [EvClose name; EvImport name (join texts); EvRemove name]
        /\ (bulk_import E q w).1 =
           import_from_file E name q (<[name := join texts]> (files w))).
Proof.
  intros Hp Hstream Hacc Hclock name.
  rewrite (bulk_import_prelude_ok E q w v Hp). fold name.
  destruct (for_each_accepted E v name Hclock lines
              (NamedTemporaryFile w).2 "" Hacc) as (texts & Hst & Hrun).
  { simpl. fold name. apply lookup_insert_eq. }
  change ("" +:+ join texts) with (join texts) in Hrun.
  unfold NamedTemporaryFile, log in Hrun.
  cbn [fst snd files buffers ticks journal] in Hrun. fold name in Hrun.
  rewrite insert_insert_eq in Hrun.
  set (w1 := World (<[name := ""]> (files w))
                   (<[name := join texts]> (buffers w))
                   (length lines + ticks w)
                   ((journal w ++ [EvCreate name])
                    ++ map (EvWrite name) texts)) in *.
  set (remainder :=
         run _ <- for_each (bulk_import_line E v name) rest;
         run _ <- fd_close name;
         call_import_from_file E name q).
  assert (Hbody :
    bulk_import_body E v name q (NamedTemporaryFile w).2 = remainder w1).
  { unfold bulk_import_body. unfold bind at 1.
    rewrite Hstream, for_each_app. unfold bind at 1.
    unfold NamedTemporaryFile, log.
    cbn [fst snd files buffers ticks journal]. fold name. rewrite Hrun.
    reflexivity. }
  assert (Hresp : respects name remainder).
  { unfold remainder.
    apply respects_bind; [| intros _; apply respects_bind; [| intros _]].
    - apply respects_for_each. intros line. apply respects_line.
    - apply respects_fd_close.
    - apply respects_import. }
  exists texts.
  unfold try_finally. rewrite Hbody.
  destruct (Hresp w1) as (_ & Hsome & evs & Hj & _).
  destruct Hsome as [c Hc]; [subst w1; simpl; by rewrite lookup_insert_eq|].
  destruct (remainder w1) as [r w2] eqn:Hrem.
  cbn [fst snd] in Hj, Hc.
  exists (evs ++ [EvRemove name]).
  split; [exact Hst|]. split.
  - unfold os_remove. rewrite Hc. unfold log.
    cbn [fst snd files buffers ticks journal]. rewrite Hj. subst w1.
    cbn [journal]. rewrite <- !app_assoc. reflexivity.
  - intros ->. unfold remainder in Hrem. cbn [for_each] in Hrem.
    unfold bind, ret, fd_close, call_import_from_file, log in Hrem.
    subst w1. cbn [fst snd files buffers ticks journal] in Hrem.
    rewrite lookup_insert_eq in Hrem.
    cbn [fst snd files buffers ticks journal] in Hrem.
    assert (Hfiles :
      alter (fun c : string => c +:+ join texts) name
            (<[name := ""]> (files w)) = <[name := join texts]> (files w)).
    { apply map_eq. intros p. destruct (decide (p = name)) as [->|Hne].
      - by rewrite lookup_alter_eq, !lookup_insert_eq.
      - by rewrite lookup_alter_ne, !lookup_insert_ne. }
    rewrite Hfiles, lookup_insert_eq in Hrem. cbn [default] in Hrem.
    injection Hrem as <- <-. cbn [journal] in Hj.
    unfold os_remove. cbn [files]. rewrite lookup_insert_eq.
    split; [|reflexivity].
    rewrite <- !app_assoc in Hj. apply app_inv_head in Hj.
    cbn [app] in Hj. injection Hj as Hj. apply app_inv_head in Hj.
    by rewrite <- Hj.
Qed.

(** [int(t * 1000)] on binary64 values: [1700000000.5] gives
    [1700000000500], and [1.001] gives [1000] because the product is
    rounded to [1000.9999999999999] before the truncation. *)
Example stamp_half_second :
  py_int (float_mul_int
            (SFdiv prec emax (float_of_int 3400000001) (float_of_int 2))
            1000) = Ok 1700000000500%Z.
Proof. vm_compute. reflexivity. Qed.

Example stamp_rounding :
  py_int (float_mul_int
            (SFdiv prec emax (float_of_int 1001) (float_of_int 1000))
            1000) = Ok 1000%Z.
Proof. vm_compute. reflexivity. Qed.

Lemma test_clock_in_range stream : clock_in_range (test_env stream).
Proof.
  intros [|[|k]]; eexists; vm_compute; reflexivity.
Qed.

Lemma bulk_import_stamps_updated_at_witness :
  exists texts later,
    stamped_lines (test_env ["edge"; "node"; "invalid"; "node"]) 0
                  ["edge"; "node"] texts
    /\ journal (bulk_import (test_env ["edge"; "node"; "invalid"; "node"])
                            test_params test_world).2 =
       [] ++ EvCreate "0" :: map (EvWrite "0") texts ++ later
    /\ (["invalid"; "node"] = [] ->
        later = [EvClose "0"; EvImport "0" (join texts); EvRemove "0"]
        /\ (bulk_import (test_env ["edge"; "node"; "invalid"; "node"])
                        test_params test_world).1 =
           test_import "0" test_params
             (<["0" := join texts]> (files test_world))).
Proof.
  apply (bulk_import_stamps_updated_at
           (test_env ["edge"; "node"; "invalid"; "node"])
           test_params test_world test_validator
           ["edge"; "node"] ["invalid"; "node"]).
  - reflexivity.
  - reflexivity.
  - repeat constructor.
    + exists (JObj edge_doc). eexists.
      repeat split; vm_compute; reflexivity.
    + exists (JObj node_doc), node_doc. repeat split; reflexivity.
  - apply test_clock_in_range.
Defined.

End BulkImportTempFile.

(* ===================================================================== *)
(** * The data_sources importer                                           *)
(* ===================================================================== *)

Section DataSourcesProofs.
Import DataSources DataSourcesSpec.

Lemma insert_by_str_perm e l : Permutation (insert_by_str e l) (e :: l).
Proof.
  induction l as [|x l IH]; simpl; [done|].
  destruct (String.ltb _ _); [|done].
  rewrite IH. apply perm_swap.
Qed.

(** Sorting the errors reports each of them once. *)
Lemma sorted_by_str_perm l : Permutation (sorted_by_str l) l.
Proof.
  induction l as [|e l IH]; simpl; [done|].
  rewrite insert_by_str_perm. by constructor.
Qed.

Lemma sorted_by_str_nil l : sorted_by_str l = [] -> l = [].
Proof.
  intros H. apply Permutation_nil.
  rewrite <- H. apply sorted_by_str_perm.
Qed.

Lemma error_report_valid v d : is_valid v d = true -> error_report v d = [].
Proof. intros H. unfold error_report. by rewrite H. Qed.

Lemma report_errors_run errors is_error w :
  report_errors errors is_error w =
  (Ok (match errors with [] => is_error | _ :: _ => true end),
   World (stdout w
          ++ map (fun e => note_line "error"
                             ("Validation error: " +:+ message e)) errors)
         (requests w)).
Proof.
  revert is_error w. induction errors as [|e rest IH]; intros is_error w.
  - simpl. unfold ret. rewrite app_nil_r. by destruct w.
  - cbn [report_errors]. unfold bind at 1, note, print. rewrite IH.
    cbn [stdout requests map]. rewrite <- app_assoc.
    by destruct rest.
Qed.

Lemma report_errors_invalid v d is_error w :
  is_valid v d = false ->
  iter_errors v d <> [] ->
  report_errors (sorted_by_str (iter_errors v d)) is_error w =
  (Ok true, World (stdout w ++ error_report v d) (requests w)).
Proof.
  intros Hv Hne. rewrite report_errors_run. unfold error_report. rewrite Hv.
  destruct (sorted_by_str (iter_errors v d)) as [|e errs] eqn:Hs; [|done].
  by apply sorted_by_str_nil in Hs.
Qed.

Lemma check_data_sources_run v docs :
  Forall (schema_contract v) docs ->
  forall is_error saved w,
  exists saved',
    check_data_sources v docs is_error saved w =
    (Ok (is_error || existsb (fun d => negb (is_valid v d)) docs, saved'),
     World (stdout w ++ flat_map (error_report v) docs) (requests w)).
Proof.
  induction 1 as [|d docs Hd _ IH]; intros is_error saved w.
  - exists saved. simpl. unfold ret.
    rewrite orb_false_r, app_nil_r. by destruct w.
  - cbn [check_data_sources existsb flat_map]. unfold schema_contract in Hd.
    destruct (is_valid v d) eqn:Hv; cbn [negb].
    + destruct Hd as (m & ns & -> & Hns).
      unfold bind at 1, lift. cbn [py_getitem]. rewrite Hns.
      unfold bind at 1, lift. cbn [py_setitem].
      destruct (IH is_error (saved ++ [JObj (<["_key" := ns]> m)]) w)
        as [saved' Hrun].
      exists saved'. rewrite Hrun.
      rewrite (error_report_valid _ _ Hv). reflexivity.
    + unfold bind at 1. rewrite (report_errors_invalid _ _ _ _ Hv Hd).
      destruct (IH true saved
                  (World (stdout w ++ error_report v d) (requests w)))
        as [saved' Hrun].
      exists saved'. rewrite Hrun. cbn [stdout requests].
      rewrite <- app_assoc, orb_true_r. reflexivity.
Qed.

Lemma existsb_invalid v docs :
  Exists (fun d => is_valid v d = false) docs ->
  existsb (fun d => negb (is_valid v d)) docs = true.
Proof.
  intros H. apply existsb_exists. apply Exists_exists in H as (d & Hin & Hd).
  exists d. split; [by apply list_elem_of_In|]. by rewrite Hd.
Qed.

(** C3. When at least one document of the loaded list fails schema
    validation, [load_data] goes through the whole list, printing the error
    report of every document (one line per violation), then returns
    [False] without sending anything to the save collaborator, with or
    without [dry_run]. *)
Theorem load_data_rejects_invalid
    (E : env) (self : Importer) (dry_run : bool) (w : world)
    (api_url : option string) (v : validator) (contents : string)
    (docs : list json) :
  _config self !! "API_URL" = Some api_url ->
  get_schema_validator E (schema_file E) = Ok v ->
  open_read E (file_path E self) = Ok contents ->
  json_load E contents = Ok (JArr docs) ->
  Forall (schema_contract v) docs ->
  Exists (fun d => is_valid v d = false) docs ->
  load_data E self dry_run w =
  (Ok false,
   World (stdout w ++ preamble E self api_url dry_run
          ++ flat_map (error_report v) docs
          ++ [ note_line "error" "Data did not validate";
               note_line "error"
                 (if dry_run then "Dry run completed with errors"
                  else "Due to errors, data will not be loaded") ])
         (requests w)).
Proof.
  intros Hurl Hval Hopen Hload Hns Hbad.
  unfold load_data, preamble, file_path, schema_file, data_dir in *.
  unfold get_config_or_fail. rewrite Hurl.
  unfold bind at 1, note at 1, print. cbn [stdout requests].
  unfold bind at 1, note at 1, print. cbn [stdout requests].
  unfold bind at 1, lift at 1.
  unfold bind at 1, note at 1, print. cbn [stdout requests].
  unfold bind at 1, note at 1, print. cbn [stdout requests].
  destruct (get_config self "ROOT_DATA_PATH" None) as [dir|] eqn:Hdir;
    unfold bind at 1;
    unfold bind at 1, note at 1, print, ret at 1; cbn [stdout requests];
    unfold bind at 1, note at 1, print; cbn [stdout requests];
    rewrite Hval; unfold bind at 1, lift at 1;
    unfold bind at 1, try_except, bind at 1, lift at 1; rewrite Hopen;
    unfold bind at 1, lift at 1; rewrite Hload; unfold ret at 1;
    unfold bind at 1, lift at 1; cbn [py_iter];
    unfold bind at 1;
    match goal with
    | |- context [check_data_sources v docs false [] ?w0] =>
        destruct (check_data_sources_run v docs Hns false [] w0)
          as [saved Hrun]
    end;
    rewrite Hrun, (existsb_invalid v docs Hbad); cbn [orb stdout requests];
    destruct dry_run;
    unfold bind, note, print, ret; cbn [stdout requests];
    rewrite <- !app_assoc; reflexivity.
Qed.

Lemma load_data_rejects_invalid_witness :
  load_data test_env (test_importer "/data") true (World [] []) =
  (Ok false,
   World ([] ++ preamble test_env (test_importer "/data")
                  (Some "http://re") true
          ++ flat_map (error_report test_validator)
               [good_doc "a"; bad_doc; good_doc "b"; JArr []]
          ++ [ note_line "error" "Data did not validate";
               note_line "error" "Dry run completed with errors" ])
         []).
Proof.
  apply (load_data_rejects_invalid test_env (test_importer "/data") true
           (World [] []) (Some "http://re") test_validator "mixed"
           [good_doc "a"; bad_doc; good_doc "b"; JArr []]).
  - reflexivity.
  - reflexivity.
  - reflexivity.
  - reflexivity.
  - repeat constructor.
    + change (has_ns (good_doc "a")).
      eexists _, (JStr "a"). split; reflexivity.
    + change (iter_errors test_validator bad_doc <> []). discriminate.
    + change (has_ns (good_doc "b")).
      eexists _, (JStr "b"). split; reflexivity.
    + change (iter_errors test_validator (JArr []) <> []). discriminate.
  - apply Exists_cons_tl, Exists_cons_hd. reflexivity.
Defined.

(** The run of the witness, as printed. *)
Example load_data_mixed_run :
  load_data test_env (test_importer "/data") false (World [] []) =
  (Ok false,
   World [ "[importer] ℹ Loading data";
           "[importer] ℹ Parameters:";
           "[importer] ℹ      API_URL: http://re";
           "[importer] ℹ      dry run: False";
           "[importer] ℹ      (Taking data dir from environment variable "
             +:+ dquote +:+ "RES_ROOT_DATA_PATH" +:+ dquote +:+ ")";
           "[importer] ℹ      data_dir: " +:+ dquote +:+ "/data" +:+ dquote;
           "[importer] 🐛 Validation error: invalid is not allowed";
           "[importer] 🐛 Validation error: ns is not of type 'string'";
           "[importer] 🐛 Validation error: not of type 'object'";
           "[importer] 🐛 Data did not validate";
           "[importer] 🐛 Due to errors, data will not be loaded" ]
         []).
Proof. vm_compute. reflexivity. Qed.

(** Without an invalid document the same call reaches the save
    collaborator. *)
Example load_data_good_run :
  (load_data test_env (test_importer "/good") false (World [] [])).1 = Ok true
  /\ length (requests (load_data test_env (test_importer "/good") false
                         (World [] [])).2) = 1.
Proof. split; vm_compute; reflexivity. Qed.

End DataSourcesProofs.

(* ===================================================================== *)
(** * The DJORNL parser                                                   *)
(* ===================================================================== *)

Section DjornlProofs.
Import Djornl DjornlSpec.

Variable C : collaborators.
Variable fs : file_system.

Lemma check_type_any_line d n n' cols :
  check_type d n cols = Ok tt -> check_type d n' cols = Ok tt.
Proof.
  unfold check_type. destruct (type_column d) as [i|]; [|done].
  destruct (cols !! i) as [value|]; [|done].
  by destruct (bool_decide (value ∈ vocabulary d)).
Qed.

Lemma lines_read_S d k : lines_read d (S k) = lines_read d k ++ [(path d, S k)].
Proof.
  unfold lines_read. rewrite seq_S, map_app. reflexivity.
Qed.

Lemma scan_rows_clean d header good rest n records (log : read_log) :
  Forall (row_clean d) good ->
  exists records',
    scan_rows d (on_row C d header) n (good ++ rest) records log =
    scan_rows d (on_row C d header) (n + length good) rest records'
      (log ++ map (fun i => (path d, i)) (seq n (length good))).
Proof.
  intros Hgood. revert n records log.
  induction Hgood as [|line good [Hcount Htype] _ IH]; intros n records log.
  - exists records. simpl. by rewrite Nat.add_0_r, app_nil_r.
  - cbn [app scan_rows]. unfold bind at 1, read_line.
    rewrite Hcount, Nat.eqb_refl.
    unfold bind at 1, lift, on_row at 1.
    rewrite (check_type_any_line d 0 n _ Htype). cbn [rbind].
    destruct (IH (S n) (records ++ [row_record C d header
                                      (split (delimiter d) line)])
                 (log ++ [(path d, n)])) as [records' Hrun].
    exists records'. rewrite Hrun. cbn [length seq map].
    rewrite <- app_assoc. cbn [app].
    by replace (n + S (length good)) with (S n + length good) by lia.
Qed.

Lemma scan_rows_bad_count {A} d (f : nat -> list string -> A -> result A)
    n bad rest records (log : read_log) :
  length (split (delimiter d) bad) <> expected_columns d ->
  scan_rows d f n (bad :: rest) records log =
  (Raise (Exn FormatError
            (col_count_message d n (length (split (delimiter d) bad)))),
   log ++ [(path d, n)]).
Proof.
  intros Hbad. cbn [scan_rows]. unfold bind at 1, read_line.
  apply Nat.eqb_neq in Hbad. by rewrite Hbad.
Qed.

Lemma scan_rows_bad_type d header n bad rest records (log : read_log)
    i value :
  length (split (delimiter d) bad) = expected_columns d ->
  type_column d = Some i ->
  split (delimiter d) bad !! i = Some value ->
  value ∉ vocabulary d ->
  scan_rows d (on_row C d header) n (bad :: rest) records log =
  (Raise (Exn FormatError (type_message d n value)), log ++ [(path d, n)]).
Proof.
  intros Hcount Hi Hv Hnot. cbn [scan_rows]. unfold bind at 1, read_line.
  rewrite Hcount, Nat.eqb_refl. unfold bind, lift, on_row, check_type.
  rewrite Hi, Hv, bool_decide_eq_false_2 by done. reflexivity.
Qed.

Lemma scan_file_clean root d records (log : read_log) :
  file_clean fs root d ->
  exists records',
    scan_file C fs root d records log =
    (Ok records', log ++ file_read fs root d).
Proof.
  intros (lines & Hfile & Hrows). unfold scan_file, file_read.
  rewrite Hfile. destruct lines as [|header rows].
  - exists records. unfold ret, lines_read. by rewrite app_nil_r.
  - unfold bind at 1, read_line.
    destruct (scan_rows_clean d (split (delimiter d) header) rows [] 2
                records (log ++ [(path d, 1)]) Hrows) as [records' Hrun].
    rewrite app_nil_r in Hrun. exists records'. rewrite Hrun.
    cbn [scan_rows]. unfold ret, lines_read. cbn [length seq map].
    rewrite <- app_assoc. reflexivity.
Qed.

Lemma scan_files_clean root pre rest records (log : read_log) :
  Forall (file_clean fs root) pre ->
  exists records',
    scan_files C fs root (pre ++ rest) records log =
    scan_files C fs root rest records'
      (log ++ flat_map (file_read fs root) pre).
Proof.
  intros Hpre. revert records log.
  induction Hpre as [|d pre Hd _ IH]; intros records log.
  - exists records. simpl. by rewrite app_nil_r.
  - cbn [app scan_files flat_map]. unfold bind at 1.
    destruct (scan_file_clean root d records log Hd) as [records1 Hrun].
    rewrite Hrun.
    destruct (IH records1 (log ++ file_read fs root d)) as [records' Hrest].
    exists records'. rewrite Hrest. by rewrite <- app_assoc.
Qed.

Lemma load_raises p r (log log' : read_log) e :
  load_role C fs p r log = (Raise e, log') ->
  load C fs p r log = (Raise e, log').
Proof.
  intros H.
  destruct r; unfold load, load_edges, load_node_metadata,
    load_cluster_data, bind; by rewrite H.
Qed.

(** A call fails at the first malformed row: the files before it have been
    read in full, the offending file up to that row, and nothing else. *)
Lemma load_role_fails p r pre d post header good bad rest
    (log : read_log) e :
  files_of r p = pre ++ d :: post ->
  Forall (file_clean fs (root_data_path p)) pre ->
  fs !! full_path (root_data_path p) d =
    Some (File (header :: good ++ bad :: rest)) ->
  Forall (row_clean d) good ->
  (forall records log0,
     scan_rows d (on_row C d (split (delimiter d) header))
       (length good + 2) (bad :: rest) records log0 =
     (Raise e, log0 ++ [(path d, length good + 2)])) ->
  load_role C fs p r log =
  (Raise e,
   log ++ flat_map (file_read fs (root_data_path p)) pre
       ++ lines_read d (length good + 2)).
Proof.
  intros Hfiles Hpre Hfile Hgood Hbad. unfold load_role. rewrite Hfiles.
  destruct (scan_files_clean (root_data_path p) pre (d :: post) [] log Hpre)
    as [records Hrun].
  rewrite Hrun. cbn [scan_files]. unfold bind at 1, scan_file.
  rewrite Hfile. unfold bind at 1, read_line.
  destruct (scan_rows_clean d (split (delimiter d) header) good (bad :: rest)
              2 records
              ((log ++ flat_map (file_read fs (root_data_path p)) pre)
               ++ [(path d, 1)]) Hgood) as [records' Hscan].
  rewrite Hscan. replace (2 + length good) with (length good + 2) by lia.
  rewrite Hbad. f_equal.
  replace (length good + 2) with (S (S (length good))) by lia.
  rewrite lines_read_S. unfold lines_read. cbn [seq map].
  rewrite <- !app_assoc. reflexivity.
Qed.

Lemma contains_refl s : contains s s.
Proof. exists "", "". by rewrite append_empty_r. Qed.

Lemma files_of_role p r pre d post :
  files_of r p = pre ++ d :: post -> file_role d = r.
Proof.
  intros H. assert (Hin : d ∈ files_of r p) by (rewrite H; set_solver).
  unfold files_of in Hin. by apply list_elem_of_filter in Hin as [? _].
Qed.

(** C4. When the first malformed row of a call is the row at line [n] of a
    data file and has a column count other than the expected one, the call
    raises [FormatError] naming the file, the line, the expected and the
    found count; the files before it have been read in full, the file
    itself up to line [n], and no other line of any file; the call returns
    no result. *)
Theorem column_count_mismatch_fails_fast
    (p : parser) (r : role) (pre post : list descriptor) (d : descriptor)
    (header : string) (good rest : list string) (bad : string)
    (log : read_log) :
  files_of r p = pre ++ d :: post ->
  Forall (file_clean fs (root_data_path p)) pre ->
  fs !! full_path (root_data_path p) d =
    Some (File (header :: good ++ bad :: rest)) ->
  Forall (row_clean d) good ->
  length (split (delimiter d) bad) <> expected_columns d ->
  let n := length good + 2 in
  exists msg,
    contains (path d +:+ " line " +:+ pretty n +:+ ": expected "
              +:+ pretty (expected_columns d) +:+ " cols, found "
              +:+ pretty (length (split (delimiter d) bad))) msg
    /\ load C fs p r log =
       (Raise (Exn FormatError msg),
        log ++ flat_map (file_read fs (root_data_path p)) pre
            ++ lines_read d n).
Proof.
  intros Hfiles Hpre Hfile Hgood Hbad n.
  exists (col_count_message d n (length (split (delimiter d) bad))).
  split; [apply contains_refl|].
  apply load_raises.
  apply (load_role_fails p r pre d post header good bad rest); try done.
  intros records log0. by apply scan_rows_bad_count.
Qed.

(** C5. When the first malformed row of a call is a data row at line [n]
    whose type value is outside the vocabulary of its file, [load_edges]
    raises [FormatError] with the text [<file> line <n>: invalid edge
    type: <value>], and [load_node_metadata] with [invalid node type];
    line numbers are 1-indexed and count the header row. *)
Theorem invalid_type_fails
    (p : parser) (r : role) (pre post : list descriptor) (d : descriptor)
    (header : string) (good rest : list string) (bad : string)
    (i : nat) (value : string) (log : read_log) :
  files_of r p = pre ++ d :: post ->
  Forall (file_clean fs (root_data_path p)) pre ->
  fs !! full_path (root_data_path p) d =
    Some (File (header :: good ++ bad :: rest)) ->
  Forall (row_clean d) good ->
  length (split (delimiter d) bad) = expected_columns d ->
  type_column d = Some i ->
  split (delimiter d) bad !! i = Some value ->
  value ∉ vocabulary d ->
  let n := length good + 2 in
  exists msg,
    contains (path d +:+ " line " +:+ pretty n
              +:+ match r with
                  | edges => ": invalid edge type: "
                  | node_metadata | cluster => ": invalid node type: "
                  end +:+ value) msg
    /\ load C fs p r log =
       (Raise (Exn FormatError msg),
        log ++ flat_map (file_read fs (root_data_path p)) pre
            ++ lines_read d n).
Proof.
  intros Hfiles Hpre Hfile Hgood Hcount Hi Hv Hnot n.
  exists (type_message d n value). split.
  - unfold type_message. rewrite (files_of_role p r pre d post Hfiles).
    destruct r; apply contains_refl.
  - apply load_raises.
    apply (load_role_fails p r pre d post header good bad rest); try done.
    intros records log0. by apply (scan_rows_bad_type d _ _ _ _ _ _ i).
Qed.

Lemma contains_concat sep e l : e ∈ l -> contains e (String.concat sep l).
Proof.
  induction l as [|x l IH]; [by intros ?%elem_of_nil|].
  intros Hin. destruct l as [|y l].
  - apply list_elem_of_singleton in Hin as ->. apply contains_refl.
  - change (String.concat sep (x :: y :: l))
      with (x +:+ sep +:+ String.concat sep (y :: l)).
    apply elem_of_cons in Hin as [->|Hin].
    + by exists "", (sep +:+ String.concat sep (y :: l)).
    + destruct (IH Hin) as (pre & post & Heq).
      exists (x +:+ sep +:+ pre), post.
      by rewrite Heq, !append_assoc.
Qed.

Lemma check_path_file root d :
  check_path fs root d = [] ->
  exists lines, fs !! full_path root d = Some (File lines).
Proof.
  unfold check_path.
  destruct (fs !! full_path root d) as [[lines|]|]; [by eexists|done|done].
Qed.

Lemma configure_ok root p :
  configure C fs root = Ok p ->
  root_data_path p = root
  /\ forall d, d ∈ manifest p ->
       exists lines, fs !! full_path root d = Some (File lines).
Proof.
  unfold configure.
  destruct (fs !! manifest_path root) as [[lines|]|]; [|done|done].
  destruct (read_manifest C lines) as [file_list|?]; [|done].
  destruct (flat_map (check_path fs root) file_list) eqn:Hcheck; [|done].
  intros [= <-]. split; [done|]. cbn [manifest]. intros d Hd.
  apply check_path_file.
  destruct (check_path fs root d) as [|e errs] eqn:Hp; [done|].
  assert (He : e ∈ flat_map (check_path fs root) file_list).
  { apply list_elem_of_In, in_flat_map. exists d.
    split; [by apply list_elem_of_In|]. rewrite Hp. by left. }
  rewrite Hcheck in He. by apply elem_of_nil in He.
Qed.

Lemma configure_path_error root lines file_list d e :
  fs !! manifest_path root = Some (File lines) ->
  read_manifest C lines = Valid file_list ->
  d ∈ file_list ->
  e ∈ check_path fs root d ->
  exists msg,
    configure C fs root = Raise (Exn ConfigurationError msg)
    /\ contains e msg.
Proof.
  intros Hm Hr Hd He. unfold configure. rewrite Hm, Hr.
  assert (Hin : e ∈ flat_map (check_path fs root) file_list).
  { apply list_elem_of_In, in_flat_map. exists d.
    split; by apply list_elem_of_In. }
  destruct (flat_map (check_path fs root) file_list) as [|e0 errs] eqn:Hc.
  { by apply elem_of_nil in Hin. }
  eexists. split; [reflexivity|]. by apply contains_concat.
Qed.

(** C6. Configuration fails with a [ConfigurationError] whose message
    contains [No manifest file found at <path>] when there is no
    [manifest.yaml] under the root data path, [The manifest file failed
    validation] when the manifest violates its schema, [<path>: not a file]
    when a path of the manifest is a directory and [<path>: file does not
    exist] when it is absent; it fails before any load: a load that
    follows a failed configuration raises the same error and reads no
    line. *)
Theorem configuration_errors (root : string) :
  (fs !! manifest_path root = None ->
   exists msg,
     configure C fs root = Raise (Exn ConfigurationError msg)
     /\ contains ("No manifest file found at " +:+ manifest_path root) msg)
  /\ (forall lines violations,
        fs !! manifest_path root = Some (File lines) ->
        read_manifest C lines = Invalid violations ->
        exists msg,
          configure C fs root = Raise (Exn ConfigurationError msg)
          /\ contains "The manifest file failed validation" msg)
  /\ (forall lines file_list d,
        fs !! manifest_path root = Some (File lines) ->
        read_manifest C lines = Valid file_list ->
        d ∈ file_list ->
        (fs !! full_path root d = Some Directory ->
         exists msg,
           configure C fs root = Raise (Exn ConfigurationError msg)
           /\ contains (full_path root d +:+ ": not a file") msg)
        /\ (fs !! full_path root d = None ->
            exists msg,
              configure C fs root = Raise (Exn ConfigurationError msg)
              /\ contains (full_path root d +:+ ": file does not exist")
                          msg))
  /\ (forall e r (log : read_log),
        configure C fs root = Raise e ->
        configure_and_load C fs root r log = (Raise e, log)).
Proof.
  split; [|split; [|split]].
  - intros Hm. unfold configure. rewrite Hm.
    eexists. split; [reflexivity | apply contains_refl].
  - intros lines violations Hm Hr. unfold configure. rewrite Hm, Hr.
    eexists. split; [reflexivity|]. apply contains_concat. by left.
  - intros lines file_list d Hm Hr Hd. split; intros Hp.
    + apply (configure_path_error root lines file_list d); try done.
      unfold check_path. rewrite Hp. by left.
    + apply (configure_path_error root lines file_list d); try done.
      unfold check_path. rewrite Hp. by left.
  - intros e r log He. unfold configure_and_load, bind, lift.
    by rewrite He.
Qed.

Lemma scan_file_no_rows root d lines records (log : read_log) :
  fs !! full_path root d = Some (File lines) ->
  length lines <= 1 ->
  scan_file C fs root d records log =
  (Ok records, log ++ file_read fs root d).
Proof.
  intros Hfile Hlen. unfold scan_file, file_read. rewrite Hfile.
  destruct lines as [|header [|row rows]]; [| |simpl in Hlen; lia].
  - unfold ret, lines_read. by rewrite app_nil_r.
  - reflexivity.
Qed.

Lemma scan_files_no_rows root ds records (log : read_log) :
  Forall (fun d => exists lines,
            fs !! full_path root d = Some (File lines)
            /\ length lines <= 1) ds ->
  scan_files C fs root ds records log =
  (Ok records, log ++ flat_map (file_read fs root) ds).
Proof.
  intros Hds. revert log.
  induction Hds as [|d ds (lines & Hfile & Hlen) _ IH]; intros log.
  - simpl. unfold ret. by rewrite app_nil_r.
  - cbn [scan_files flat_map]. unfold bind at 1.
    rewrite (scan_file_no_rows root d lines records log Hfile Hlen).
    rewrite IH. by rewrite <- app_assoc.
Qed.

(** C7. With a valid manifest all of whose files hold no data row (no line
    at all, or the header row only), [load_edges] returns
    [{"nodes": [], "edges": []}] and [load_node_metadata] and
    [load_cluster_data] return [{"nodes": []}]. *)
Theorem empty_files_load_empty
    (root : string) (p : parser) (log : read_log) :
  configure C fs root = Ok p ->
  (forall d lines,
     d ∈ manifest p ->
     fs !! full_path root d = Some (File lines) -> length lines <= 1) ->
  (load_edges C fs p log).1 =
    Ok (JObj (<["nodes" := JArr []]> (<["edges" := JArr []]> ∅)))
  /\ (load_node_metadata C fs p log).1 = Ok (JObj (<["nodes" := JArr []]> ∅))
  /\ (load_cluster_data C fs p log).1 = Ok (JObj (<["nodes" := JArr []]> ∅)).
Proof.
  intros Hconf Hempty.
  destruct (configure_ok root p Hconf) as [Hroot Hfiles].
  assert (Hall : forall r,
    load_role C fs p r log =
    (Ok [], log ++ flat_map (file_read fs root) (files_of r p))).
  { intros r. unfold load_role. rewrite Hroot.
    apply scan_files_no_rows. apply Forall_forall. intros d Hd.
    unfold files_of in Hd. apply list_elem_of_filter in Hd as [_ Hd].
    destruct (Hfiles d Hd) as [lines Hl]. exists lines. split; [done|].
    by apply (Hempty d). }
  unfold load_edges, load_node_metadata, load_cluster_data, bind.
  by rewrite !Hall.
Qed.

End DjornlProofs.

Section DjornlWitnesses.
Import Djornl DjornlSpec.

Local Ltac clean_rows :=
  repeat constructor; vm_compute; reflexivity.

Local Ltac clean_file :=
  eexists; split; [reflexivity | clean_rows].

Local Ltac not_in :=
  let H := fresh in
  intros H; apply list_elem_of_In in H; simpl in H; intuition discriminate.

Lemma column_count_mismatch_fails_fast_witness :
  exists msg,
    contains "b.tsv line 3: expected 5 cols, found 3" msg
    /\ load test_collaborators short_row_in_b three_edge_files edges [] =
       (Raise (Exn FormatError msg),
        [] ++ flat_map (file_read short_row_in_b "/data") [edges_tsv]
           ++ lines_read (more_edges "b.tsv") 3).
Proof.
  apply (column_count_mismatch_fails_fast test_collaborators short_row_in_b
           three_edge_files edges [edges_tsv] [more_edges "c.tsv"]
           (more_edges "b.tsv") edges_header
           [tsv ["g1"; "g2"; "physical"; "1.0"; "x"]] [tsv ["g3"]]
           (tsv ["g2"; "g3"; "physical"]) []).
  - reflexivity.
  - constructor; [clean_file | constructor].
  - reflexivity.
  - clean_rows.
  - vm_compute. discriminate.
Defined.

Lemma invalid_type_fails_witness :
  (exists msg,
     contains "b.tsv line 3: invalid edge type: bogus-type" msg
     /\ load_edges test_collaborators bad_type_in_b three_edge_files [] =
        (Raise (Exn FormatError msg),
         [] ++ flat_map (file_read bad_type_in_b "/data") [edges_tsv]
            ++ lines_read (more_edges "b.tsv") 3))
  /\ (exists msg,
        contains "nodes.csv line 5: invalid node type: Monkey" msg
        /\ load_node_metadata test_collaborators invalid_types test_parser []
           = (Raise (Exn FormatError msg),
              [] ++ [] ++ lines_read nodes_csv 5)).
Proof.
  split.
  - apply (invalid_type_fails test_collaborators bad_type_in_b
             three_edge_files edges [edges_tsv] [more_edges "c.tsv"]
             (more_edges "b.tsv") edges_header
             [tsv ["g1"; "g2"; "physical"; "1.0"; "x"]] [tsv ["g3"]]
             (tsv ["g2"; "g3"; "bogus-type"; "2.0"; "x"]) 2 "bogus-type" []).
    + reflexivity.
    + constructor; [clean_file | constructor].
    + reflexivity.
    + clean_rows.
    + reflexivity.
    + reflexivity.
    + reflexivity.
    + not_in.
  - apply (invalid_type_fails test_collaborators invalid_types
             test_parser node_metadata [] [] nodes_csv nodes_header
             ["g1,gene,a"; "g2,pheno,b"; "g3,gene,c"] [] "g4,Monkey,d"
             1 "Monkey" []).
    + reflexivity.
    + constructor.
    + reflexivity.
    + clean_rows.
    + reflexivity.
    + reflexivity.
    + reflexivity.
    + not_in.
Defined.

Lemma configuration_errors_witness :
  (exists msg,
     configure test_collaborators (delete "/data/manifest.yaml" test_data)
               "/data" = Raise (Exn ConfigurationError msg)
     /\ contains "No manifest file found at /data/manifest.yaml" msg)
  /\ (exists msg,
        configure test_collaborators
          (<["/data/manifest.yaml" := File ["broken"]]> test_data) "/data"
        = Raise (Exn ConfigurationError msg)
        /\ contains "The manifest file failed validation" msg)
  /\ (exists msg,
        configure test_collaborators
          (<["/data/edges.tsv" := Directory]>
             (delete "/data/nodes.csv" test_data)) "/data"
        = Raise (Exn ConfigurationError msg)
        /\ contains "/data/edges.tsv: not a file" msg)
  /\ (exists msg,
        configure test_collaborators
          (<["/data/edges.tsv" := Directory]>
             (delete "/data/nodes.csv" test_data)) "/data"
        = Raise (Exn ConfigurationError msg)
        /\ contains "/data/nodes.csv: file does not exist" msg).
Proof.
  split; [|split; [|split]].
  - apply (configuration_errors test_collaborators
             (delete "/data/manifest.yaml" test_data) "/data").
    reflexivity.
  - apply (proj1 (proj2 (configuration_errors test_collaborators
             (<["/data/manifest.yaml" := File ["broken"]]> test_data)
             "/data")) ["broken"] ["'file_list' is a required property"]);
      reflexivity.
  - apply (proj1 (proj2 (proj2 (configuration_errors test_collaborators
             (<["/data/edges.tsv" := Directory]>
                (delete "/data/nodes.csv" test_data)) "/data")))
             ["ok"] [edges_tsv; nodes_csv; clusters_tsv] edges_tsv);
      [reflexivity | reflexivity | set_solver | reflexivity].
  - apply (proj1 (proj2 (proj2 (configuration_errors test_collaborators
             (<["/data/edges.tsv" := Directory]>
                (delete "/data/nodes.csv" test_data)) "/data")))
             ["ok"] [edges_tsv; nodes_csv; clusters_tsv] nodes_csv);
      [reflexivity | reflexivity | set_solver | reflexivity].
Defined.

Lemma empty_files_load_empty_witness :
  (load_edges test_collaborators empty_files test_parser []).1 =
    Ok (JObj (<["nodes" := JArr []]> (<["edges" := JArr []]> ∅)))
  /\ (load_node_metadata test_collaborators empty_files test_parser []).1 =
     Ok (JObj (<["nodes" := JArr []]> ∅))
  /\ (load_cluster_data test_collaborators empty_files test_parser []).1 =
     Ok (JObj (<["nodes" := JArr []]> ∅)).
Proof.
  apply (empty_files_load_empty test_collaborators empty_files "/data"
           test_parser []).
  - reflexivity.
  - intros d lines Hd.
    apply elem_of_cons in Hd as [->|Hd];
      [|apply elem_of_cons in Hd as [->|Hd];
        [|apply list_elem_of_singleton in Hd as ->]];
      vm_compute; intros [= <-]; lia.
Defined.

(** The scenarios of [test_djornl_parser.py] on the test data above. *)
Example test_load_col_count_errors :
  load_edges test_collaborators col_count_errors test_parser [] =
    (Raise (Exn FormatError "edges.tsv line 6: expected 5 cols, found 3"),
     lines_read edges_tsv 6)
  /\ load_node_metadata test_collaborators col_count_errors test_parser [] =
     (Raise (Exn FormatError "nodes.csv line 3: expected 3 cols, found 4"),
      lines_read nodes_csv 3).
Proof. split; vm_compute; reflexivity. Qed.

Example test_load_invalid_types :
  load_edges test_collaborators invalid_types test_parser [] =
    (Raise (Exn FormatError
              "edges.tsv line 3: invalid edge type: bogus-type"),
     lines_read edges_tsv 3)
  /\ load_node_metadata test_collaborators invalid_types test_parser [] =
     (Raise (Exn FormatError "nodes.csv line 5: invalid node type: Monkey"),
      lines_read nodes_csv 5).
Proof. split; vm_compute; reflexivity. Qed.

Example test_load_valid_edge_data :
  match (load_edges test_collaborators test_data test_parser []).1 with
  | Ok (JObj m) =>
      m !! "nodes" = Some (JArr (map node_stub ["g2"; "g1"; "g3"]))
      /\ exists edge_records,
           m !! "edges" = Some (JArr edge_records)
           /\ length edge_records = 3
  | _ => False
  end.
Proof.
  vm_compute. split; [reflexivity|]. eexists. split; reflexivity.
Qed.

End DjornlWitnesses.

(* ===================================================================== *)
(** * Further properties of [_write_edge_key]                             *)
(* ===================================================================== *)

Section WriteEdgeKeyMore.
Import MoreSpec.

Lemma py_encode_non_string (v : json) :
  is_string v = false ->
  py_encode v =
  Raise (Exn AttributeError
           ("'" +:+ type_name v +:+ "' object has no attribute 'encode'")).
Proof. by destruct v. Qed.

Lemma py_encode_surrogate (s : string) :
  encodable s = false ->
  py_encode (JStr s) = Raise (Exn UnicodeEncodeError "surrogates not allowed").
Proof. intros H. cbn [py_encode]. unfold str_encode. by rewrite H. Qed.

(** The three ways a call on an object can end: the object comes back as
    it is, it comes back with a new [_key], or the call raises. *)
Lemma write_edge_key_object (m : gmap string json) :
  _write_edge_key (JObj m) = Ok (JObj m)
  \/ (exists k,
        m !! "_key" = None
        /\ _write_edge_key (JObj m) = Ok (JObj (<["_key" := JStr k]> m)))
  \/ (exists e, _write_edge_key (JObj m) = Raise e).
Proof.
  destruct (m !! "_key") as [k|] eqn:Hk.
  { left. by apply (write_edge_key_has_key m k). }
  destruct (m !! "_from") as [a|] eqn:Hf.
  2:{ left. by apply write_edge_key_no_from. }
  destruct (m !! "_to") as [b|] eqn:Ht.
  2:{ left. by apply write_edge_key_no_to. }
  right. rewrite (write_edge_key_run m a b Hk Hf Ht).
  destruct (py_encode a) as [from_bytes|e]; cbn [rbind]; [|right; eauto].
  destruct (py_encode b) as [to_bytes|e]; cbn [rbind]; [|right; eauto].
  left. eexists. split; [done|]. reflexivity.
Qed.

(** A list or a string is given back as it is, or the subscript fails. *)
Lemma write_edge_key_sequence (d : json) :
  is_object d = false -> is_scalar d = false ->
  _write_edge_key d = Ok d
  \/ _write_edge_key d = Raise (Exn TypeError "indices must be integers").
Proof.
  intros Hobj Hscalar. destruct d; try discriminate; unfold _write_edge_key;
    cbn [py_contains rbind];
    repeat match goal with
           | |- context [if ?b then _ else _] => destruct b; cbn [negb rbind]
           end; auto.
Qed.

(** X1. Applying [_write_edge_key] to its own result changes nothing: a
    document that came back from the function comes back unchanged. *)
Theorem write_edge_key_idempotent (d d' : json) :
  _write_edge_key d = Ok d' -> _write_edge_key d' = Ok d'.
Proof.
  intros H. destruct (is_object d) eqn:Hobj.
  - destruct d as [| | | | | |m]; try discriminate.
    destruct (write_edge_key_object m) as [Hsame|[(k & _ & Hset)|(e & He)]].
    + rewrite Hsame in H. injection H as <-. exact Hsame.
    + rewrite Hset in H. injection H as <-.
      apply (write_edge_key_has_key _ (JStr k)).
      apply lookup_insert_eq.
    + rewrite He in H. discriminate.
  - destruct (is_scalar d) eqn:Hscalar.
    + destruct d; discriminate.
    + destruct (write_edge_key_sequence d Hobj Hscalar) as [Hsame|He].
      * rewrite Hsame in H. injection H as <-. exact Hsame.
      * rewrite He in H. discriminate.
Qed.

Lemma write_edge_key_idempotent_witness :
  _write_edge_key (JObj (<["_key" := JStr "0e52b5f187de1088"]> edge_doc)) =
  Ok (JObj (<["_key" := JStr "0e52b5f187de1088"]> edge_doc)).
Proof.
  apply (write_edge_key_idempotent (JObj edge_doc)).
  vm_compute. reflexivity.
Defined.

(** X2. On an object the function touches nothing but [_key]: every other
    field of the result is the field of the argument, no field is lost,
    and a [_key] that is already there keeps its value. *)
Theorem write_edge_key_frame (m : gmap string json) (d' : json) :
  _write_edge_key (JObj m) = Ok d' ->
  exists m',
    d' = JObj m'
    /\ (forall k, k <> "_key" -> m' !! k = m !! k)
    /\ (forall v, m !! "_key" = Some v -> m' !! "_key" = Some v)
    /\ dom m ⊆ dom m'.
Proof.
  intros H.
  destruct (write_edge_key_object m) as [Hsame|[(key & Hk & Hset)|(e & He)]].
  - rewrite Hsame in H. injection H as <-. exists m. by repeat split.
  - rewrite Hset in H. injection H as <-. eexists. split; [done|].
    split; [|split].
    + intros k Hne. by rewrite lookup_insert_ne.
    + intros v Hv. congruence.
    + rewrite dom_insert. set_solver.
  - rewrite He in H. discriminate.
Qed.

Lemma write_edge_key_frame_witness :
  exists m',
    JObj (<["_key" := JStr "0e52b5f187de1088"]>
            (<["weight" := JInt 3]> edge_doc)) = JObj m'
    /\ (forall k, k <> "_key" ->
        m' !! k = (<["weight" := JInt 3]> edge_doc) !! k)
    /\ (forall v, (<["weight" := JInt 3]> edge_doc) !! "_key" = Some v ->
        m' !! "_key" = Some v)
    /\ dom (<["weight" := JInt 3]> edge_doc) ⊆ dom m'.
Proof.
  apply (write_edge_key_frame (<["weight" := JInt 3]> edge_doc)).
  vm_compute. reflexivity.
Defined.

(** X3. When an object without [_key] has both endpoints and [_from] is
    not a string, or [_from] is a string that can be encoded and [_to] is
    not a string, the call raises [AttributeError] for the first endpoint
    that is not a string (the value has no [encode]; the message names
    its type) and returns no document. *)
Theorem write_edge_key_non_string_endpoint
    (m : gmap string json) (a b : json) :
  m !! "_key" = None -> m !! "_from" = Some a -> m !! "_to" = Some b ->
  match a with
  | JStr s => encodable s = true /\ is_string b = false
  | _ => True
  end ->
  _write_edge_key (JObj m) =
  Raise (Exn AttributeError
           ("'" +:+ type_name (if is_string a then b else a)
            +:+ "' object has no attribute 'encode'")).
Proof.
  intros Hk Hf Ht Hbad. rewrite (write_edge_key_run m a b Hk Hf Ht).
  destruct (is_string a) eqn:Ha.
  - destruct a as [| | | |s| |]; try discriminate.
    destruct Hbad as [Hs Hb].
    rewrite (py_encode_encodable s Hs). cbn [rbind].
    by rewrite (py_encode_non_string b Hb).
  - by rewrite (py_encode_non_string a Ha).
Qed.

Lemma write_edge_key_non_string_endpoint_witness :
  _write_edge_key (JObj (<["_to" := JNull]> edge_doc)) =
  Raise (Exn AttributeError "'NoneType' object has no attribute 'encode'").
Proof.
  apply (write_edge_key_non_string_endpoint _ (JStr "a") JNull);
    [reflexivity | reflexivity | reflexivity | split; reflexivity].
Defined.

(** X30. When an object without [_key] has both endpoints, [_from] is a
    string, and [_from] holds a lone surrogate, or [_to] is a string that
    holds one, the call raises [UnicodeEncodeError] and returns no
    document: such a string has no UTF-8 encoding. *)
Theorem write_edge_key_surrogate_endpoint
    (m : gmap string json) (from : string) (b : json) :
  m !! "_key" = None -> m !! "_from" = Some (JStr from) ->
  m !! "_to" = Some b ->
  encodable from = false
  \/ (exists to, b = JStr to /\ encodable to = false) ->
  raises UnicodeEncodeError (_write_edge_key (JObj m)).
Proof.
  intros Hk Hf Ht Hbad. rewrite (write_edge_key_run m _ b Hk Hf Ht).
  destruct (encodable from) eqn:Hfrom.
  - destruct Hbad as [?|(to & -> & Hto)]; [done|].
    rewrite (py_encode_encodable from Hfrom). cbn [rbind].
    rewrite (py_encode_surrogate to Hto). by eexists.
  - rewrite (py_encode_surrogate from Hfrom). by eexists.
Qed.

Lemma write_edge_key_surrogate_endpoint_witness :
  raises UnicodeEncodeError
    (_write_edge_key (JObj (<["_from" := JStr lone_surrogate]> edge_doc))).
Proof.
  apply (write_edge_key_surrogate_endpoint _ lone_surrogate (JStr "b"));
    [reflexivity | reflexivity | reflexivity | left; reflexivity].
Defined.

Lemma encode_app (a b : string) : encode (a +:+ b) = encode a ++ encode b.
Proof.
  unfold encode, list_byte_of_string. induction a as [|c a IH]; [done|].
  change (String c a +:+ b) with (String c (a +:+ b)).
  cbn [list_ascii_of_string map app]. by rewrite IH.
Qed.

(** X4. The key is computed from the concatenation of the two endpoints,
    so two edges whose endpoints concatenate to the same string receive
    the same key: for endpoints that can be encoded, [(a + b, c)] and
    [(a, b + c)] collide. *)
Theorem edge_key_concatenation
    (m1 m2 : gmap string json) (a b c : string) :
  m1 !! "_key" = None -> m1 !! "_from" = Some (JStr (a +:+ b)) ->
  m1 !! "_to" = Some (JStr c) ->
  m2 !! "_key" = None -> m2 !! "_from" = Some (JStr a) ->
  m2 !! "_to" = Some (JStr (b +:+ c)) ->
  encodable (a +:+ b) = true -> encodable c = true ->
  encodable a = true -> encodable (b +:+ c) = true ->
  exists k,
    _write_edge_key (JObj m1) = Ok (JObj (<["_key" := JStr k]> m1))
    /\ _write_edge_key (JObj m2) = Ok (JObj (<["_key" := JStr k]> m2)).
Proof.
  intros Hk1 Hf1 Ht1 Hk2 Hf2 Ht2 Hab Hc Ha Hbc.
  exists (edge_key a (b +:+ c)). split.
  - rewrite (write_edge_key_edge m1 (a +:+ b) c) by done.
    unfold edge_key. by rewrite !encode_app, app_assoc.
  - by apply write_edge_key_edge.
Qed.

Lemma edge_key_concatenation_witness :
  exists k,
    _write_edge_key
      (JObj (<["_from" := JStr ("a" +:+ "b")]> (<["_to" := JStr "c"]> ∅))) =
    Ok (JObj (<["_key" := JStr k]>
               (<["_from" := JStr ("a" +:+ "b")]> (<["_to" := JStr "c"]> ∅))))
    /\ _write_edge_key
         (JObj (<["_from" := JStr "a"]> (<["_to" := JStr ("b" +:+ "c")]> ∅))) =
       Ok (JObj (<["_key" := JStr k]>
                  (<["_from" := JStr "a"]>
                     (<["_to" := JStr ("b" +:+ "c")]> ∅)))).
Proof.
  apply (edge_key_concatenation _ _ "a" "b" "c"); reflexivity.
Defined.

Lemma hex_digit_lower (z : Z) :
  (0 <= z < 16)%Z -> is_lower_hex (Blake2b.hex_digit z) = true.
Proof.
  intros Hz.
  assert (Hc : (z = 0 \/ z = 1 \/ z = 2 \/ z = 3 \/ z = 4 \/ z = 5
                \/ z = 6 \/ z = 7 \/ z = 8 \/ z = 9 \/ z = 10 \/ z = 11
                \/ z = 12 \/ z = 13 \/ z = 14 \/ z = 15)%Z) by lia.
  repeat (destruct Hc as [->|Hc]; [reflexivity|]). by subst.
Qed.

Lemma byte_to_Z_range (b : byte) : (0 <= Blake2b.byte_to_Z b < 256)%Z.
Proof. destruct b; vm_compute; split; congruence. Qed.

Lemma hex_lower (bs : list byte) :
  forallb is_lower_hex (list_ascii_of_string (Blake2b.hex bs)) = true.
Proof.
  induction bs as [|b bs IH]; [done|].
  cbn [Blake2b.hex list_ascii_of_string forallb].
  pose proof (byte_to_Z_range b) as Hb.
  rewrite !hex_digit_lower, IH; [done| |].
  - apply Z.mod_pos_bound. lia.
  - split; [apply Z.div_pos; lia | apply Z.div_lt_upper_bound; lia].
Qed.

(** X5. The key written for an edge whose endpoints are strings that can
    be encoded is a string of exactly 16 characters, each of them one of
    [0123456789abcdef]. *)
Theorem write_edge_key_key_format
    (m : gmap string json) (from to : string) :
  m !! "_key" = None ->
  m !! "_from" = Some (JStr from) ->
  m !! "_to" = Some (JStr to) ->
  encodable from = true ->
  encodable to = true ->
  exists k,
    _write_edge_key (JObj m) = Ok (JObj (<["_key" := JStr k]> m))
    /\ String.length k = 16
    /\ forallb is_lower_hex (list_ascii_of_string k) = true.
Proof.
  intros Hk Hf Ht Hfrom Hto. exists (edge_key from to). split; [|split].
  - by apply write_edge_key_edge.
  - apply hexdigest_length.
  - apply hex_lower.
Qed.

Lemma write_edge_key_key_format_witness :
  exists k,
    _write_edge_key (JObj edge_doc) = Ok (JObj (<["_key" := JStr k]> edge_doc))
    /\ String.length k = 16
    /\ forallb is_lower_hex (list_ascii_of_string k) = true.
Proof.
  apply (write_edge_key_key_format edge_doc "a" "b"); reflexivity.
Defined.

(** X6. Only objects are ever given a key.  A document that is [null], a
    boolean or a number raises [TypeError] (it supports no [in]).  A list
    or a string raises [TypeError], at the subscript, exactly when it
    contains [_from] and [_to] but not [_key], and comes back as it is
    otherwise. *)
Theorem write_edge_key_not_object (d : json) :
  is_object d = false ->
  if is_scalar d then raises TypeError (_write_edge_key d)
  else if negb (holds "_key" d) && holds "_from" d && holds "_to" d
       then raises TypeError (_write_edge_key d)
       else _write_edge_key d = Ok d.
Proof.
  intros Hobj.
  destruct d as [| | | |s|l|m]; try discriminate;
    cbn [is_scalar]; try (by eexists);
    unfold holds, _write_edge_key; cbn [py_contains rbind];
    repeat match goal with
           | |- context [is_substring ?k ?x] => destruct (is_substring k x)
           | |- context [existsb ?f ?x] => destruct (existsb f x)
           end;
    cbn [negb andb rbind py_getitem]; try reflexivity; by eexists.
Qed.

Lemma write_edge_key_not_object_witness :
  raises TypeError (_write_edge_key (JInt 7))
  /\ raises TypeError (_write_edge_key (JArr [JStr "_from"; JStr "_to"]))
  /\ _write_edge_key (JArr [JStr "_from"; JStr "_to"; JStr "_key"]) =
     Ok (JArr [JStr "_from"; JStr "_to"; JStr "_key"])
  /\ _write_edge_key (JStr "x_from") = Ok (JStr "x_from").
Proof.
  split; [|split; [|split]].
  - exact (write_edge_key_not_object (JInt 7) eq_refl).
  - exact (write_edge_key_not_object (JArr [JStr "_from"; JStr "_to"])
             eq_refl).
  - exact (write_edge_key_not_object
             (JArr [JStr "_from"; JStr "_to"; JStr "_key"]) eq_refl).
  - exact (write_edge_key_not_object (JStr "x_from") eq_refl).
Defined.

End WriteEdgeKeyMore.

(* ===================================================================== *)
(** * Further properties of [bulk_import]                                 *)
(* ===================================================================== *)

Section BulkImportMore.
Import BulkImport BulkImportSpec BulkImportFixture MoreSpec.

Lemma bulk_import_line_rejected E v fd line e w :
  rejected E v line e -> bulk_import_line E v fd line w = (Raise e, w).
Proof.
  intros [Hl|(doc & Hl & Hv)]; unfold bulk_import_line, bind, lift;
    rewrite Hl; [done|]. by rewrite Hv.
Qed.

(** The world in which the lines after an accepted prefix are processed. *)
Lemma accepted_prefix E v w lines :
  clock_in_range E ->
  Forall (accepted E v) lines ->
  let name := fresh (dom (files w)) in
  exists texts,
    stamped_lines E (ticks w) lines texts
    /\ forall rest,
         for_each (bulk_import_line E v name) (lines ++ rest)
                  (NamedTemporaryFile w).2 =
         for_each (bulk_import_line E v name) rest
           (World (<[name := ""]> (files w))
                  (<[name := join texts]> (buffers w))
                  (length lines + ticks w)
                  (journal w ++ EvCreate name :: map (EvWrite name) texts)).
Proof.
  intros Hclock Hacc name.
  destruct (for_each_accepted E v name Hclock lines
              (NamedTemporaryFile w).2 "" Hacc) as (texts & Hst & Hrun).
  { simpl. fold name. apply lookup_insert_eq. }
  exists texts. split; [exact Hst|]. intros rest.
  rewrite for_each_app. unfold bind at 1. rewrite Hrun.
  unfold NamedTemporaryFile, log.
  cbn [fst snd files buffers ticks journal]. fold name.
  rewrite insert_insert_eq, <- app_assoc. reflexivity.
Qed.

Lemma remove_fresh (w : world) (c : string) :
  delete (fresh (dom (files w))) (<[fresh (dom (files w)) := c]> (files w))
  = files w.
Proof. rewrite delete_insert_eq. apply delete_id, fresh_name_unused. Qed.

(** X7. A line that does not parse or does not pass the schema stops the
    import at that line: the call raises the exception of that line, the
    lines after it are not looked at, the loader is not called, and the
    temporary file, which holds the lines accepted so far, is removed
    without having been closed. *)
Theorem bulk_import_rejected_line
    (E : env) (q : gmap string string) (w : world) (v : validator)
    (lines rest : list string) (bad : string) (e : exn) :
  prelude E q = Ok v ->
  request_stream E = lines ++ bad :: rest ->
  Forall (accepted E v) lines ->
  clock_in_range E ->
  rejected E v bad e ->
  let name := fresh (dom (files w)) in
  exists texts,
    stamped_lines E (ticks w) lines texts
    /\ bulk_import E q w =
       (Raise e,
        World (files w) (<[name := join texts]> (buffers w))
              (length lines + ticks w)
              (journal w ++ EvCreate name :: map (EvWrite name) texts
                         ++ [EvRemove name])).
Proof.
  intros Hp Hstream Hacc Hclock Hbad name.
  destruct (accepted_prefix E v w lines Hclock Hacc) as (texts & Hst & Hrun).
  fold name in Hrun. exists texts. split; [exact Hst|].
  rewrite (bulk_import_prelude_ok E q w v Hp). fold name.
  unfold try_finally, bulk_import_body. unfold bind at 1.
  rewrite Hstream, Hrun. cbn [for_each]. unfold bind at 1.
  rewrite (bulk_import_line_rejected E v name bad e _ Hbad).
  unfold os_remove, log. cbn [fst snd files buffers ticks journal].
  rewrite lookup_insert_eq. cbn [fst snd files buffers ticks journal].
  unfold name. rewrite remove_fresh. fold name.
  rewrite <- app_assoc. reflexivity.
Qed.

Lemma bulk_import_rejected_line_witness :
  exists texts,
    stamped_lines (test_env ["edge"; "invalid"; "node"]) 0 ["edge"] texts
    /\ bulk_import (test_env ["edge"; "invalid"; "node"])
                   test_params test_world =
       (Raise (Exn ValidationError "invalid is not allowed"),
        World (files test_world) (<["0" := join texts]> (buffers test_world))
              (1 + 0)
              ([] ++ EvCreate "0" :: map (EvWrite "0") texts
                  ++ [EvRemove "0"])).
Proof.
  apply (bulk_import_rejected_line (test_env ["edge"; "invalid"; "node"])
           test_params test_world test_validator ["edge"] ["node"]
           "invalid").
  - reflexivity.
  - reflexivity.
  - repeat constructor. exists (JObj edge_doc). eexists.
    repeat split; vm_compute; reflexivity.
  - apply test_clock_in_range.
  - right. eexists. split; reflexivity.
Defined.

(** X8. A line whose document is not a JSON object cannot be stamped:
    even when the schema accepts it, the line raises [TypeError] and
    nothing is written to the temporary file. *)
Theorem bulk_import_line_not_object
    (E : env) (v : validator) (fd line : string) (doc : json) (stamp : Z)
    (w : world) :
  json_loads E line = Ok doc ->
  validate v doc = Ok tt ->
  is_object doc = false ->
  py_int (float_mul_int (clock E (ticks w)) 1000) = Ok stamp ->
  exists msg,
    (bulk_import_line E v fd line w).1 = Raise (Exn TypeError msg)
    /\ files (bulk_import_line E v fd line w).2 = files w
    /\ buffers (bulk_import_line E v fd line w).2 = buffers w
    /\ journal (bulk_import_line E v fd line w).2 = journal w.
Proof.
  intros Hl Hv Hobj Hs.
  unfold bulk_import_line, bind, lift, time_time. rewrite Hl, Hv.
  destruct (is_scalar doc) eqn:Hscalar.
  - destruct doc; try discriminate; by eexists.
  - destruct (write_edge_key_sequence doc Hobj Hscalar) as [Hk|Hk];
      rewrite Hk; [|by eexists].
    rewrite Hs. destruct doc; try discriminate; by eexists.
Qed.

Lemma bulk_import_line_not_object_witness :
  exists msg,
    (bulk_import_line
       (Env (fun c => Ok c) (fun _ _ => Ok test_validator)
            (fun _ => Ok (JArr [])) test_dumps test_import
            (fun _ => float_of_int 1700000000) [])
       (validator_of (fun _ => [])) "fd" "[]" test_world).1 =
    Raise (Exn TypeError msg)
    /\ files (bulk_import_line
       (Env (fun c => Ok c) (fun _ _ => Ok test_validator)
            (fun _ => Ok (JArr [])) test_dumps test_import
            (fun _ => float_of_int 1700000000) [])
       (validator_of (fun _ => [])) "fd" "[]" test_world).2
       = files test_world
    /\ buffers (bulk_import_line
       (Env (fun c => Ok c) (fun _ _ => Ok test_validator)
            (fun _ => Ok (JArr [])) test_dumps test_import
            (fun _ => float_of_int 1700000000) [])
       (validator_of (fun _ => [])) "fd" "[]" test_world).2
       = buffers test_world
    /\ journal (bulk_import_line
       (Env (fun c => Ok c) (fun _ _ => Ok test_validator)
            (fun _ => Ok (JArr [])) test_dumps test_import
            (fun _ => float_of_int 1700000000) [])
       (validator_of (fun _ => [])) "fd" "[]" test_world).2
       = journal test_world.
Proof.
  apply (bulk_import_line_not_object _ _ "fd" "[]" (JArr [])
           1700000000000); reflexivity.
Defined.

(** X9. A request without any line still calls the loader, on an empty
    temporary file, and returns what the loader returns or raises; the
    clock is not read. *)
Theorem bulk_import_empty_request
    (E : env) (q : gmap string string) (w : world) (v : validator) :
  prelude E q = Ok v ->
  request_stream E = [] ->
  let name := fresh (dom (files w)) in
  bulk_import E q w =
  (import_from_file E name q (<[name := ""]> (files w)),
   World (files w) (delete name (buffers w)) (ticks w)
         (journal w ++ [EvCreate name; EvClose name; EvImport name "";
                        EvRemove name])).
Proof.
  intros Hp Hstream name.
  rewrite (bulk_import_prelude_ok E q w v Hp). fold name.
  unfold try_finally, bulk_import_body. rewrite Hstream. cbn [for_each].
  unfold bind, ret, fd_close, call_import_from_file, NamedTemporaryFile,
    os_remove, log.
  cbn [fst snd files buffers ticks journal]. fold name.
  rewrite lookup_insert_eq. cbn [fst snd files buffers ticks journal].
  assert (Hfiles :
    alter (fun c : string => c +:+ "") name (<[name := ""]> (files w)) =
    <[name := ""]> (files w)).
  { apply map_eq. intros p. destruct (decide (p = name)) as [->|Hne].
    - by rewrite lookup_alter_eq, !lookup_insert_eq.
    - by rewrite lookup_alter_ne, !lookup_insert_ne. }
  rewrite Hfiles, lookup_insert_eq.
  cbn [fst snd files buffers ticks journal default].
  unfold name. rewrite remove_fresh, delete_insert_eq.
  rewrite <- !app_assoc. reflexivity.
Qed.

Lemma bulk_import_empty_request_witness :
  bulk_import (test_env []) test_params test_world =
  (test_import "0" test_params (<["0" := ""]> (files test_world)),
   World (files test_world) (delete "0" (buffers test_world))
         (ticks test_world)
         ([] ++ [EvCreate "0"; EvClose "0"; EvImport "0" ""; EvRemove "0"])).
Proof.
  apply (bulk_import_empty_request (test_env []) test_params test_world
           test_validator); reflexivity.
Defined.

End BulkImportMore.

(* ===================================================================== *)
(** * Further properties of the data_sources importer                     *)
(* ===================================================================== *)

Section DataSourcesMore.
Import DataSources DataSourcesSpec MoreSpec.

Lemma note_run type message w :
  note type message w =
  (Ok tt, World (stdout w ++ [note_line type message]) (requests w)).
Proof. reflexivity. Qed.

(** [load_data] up to the creation of the validator. *)
Lemma load_data_start E self dry_run w api_url v :
  _config self !! "API_URL" = Some api_url ->
  get_schema_validator E (schema_file E) = Ok v ->
  load_data E self dry_run w =
  load_documents E self dry_run v (file_path E self)
    (World (stdout w ++ preamble E self api_url dry_run) (requests w)).
Proof.
  intros Hurl Hval.
  unfold load_data, load_documents, preamble, file_path, schema_file,
    data_dir in *.
  unfold get_config_or_fail. rewrite Hurl.
  unfold bind at 1, note at 1, print. cbn [stdout requests].
  unfold bind at 1, note at 1, print. cbn [stdout requests].
  unfold bind at 1, lift at 1.
  unfold bind at 1, note at 1, print. cbn [stdout requests].
  unfold bind at 1, note at 1, print. cbn [stdout requests].
  destruct (get_config self "ROOT_DATA_PATH" None) as [dir|] eqn:Hdir;
    unfold bind at 1;
    unfold bind at 1, note at 1, print, ret at 1; cbn [stdout requests];
    unfold bind at 1, note at 1, print; cbn [stdout requests];
    rewrite Hval; unfold bind at 1, lift at 1;
    rewrite <- !app_assoc; reflexivity.
Qed.

Lemma quiet_ret {A} (a : A) : quiet (ret a).
Proof. by intros w. Qed.

Lemma quiet_lift {A} (r : result A) : quiet (lift r).
Proof. by intros w. Qed.

Lemma quiet_note type message : quiet (note type message).
Proof. by intros w. Qed.

Lemma quiet_bind {A B} (c : M world A) (k : A -> M world B) :
  quiet c -> (forall a, quiet (k a)) -> quiet (bind c k).
Proof.
  intros Hc Hk w. unfold bind. specialize (Hc w).
  destruct (c w) as [[a|e] w1]; cbn [snd] in *; [|done].
  by rewrite Hk.
Qed.

Lemma quiet_try_except {A} catches (body : M world A) handler :
  quiet body -> (forall e, quiet (handler e)) ->
  quiet (try_except catches body handler).
Proof.
  intros Hb Hh w. unfold try_except. specialize (Hb w).
  destruct (body w) as [[a|e] w1]; cbn [snd] in *; [done|].
  destruct (catches (exn_cls e)); [by rewrite Hh | done].
Qed.

Lemma quiet_report_errors errors is_error :
  quiet (report_errors errors is_error).
Proof. intros w. by rewrite report_errors_run. Qed.

Lemma quiet_check v docs is_error saved :
  quiet (check_data_sources v docs is_error saved).
Proof.
  revert is_error saved. induction docs as [|d docs IH]; intros b saved.
  - apply quiet_ret.
  - cbn [check_data_sources]. destruct (negb (is_valid v d)).
    + apply quiet_bind; [apply quiet_report_errors | intros ?; apply IH].
    + apply quiet_bind; [apply quiet_lift | intros ?].
      apply quiet_bind; [apply quiet_lift | intros ?; apply IH].
Qed.

Local Ltac quiet_step :=
  first [ apply quiet_ret | apply quiet_lift | apply quiet_note
        | apply quiet_check
        | apply quiet_try_except; [|intros ?]
        | apply quiet_bind; [|intros ?] ].

(** X10. A dry run never sends a request, whatever the configuration, the
    data file and the documents are, and however the call ends. *)
Theorem load_data_dry_run_sends_nothing E self w :
  requests (load_data E self true w).2 = requests w.
Proof.
  revert w. change (quiet (load_data E self true)).
  unfold load_data. repeat quiet_step.
  - destruct (get_config self "ROOT_DATA_PATH" None); repeat quiet_step.
  - match goal with |- quiet (match ?x with _ => _ end) => destruct x end;
      [|quiet_step].
    repeat quiet_step.
    match goal with |- quiet (let '(_, _) := ?x in _) => destruct x as [[] ?] end;
      repeat quiet_step.
Qed.

Lemma quiet_then_false {A} (c : M world A) (k : A -> M world bool) :
  quiet c -> (forall a, quiet_when_false (k a)) ->
  quiet_when_false (bind c k).
Proof.
  intros Hc Hk w. unfold bind. specialize (Hc w).
  destruct (c w) as [[a|e] w1]; cbn [fst snd] in *; [|done].
  intros H. by rewrite Hk.
Qed.

Lemma quiet_is_quiet_when_false (c : M world bool) :
  quiet c -> quiet_when_false c.
Proof. intros Hc w _. apply Hc. Qed.

Lemma then_true_not_false {A} (c : M world A) w :
  (bind c (fun _ => ret true) w).1 <> Ok false.
Proof. unfold bind, ret. by destruct (c w) as [[a|e] w1]. Qed.

Lemma load_documents_quiet_when_false E self dry_run v path :
  quiet_when_false (load_documents E self dry_run v path).
Proof.
  unfold load_documents. apply quiet_then_false.
  { repeat quiet_step. }
  intros [data_sources|]; [|apply quiet_is_quiet_when_false; quiet_step].
  apply quiet_then_false; [quiet_step|]. intros documents.
  apply quiet_then_false; [quiet_step|]. intros [[] saved].
  - apply quiet_is_quiet_when_false. repeat quiet_step.
    destruct dry_run; quiet_step.
  - apply quiet_then_false; [quiet_step|]. intros _ w H.
    by apply then_true_not_false in H.
Qed.

(** X11. Whenever [load_data] returns [False] it has sent no request: the
    save collaborator is out of reach of every path that ends in
    [return False]. *)
Theorem load_data_false_sends_nothing E self dry_run w :
  (load_data E self dry_run w).1 = Ok false ->
  requests (load_data E self dry_run w).2 = requests w.
Proof.
  revert w. change (quiet_when_false (load_data E self dry_run)).
  unfold load_data.
  repeat (apply quiet_then_false; [quiet_step|intros ?]).
  apply quiet_then_false.
  { destruct (get_config self "ROOT_DATA_PATH" None); repeat quiet_step. }
  intros data_dir.
  do 2 (apply quiet_then_false; [quiet_step|intros ?]).
  apply (load_documents_quiet_when_false E self dry_run _
           (os_path_join data_dir ["data_sources.json"])).
Qed.

Lemma load_data_false_sends_nothing_witness :
  requests (load_data test_env (test_importer "/data") false
                      (World [] [])).2 = requests (World [] []).
Proof.
  apply load_data_false_sends_nothing. reflexivity.
Defined.

(** X12. Without an [API_URL] in the configuration [load_data] raises
    [KeyError] naming the key, after its first two lines of output and
    before anything else is done. *)
Theorem load_data_missing_api_url E self dry_run w :
  _config self !! "API_URL" = None ->
  load_data E self dry_run w =
  (Raise (Exn KeyError
            ("No such config key: " +:+ dquote +:+ "API_URL" +:+ dquote)),
   World (stdout w ++ [ note_line "info" "Loading data";
                        note_line "info" "Parameters:" ])
         (requests w)).
Proof.
  intros H. unfold load_data, get_config_or_fail. rewrite H.
  unfold bind, note, print, lift. cbn [stdout requests].
  by rewrite <- app_assoc.
Qed.

Lemma load_data_missing_api_url_witness :
  load_data test_env {| _config := ∅ |} false (World [] []) =
  (Raise (Exn KeyError
            ("No such config key: " +:+ dquote +:+ "API_URL" +:+ dquote)),
   World ([] ++ [ note_line "info" "Loading data";
                  note_line "info" "Parameters:" ])
         (requests (World [] []))).
Proof. apply load_data_missing_api_url. reflexivity. Defined.

Lemma load_documents_read E self dry_run v w :
  load_documents E self dry_run v (file_path E self) w =
  match read_data_file E self with
  | Raise e =>
      if is_OSError (exn_cls e)
      then (Ok false,
            World (stdout w
                   ++ [note_line "error" "Error loading import data file"])
                  (requests w))
      else (Raise e, w)
  | Ok data_sources =>
      load_documents E self dry_run v (file_path E self) w
  end.
Proof.
  destruct (read_data_file E self) as [data|e] eqn:Hr; [done|].
  unfold load_documents, read_data_file in *.
  unfold bind at 1, try_except, bind at 1, lift at 1.
  destruct (open_read E (file_path E self)) as [contents|e'];
    cbn [rbind] in Hr.
  - unfold bind at 1, lift at 1. rewrite Hr.
    destruct (is_OSError (exn_cls e)); reflexivity.
  - injection Hr as ->. destruct (is_OSError (exn_cls e)); reflexivity.
Qed.

(** X13. When the data file cannot be opened or read (an [OSError], or one
    of its subclasses, comes out of [open] or of the parser) [load_data]
    does not raise: it prints an error note and returns [False], and
    nothing is validated or sent. *)
Theorem load_data_unreadable_file E self dry_run w api_url v e :
  _config self !! "API_URL" = Some api_url ->
  get_schema_validator E (schema_file E) = Ok v ->
  read_data_file E self = Raise e ->
  is_OSError (exn_cls e) = true ->
  load_data E self dry_run w =
  (Ok false,
   World (stdout w ++ preamble E self api_url dry_run
          ++ [note_line "error" "Error loading import data file"])
         (requests w)).
Proof.
  intros Hurl Hval Hread Hos.
  rewrite (load_data_start E self dry_run w api_url v Hurl Hval).
  rewrite load_documents_read, Hread, Hos. cbn [stdout requests].
  by rewrite <- app_assoc.
Qed.

Lemma load_data_unreadable_file_witness :
  load_data test_env (test_importer "/nowhere") false (World [] []) =
  (Ok false,
   World ([] ++ preamble test_env (test_importer "/nowhere")
                  (Some "http://re") false
          ++ [note_line "error" "Error loading import data file"])
         (requests (World [] []))).
Proof.
  apply (load_data_unreadable_file test_env (test_importer "/nowhere") false
           (World [] []) (Some "http://re") test_validator
           (Exn FileNotFoundError "/nowhere/data_sources.json"));
    reflexivity.
Defined.

(** X14. An exception of the data file that is not an [OSError] (a JSON
    syntax error, for one) is not handled: [load_data] raises it, after the
    preamble. *)
Theorem load_data_parse_error_propagates E self dry_run w api_url v e :
  _config self !! "API_URL" = Some api_url ->
  get_schema_validator E (schema_file E) = Ok v ->
  read_data_file E self = Raise e ->
  is_OSError (exn_cls e) = false ->
  load_data E self dry_run w =
  (Raise e,
   World (stdout w ++ preamble E self api_url dry_run) (requests w)).
Proof.
  intros Hurl Hval Hread Hos.
  rewrite (load_data_start E self dry_run w api_url v Hurl Hval).
  by rewrite load_documents_read, Hread, Hos.
Qed.

Lemma load_data_parse_error_propagates_witness :
  load_data broken_json_env (test_importer "/data") false (World [] []) =
  (Raise (Exn JSONDecodeError "Expecting property name"),
   World ([] ++ preamble broken_json_env (test_importer "/data")
                  (Some "http://re") false)
         (requests (World [] []))).
Proof.
  apply (load_data_parse_error_propagates broken_json_env
           (test_importer "/data") false (World [] []) (Some "http://re")
           test_validator); reflexivity.
Defined.

Lemma load_documents_loaded E self dry_run v w data_sources :
  read_data_file E self = Ok data_sources ->
  load_documents E self dry_run v (file_path E self) w =
  (run documents <- lift (py_iter data_sources);
   run checked <- check_data_sources v documents false [];
   let '(is_error, data_sources_to_save) := checked in
   if is_error then
     run _ <- note "error" "Data did not validate";
     run _ <- (if dry_run
               then note "error" "Dry run completed with errors"
               else note "error" "Due to errors, data will not be loaded");
     ret false
   else
     run _ <- note "success" "Data loaded and validated successfully";
     run _ <- (if dry_run then
                 run _ <- note "success" "Dry run completed successfully";
                 note "warning" "REMEMBER: Data not loaded"
               else
                 run _ <- save_docs E self "data_sources_nodes"
                            data_sources_to_save "update";
                 ret tt);
     ret true) w.
Proof.
  intros Hr. unfold load_documents, read_data_file in *.
  unfold bind at 1, try_except, bind at 1, lift at 1.
  destruct (open_read E (file_path E self)) as [contents|e'];
    cbn [rbind] in Hr; [|discriminate].
  unfold bind at 1, lift at 1. rewrite Hr. reflexivity.
Qed.

(** X15. A data file that holds a JSON number, boolean or [null] instead
    of a list makes [load_data] raise [TypeError]: the value cannot be
    iterated. *)
Theorem load_data_not_iterable E self dry_run w api_url v data_sources :
  _config self !! "API_URL" = Some api_url ->
  get_schema_validator E (schema_file E) = Ok v ->
  read_data_file E self = Ok data_sources ->
  is_scalar data_sources = true ->
  load_data E self dry_run w =
  (Raise (Exn TypeError "object is not iterable"),
   World (stdout w ++ preamble E self api_url dry_run) (requests w)).
Proof.
  intros Hurl Hval Hread Hs.
  rewrite (load_data_start E self dry_run w api_url v Hurl Hval).
  rewrite (load_documents_loaded E self dry_run v _ data_sources Hread).
  by destruct data_sources.
Qed.

Lemma load_data_not_iterable_witness :
  load_data number_env (test_importer "/data") true (World [] []) =
  (Raise (Exn TypeError "object is not iterable"),
   World ([] ++ preamble number_env (test_importer "/data")
                  (Some "http://re") true)
         (requests (World [] []))).
Proof.
  apply (load_data_not_iterable number_env (test_importer "/data") true
           (World [] []) (Some "http://re") test_validator (JInt 42));
    reflexivity.
Defined.

Lemma keyed_has_ns (d : json) :
  has_ns d ->
  exists m ns, d = JObj m /\ m !! "ns" = Some ns
               /\ keyed d = JObj (<["_key" := ns]> m).
Proof.
  intros (m & ns & -> & Hns). exists m, ns. cbn [keyed]. by rewrite Hns.
Qed.

Lemma check_data_sources_loadable v docs :
  Forall (loadable v) docs ->
  forall is_error saved w,
    check_data_sources v docs is_error saved w =
    (Ok (is_error, saved ++ map keyed docs), w).
Proof.
  induction 1 as [|d docs [Hv Hns] _ IH]; intros is_error saved w.
  - simpl. unfold ret. by rewrite app_nil_r.
  - cbn [check_data_sources map]. rewrite Hv. cbn [negb].
    destruct (keyed_has_ns d Hns) as (m & ns & -> & Hm & Hk).
    unfold bind at 1, lift. cbn [py_getitem]. rewrite Hm.
    unfold bind at 1, lift. cbn [py_setitem].
    rewrite IH, Hk, <- app_assoc. reflexivity.
Qed.

(** X16. When every document of the list validates and has an [ns], a dry
    run returns [True] after three lines that say so, and sends
    nothing. *)
Theorem load_data_dry_run_success E self w api_url v docs :
  _config self !! "API_URL" = Some api_url ->
  get_schema_validator E (schema_file E) = Ok v ->
  read_data_file E self = Ok (JArr docs) ->
  Forall (loadable v) docs ->
  load_data E self true w =
  (Ok true,
   World (stdout w ++ preamble E self api_url true
          ++ [ note_line "success" "Data loaded and validated successfully";
               note_line "success" "Dry run completed successfully";
               note_line "warning" "REMEMBER: Data not loaded" ])
         (requests w)).
Proof.
  intros Hurl Hval Hread Hdocs.
  rewrite (load_data_start E self true w api_url v Hurl Hval).
  rewrite (load_documents_loaded E self true v _ (JArr docs) Hread).
  unfold bind at 1, lift at 1. cbn [py_iter].
  unfold bind at 1. rewrite (check_data_sources_loadable v docs Hdocs).
  cbn [app]. unfold bind, note, print, ret. cbn [stdout requests].
  rewrite <- !app_assoc. reflexivity.
Qed.

Lemma load_data_dry_run_success_witness :
  load_data test_env (test_importer "/good") true (World [] []) =
  (Ok true,
   World ([] ++ preamble test_env (test_importer "/good")
                  (Some "http://re") true
          ++ [ note_line "success" "Data loaded and validated successfully";
               note_line "success" "Dry run completed successfully";
               note_line "warning" "REMEMBER: Data not loaded" ])
         (requests (World [] []))).
Proof.
  apply (load_data_dry_run_success test_env (test_importer "/good")
           (World [] []) (Some "http://re") test_validator
           [good_doc "a"; good_doc "b"]);
    try reflexivity.
  repeat constructor; try reflexivity;
    eexists _, (JStr _); split; reflexivity.
Defined.

(** X17. When every document validates and has an [ns] and the run is not
    a dry run, [load_data] hands [save_docs] the documents of the file, in
    order, each with [_key] set to the value of its [ns], for the
    collection [data_sources_nodes] with the policy [update]; it returns
    [True] when [save_docs] returns and raises what [save_docs] raises. *)
Theorem load_data_saves_keyed_documents E self w api_url v docs :
  _config self !! "API_URL" = Some api_url ->
  get_schema_validator E (schema_file E) = Ok v ->
  read_data_file E self = Ok (JArr docs) ->
  Forall (loadable v) docs ->
  load_data E self false w =
  match save_docs E self "data_sources_nodes" (map keyed docs) "update"
          (World (stdout w ++ preamble E self api_url false
                  ++ [note_line "success"
                        "Data loaded and validated successfully"])
                 (requests w)) with
  | (Ok _, w') => (Ok true, w')
  | (Raise e, w') => (Raise e, w')
  end.
Proof.
  intros Hurl Hval Hread Hdocs.
  rewrite (load_data_start E self false w api_url v Hurl Hval).
  rewrite (load_documents_loaded E self false v _ (JArr docs) Hread).
  unfold bind at 1, lift at 1. cbn [py_iter].
  unfold bind at 1. rewrite (check_data_sources_loadable v docs Hdocs).
  cbn [app]. unfold bind at 1, note at 1, print. cbn [stdout requests].
  rewrite <- app_assoc. unfold bind at 1 2.
  destruct (save_docs E self "data_sources_nodes" (map keyed docs) "update"
              _) as [[resp|e] w']; reflexivity.
Qed.

Lemma load_data_saves_keyed_documents_witness :
  load_data test_env (test_importer "/good") false (World [] []) =
  match save_docs test_env (test_importer "/good") "data_sources_nodes"
          (map keyed [good_doc "a"; good_doc "b"]) "update"
          (World ([] ++ preamble test_env (test_importer "/good")
                          (Some "http://re") false
                  ++ [note_line "success"
                        "Data loaded and validated successfully"])
                 (requests (World [] []))) with
  | (Ok _, w') => (Ok true, w')
  | (Raise e, w') => (Raise e, w')
  end.
Proof.
  apply (load_data_saves_keyed_documents test_env (test_importer "/good")
           (World [] []) (Some "http://re") test_validator
           [good_doc "a"; good_doc "b"]);
    try reflexivity.
  repeat constructor; try reflexivity;
    eexists _, (JStr _); split; reflexivity.
Defined.

(** X18. With both [API_URL] and [AUTH_TOKEN] configured, [save_docs]
    sends exactly one request: a PUT to [<API_URL>/api/v1/documents] with
    the collection and the policy as parameters, the token as
    [Authorization] header and the dumps of the documents, one per line, as
    body.  A response that is not [ok] raises [RuntimeError] with the text
    of the response and prints nothing; an [ok] response is returned after
    a success note and one note per item of its JSON body. *)
Theorem save_docs_sends_one_request
    E self collection docs on_duplicate w api_url token :
  _config self !! "API_URL" = Some api_url ->
  _config self !! "AUTH_TOKEN" = Some token ->
  let req := save_request E api_url token collection on_duplicate docs in
  save_docs E self collection docs on_duplicate w =
  match requests_put E req with
  | Raise e => (Raise e, World (stdout w) (requests w ++ [req]))
  | Ok resp =>
      if ok resp then
        (Ok resp,
         World (stdout w
                ++ note_line "success"
                     ("Saved docs to collection " +:+ collection +:+ "!")
                :: map (fun kv => note_line "info"
                                    ("     " +:+ kv.1 +:+ ": " +:+ kv.2))
                       (body resp))
               (requests w ++ [req]))
      else
        (Raise (Exn RuntimeError (text resp)),
         World (stdout w) (requests w ++ [req]))
  end.
Proof.
  intros Hurl Htok req. unfold save_docs, get_config_or_fail.
  rewrite Hurl, Htok. unfold bind at 1, lift at 1.
  unfold bind at 1, lift at 1. unfold bind at 1, requests_put_call.
  fold (save_request E api_url token collection on_duplicate docs).
  fold req. destruct (requests_put E req) as [resp|e]; [|done].
  destruct (ok resp); cbn [negb]; [|done].
  unfold bind at 1, note at 1, print. cbn [stdout requests].
  unfold bind at 1.
  assert (Hnotes : forall items w0,
    for_each (fun kv : string * string =>
                note "info" ("     " +:+ kv.1 +:+ ": " +:+ kv.2)) items w0 =
    (Ok tt, World (stdout w0
                   ++ map (fun kv => note_line "info"
                             ("     " +:+ kv.1 +:+ ": " +:+ kv.2)) items)
                  (requests w0))).
  { induction items as [|kv items IH]; intros w0.
    - simpl. unfold ret. rewrite app_nil_r. by destruct w0.
    - cbn [for_each map]. unfold bind, note, print. rewrite IH.
      cbn [stdout requests]. by rewrite <- app_assoc. }
  rewrite Hnotes. cbn [stdout requests]. unfold ret.
  rewrite <- app_assoc. reflexivity.
Qed.

Lemma save_docs_sends_one_request_witness :
  save_docs refusing_env (test_importer "/good") "data_sources_nodes"
            [good_doc "a"] "update" (World [] []) =
  (Raise (Exn RuntimeError "Unauthorized"),
   World [] ([] ++ [save_request refusing_env (Some "http://re") (Some "t")
                      "data_sources_nodes" "update" [good_doc "a"]])).
Proof.
  apply (save_docs_sends_one_request refusing_env (test_importer "/good")
           "data_sources_nodes" [good_doc "a"] "update" (World [] [])
           (Some "http://re") (Some "t")); reflexivity.
Defined.

(** X19. When [API_URL] or [AUTH_TOKEN] is missing from the configuration
    [save_docs] raises [KeyError] and sends no request.  [API_URL] is
    looked up first: the error names [API_URL] whenever it is missing, also
    when [AUTH_TOKEN] is missing too, and names [AUTH_TOKEN] only when
    [API_URL] is there. *)
Theorem save_docs_missing_config
    E self collection docs on_duplicate w :
  _config self !! "API_URL" = None \/ _config self !! "AUTH_TOKEN" = None ->
  save_docs E self collection docs on_duplicate w =
  (Raise (Exn KeyError
            ("No such config key: " +:+ dquote
             +:+ match _config self !! "API_URL" with
                 | None => "API_URL"
                 | Some _ => "AUTH_TOKEN"
                 end
             +:+ dquote)),
   w).
Proof.
  intros Hmissing. unfold save_docs, get_config_or_fail.
  destruct (_config self !! "API_URL") as [api_url|] eqn:Hurl; [|done].
  destruct Hmissing as [?|Htok]; [done|]. by rewrite Htok.
Qed.

Lemma save_docs_missing_config_witness :
  save_docs test_env {| _config := ∅ |} "data_sources_nodes" [good_doc "a"]
            "update" (World [] []) =
  (Raise (Exn KeyError
            ("No such config key: " +:+ dquote +:+ "API_URL" +:+ dquote)),
   World [] [])
  /\ save_docs test_env {| _config := <["API_URL" := Some "http://re"]> ∅ |}
               "data_sources_nodes" [good_doc "a"] "update" (World [] []) =
     (Raise (Exn KeyError
               ("No such config key: " +:+ dquote +:+ "AUTH_TOKEN"
                +:+ dquote)),
      World [] []).
Proof.
  split.
  - exact (save_docs_missing_config test_env {| _config := ∅ |}
             "data_sources_nodes" [good_doc "a"] "update" (World [] [])
             (or_introl eq_refl)).
  - exact (save_docs_missing_config test_env
             {| _config := <["API_URL" := Some "http://re"]> ∅ |}
             "data_sources_nodes" [good_doc "a"] "update" (World [] [])
             (or_intror eq_refl)).
Defined.

Lemma load_documents_invalid E self dry_run v w docs :
  read_data_file E self = Ok (JArr docs) ->
  Forall (schema_contract v) docs ->
  Exists (fun d => is_valid v d = false) docs ->
  load_documents E self dry_run v (file_path E self) w =
  (Ok false,
   World (stdout w ++ flat_map (error_report v) docs
          ++ [ note_line "error" "Data did not validate";
               note_line "error"
                 (if dry_run then "Dry run completed with errors"
                  else "Due to errors, data will not be loaded") ])
         (requests w)).
Proof.
  intros Hread Hdocs Hbad.
  rewrite (load_documents_loaded E self dry_run v _ (JArr docs) Hread).
  unfold bind at 1, lift at 1. cbn [py_iter]. unfold bind at 1.
  destruct (check_data_sources_run v docs Hdocs false [] w) as [saved Hrun].
  rewrite Hrun, (existsb_invalid v docs Hbad). cbn [orb].
  destruct dry_run; unfold bind, note, print, ret; cbn [stdout requests];
    rewrite <- !app_assoc; reflexivity.
Qed.

(** X20. No violation goes unreported: for every document of the list that
    the schema rejects and every error the validator yields for it, the
    line [Validation error: <message>] is in the output of [load_data]. *)
Theorem load_data_reports_every_violation
    E self dry_run w api_url v docs d e :
  _config self !! "API_URL" = Some api_url ->
  get_schema_validator E (schema_file E) = Ok v ->
  read_data_file E self = Ok (JArr docs) ->
  Forall (schema_contract v) docs ->
  d ∈ docs ->
  is_valid v d = false ->
  e ∈ iter_errors v d ->
  note_line "error" ("Validation error: " +:+ message e)
    ∈ stdout (load_data E self dry_run w).2.
Proof.
  intros Hurl Hval Hread Hdocs Hd Hv He.
  rewrite (load_data_start E self dry_run w api_url v Hurl Hval).
  rewrite (load_documents_invalid E self dry_run v _ docs Hread Hdocs).
  2:{ apply Exists_exists. by exists d. }
  cbn [snd stdout]. rewrite !elem_of_app. right. left.
  apply list_elem_of_In, in_flat_map. exists d.
  split; [by apply list_elem_of_In|]. apply list_elem_of_In.
  unfold error_report. rewrite Hv.
  apply (list_elem_of_fmap_2 (fun e => note_line "error"
                                ("Validation error: " +:+ message e))).
  by rewrite sorted_by_str_perm.
Qed.

Lemma load_data_reports_every_violation_witness :
  note_line "error" ("Validation error: " +:+ "ns is not of type 'string'")
    ∈ stdout (load_data test_env (test_importer "/data") false
                        (World [] [])).2.
Proof.
  apply (load_data_reports_every_violation test_env (test_importer "/data")
           false (World [] []) (Some "http://re") test_validator
           [good_doc "a"; bad_doc; good_doc "b"; JArr []] bad_doc
           (VError "ns is not of type 'string'" "2 type")).
  - reflexivity.
  - reflexivity.
  - reflexivity.
  - repeat constructor.
    + change (has_ns (good_doc "a")).
      eexists _, (JStr "a"). split; reflexivity.
    + change (iter_errors test_validator bad_doc <> []). discriminate.
    + change (has_ns (good_doc "b")).
      eexists _, (JStr "b"). split; reflexivity.
    + change (iter_errors test_validator (JArr []) <> []). discriminate.
  - set_solver.
  - reflexivity.
  - change (iter_errors test_validator bad_doc)
      with [VError "ns is not of type 'string'" "2 type";
            VError "invalid is not allowed" "0 additional"].
    set_solver.
Defined.

Lemma check_data_sources_prefix v pre rest :
  Forall (schema_contract v) pre ->
  forall is_error saved w,
  exists is_error' saved',
    check_data_sources v (pre ++ rest) is_error saved w =
    check_data_sources v rest is_error' saved'
      (World (stdout w ++ flat_map (error_report v) pre) (requests w)).
Proof.
  induction 1 as [|d pre Hd _ IH]; intros is_error saved w.
  - exists is_error, saved. simpl. rewrite app_nil_r. by destruct w.
  - cbn [app check_data_sources flat_map]. unfold schema_contract in Hd.
    destruct (is_valid v d) eqn:Hv; cbn [negb].
    + destruct Hd as (m & ns & -> & Hns).
      unfold bind at 1, lift. cbn [py_getitem]. rewrite Hns.
      unfold bind at 1, lift. cbn [py_setitem].
      destruct (IH is_error (saved ++ [JObj (<["_key" := ns]> m)]) w)
        as (b' & saved' & Hrun).
      exists b', saved'. rewrite Hrun.
      rewrite (error_report_valid _ _ Hv). reflexivity.
    + unfold bind at 1. rewrite (report_errors_invalid _ _ _ _ Hv Hd).
      destruct (IH true saved
                  (World (stdout w ++ error_report v d) (requests w)))
        as (b' & saved' & Hrun).
      exists b', saved'. rewrite Hrun. cbn [stdout requests].
      by rewrite <- app_assoc.
Qed.

(** X21. Validation alone does not protect the copy of [ns] into [_key]:
    when the validator accepts an object that has no [ns], [load_data]
    raises [KeyError] at that document; the documents after it are not
    checked and nothing is sent. *)
Theorem load_data_valid_without_ns
    E self dry_run w api_url v pre m post :
  _config self !! "API_URL" = Some api_url ->
  get_schema_validator E (schema_file E) = Ok v ->
  read_data_file E self = Ok (JArr (pre ++ JObj m :: post)) ->
  Forall (schema_contract v) pre ->
  is_valid v (JObj m) = true ->
  m !! "ns" = None ->
  load_data E self dry_run w =
  (Raise (Exn KeyError "ns"),
   World (stdout w ++ preamble E self api_url dry_run
          ++ flat_map (error_report v) pre)
         (requests w)).
Proof.
  intros Hurl Hval Hread Hpre Hv Hns.
  rewrite (load_data_start E self dry_run w api_url v Hurl Hval).
  rewrite (load_documents_loaded E self dry_run v _ _ Hread).
  unfold bind at 1, lift at 1. cbn [py_iter]. unfold bind at 1.
  destruct (check_data_sources_prefix v pre (JObj m :: post) Hpre false []
              (World (stdout w ++ preamble E self api_url dry_run)
                     (requests w))) as (b' & saved' & Hrun).
  rewrite Hrun. cbn [check_data_sources]. rewrite Hv. cbn [negb].
  unfold bind at 1, lift. cbn [py_getitem stdout requests]. rewrite Hns.
  by rewrite <- app_assoc.
Qed.

Lemma load_data_valid_without_ns_witness :
  load_data
    (Env "/app" (fun _ => Ok (validator_of (fun _ => [])))
         (fun _ => Ok "") (fun _ => Ok (JArr ([] ++ JObj ∅ :: [])))
         (fun _ => "") (fun _ => Ok (Response true "" [])))
    (test_importer "/data") false (World [] []) =
  (Raise (Exn KeyError "ns"),
   World ([] ++ preamble
                  (Env "/app" (fun _ => Ok (validator_of (fun _ => [])))
                       (fun _ => Ok "")
                       (fun _ => Ok (JArr ([] ++ JObj ∅ :: [])))
                       (fun _ => "") (fun _ => Ok (Response true "" [])))
                  (test_importer "/data") (Some "http://re") false
          ++ flat_map (error_report (validator_of (fun _ => []))) [])
         (requests (World [] []))).
Proof.
  apply (load_data_valid_without_ns _ (test_importer "/data") false
           (World [] []) (Some "http://re") (validator_of (fun _ => []))
           [] ∅ []); try reflexivity.
  constructor.
Defined.

Lemma at_most_one_of_quiet {A} (c : M world A) :
  quiet c -> at_most_one_request c.
Proof. intros Hc w. left. apply Hc. Qed.

Lemma quiet_then_at_most_one {A B} (c : M world A) (k : A -> M world B) :
  quiet c -> (forall a, at_most_one_request (k a)) ->
  at_most_one_request (bind c k).
Proof.
  intros Hc Hk w. unfold bind. specialize (Hc w).
  destruct (c w) as [[a|e] w1]; cbn [snd] in *; [|by left].
  rewrite <- Hc. apply Hk.
Qed.

Lemma at_most_one_then_quiet {A B} (c : M world A) (k : A -> M world B) :
  at_most_one_request c -> (forall a, quiet (k a)) ->
  at_most_one_request (bind c k).
Proof.
  intros Hc Hk w. unfold bind. specialize (Hc w).
  destruct (c w) as [[a|e] w1]; cbn [snd] in *; [|exact Hc].
  rewrite !Hk. exact Hc.
Qed.

Lemma quiet_for_each {A} (body : A -> M world unit) (xs : list A) :
  (forall x, quiet (body x)) -> quiet (for_each body xs).
Proof.
  intros Hb. induction xs as [|x xs IH]; cbn [for_each].
  - apply quiet_ret.
  - apply quiet_bind; [apply Hb | intros _; apply IH].
Qed.

Lemma at_most_one_save_docs E self collection docs on_duplicate :
  at_most_one_request (save_docs E self collection docs on_duplicate).
Proof.
  unfold save_docs.
  do 2 (apply quiet_then_at_most_one; [quiet_step|intros ?]).
  apply at_most_one_then_quiet.
  - intros w. right. by eexists.
  - intros resp. destruct (negb (ok resp)); repeat quiet_step.
    apply quiet_for_each. intros kv. quiet_step.
Qed.

(** X22. A call of [load_data] sends at most one request, whatever it is
    given and however it ends. *)
Theorem load_data_at_most_one_request E self dry_run :
  at_most_one_request (load_data E self dry_run).
Proof.
  unfold load_data.
  repeat (apply quiet_then_at_most_one; [quiet_step|intros ?]).
  apply quiet_then_at_most_one.
  { destruct (get_config self "ROOT_DATA_PATH" None); repeat quiet_step. }
  intros data_dir.
  do 2 (apply quiet_then_at_most_one; [quiet_step|intros ?]).
  apply quiet_then_at_most_one; [repeat quiet_step|].
  intros [data_sources|]; [|apply at_most_one_of_quiet; quiet_step].
  apply quiet_then_at_most_one; [quiet_step|]. intros documents.
  apply quiet_then_at_most_one; [quiet_step|]. intros [[] saved].
  - apply at_most_one_of_quiet. repeat quiet_step.
    destruct dry_run; quiet_step.
  - apply quiet_then_at_most_one; [quiet_step|]. intros _.
    apply at_most_one_then_quiet; [|intros ?; quiet_step].
    destruct dry_run.
    + apply at_most_one_of_quiet. repeat quiet_step.
    + apply at_most_one_then_quiet; [|intros ?; quiet_step].
      apply at_most_one_save_docs.
Qed.

Lemma ltb_asym (a b : string) :
  String.ltb a b = true -> String.ltb b a = false.
Proof.
  unfold String.ltb. rewrite (String.compare_antisym b a).
  by destruct (String.compare a b).
Qed.

Lemma insert_by_str_head e l x :
  head (insert_by_str e l) = Some x -> x = e \/ head l = Some x.
Proof.
  destruct l as [|y l]; cbn [insert_by_str head].
  - intros [= <-]. by left.
  - destruct (String.ltb (verror_str y) (verror_str e)); cbn [head];
      intros [= <-]; auto.
Qed.

Lemma insert_by_str_sorted e l :
  Sorted str_le l -> Sorted str_le (insert_by_str e l).
Proof.
  induction 1 as [|y l Hl IH Hhd]; cbn [insert_by_str].
  - by repeat constructor.
  - destruct (String.ltb (verror_str y) (verror_str e)) eqn:Hlt.
    + constructor; [exact IH|].
      destruct (insert_by_str e l) as [|z l'] eqn:Hins; constructor.
      destruct (insert_by_str_head e l z) as [->|Hz].
      * by rewrite Hins.
      * unfold str_le. by apply ltb_asym.
      * destruct l as [|z' l'']; [discriminate|].
        injection Hz as ->. by inversion Hhd.
    + constructor; [by constructor|]. constructor. exact Hlt.
Qed.

Lemma sorted_by_str_sorted l : Sorted str_le (sorted_by_str l).
Proof.
  induction l as [|e l IH]; cbn [sorted_by_str fold_right].
  - constructor.
  - by apply insert_by_str_sorted.
Qed.

(** X23. A document that the schema rejects is not kept for saving; the
    loop prints one line per error the validator yields for it, each error
    once and in the order of [str(e)], and goes on with the rest of the
    list.  [is_error] is set by the first printed error: a rejected
    document without any error leaves it as it was. *)
Theorem check_data_sources_rejected v d rest is_error saved w :
  is_valid v d = false ->
  exists errors,
    Permutation errors (iter_errors v d)
    /\ Sorted str_le errors
    /\ check_data_sources v (d :: rest) is_error saved w =
       check_data_sources v rest
         (match errors with [] => is_error | _ :: _ => true end) saved
         (World (stdout w
                 ++ map (fun e => note_line "error"
                                    ("Validation error: " +:+ message e))
                        errors)
                (requests w)).
Proof.
  intros Hv. exists (sorted_by_str (iter_errors v d)).
  split; [apply sorted_by_str_perm|].
  split; [apply sorted_by_str_sorted|].
  cbn [check_data_sources]. rewrite Hv. cbn [negb].
  unfold bind at 1. by rewrite report_errors_run.
Qed.

Lemma check_data_sources_rejected_witness :
  exists errors,
    Permutation errors (iter_errors test_validator bad_doc)
    /\ Sorted str_le errors
    /\ check_data_sources test_validator [bad_doc; good_doc "a"] false []
         (World [] []) =
       check_data_sources test_validator [good_doc "a"]
         (match errors with [] => false | _ :: _ => true end) []
         (World (stdout (World [] [])
                 ++ map (fun e => note_line "error"
                                    ("Validation error: " +:+ message e))
                        errors)
                (requests (World [] []))).
Proof. apply check_data_sources_rejected. reflexivity. Defined.

Lemma sends_one_never {A} (P : A -> Prop) (c : M world A) :
  (forall w a, (c w).1 = Ok a -> ~ P a) -> sends_one_when P c.
Proof. intros H w a Ha Hp. by destruct (H w a Ha). Qed.

Lemma quiet_then_sends_one {A B} (P : B -> Prop)
    (c : M world A) (k : A -> M world B) :
  quiet c -> (forall a, sends_one_when P (k a)) ->
  sends_one_when P (bind c k).
Proof.
  intros Hc Hk w b. unfold bind. specialize (Hc w).
  destruct (c w) as [[a|e] w1]; cbn [fst snd] in *; [|done].
  intros Hb Hp. rewrite <- Hc. by apply (Hk a w1 b).
Qed.

Lemma sends_one_then_quiet {A B} (P : B -> Prop)
    (c : M world A) (k : A -> M world B) :
  sends_one_when (fun _ => True) c -> (forall a, quiet (k a)) ->
  sends_one_when P (bind c k).
Proof.
  intros Hc Hk w b. unfold bind. specialize (Hc w).
  destruct (c w) as [[a|e] w1]; cbn [fst snd] in *; [|done].
  intros _ _. rewrite Hk. by apply (Hc a).
Qed.

Lemma save_docs_sends_one E self collection docs on_duplicate :
  sends_one_when (fun _ => True)
    (save_docs E self collection docs on_duplicate).
Proof.
  unfold save_docs.
  do 2 (apply quiet_then_sends_one; [quiet_step|intros ?]).
  apply sends_one_then_quiet.
  - intros w resp _ _. by eexists.
  - intros resp. destruct (negb (ok resp)); repeat quiet_step.
    apply quiet_for_each. intros kv. quiet_step.
Qed.

(** X24. On a run that is not a dry run, [load_data] returns [True] only
    after exactly one request has been sent. *)
Theorem load_data_true_sends_one E self w :
  (load_data E self false w).1 = Ok true ->
  exists req, requests (load_data E self false w).2 = requests w ++ [req].
Proof.
  intros H.
  cut (sends_one_when (fun b => b = true) (load_data E self false)).
  { intros Hone. by apply (Hone w true). }
  clear. unfold load_data.
  repeat (apply quiet_then_sends_one; [quiet_step|intros ?]).
  apply quiet_then_sends_one.
  { destruct (get_config self "ROOT_DATA_PATH" None); repeat quiet_step. }
  intros data_dir.
  do 2 (apply quiet_then_sends_one; [quiet_step|intros ?]).
  apply quiet_then_sends_one; [repeat quiet_step|].
  intros [data_sources|].
  2:{ apply sends_one_never. by intros ? ? [= <-]. }
  apply quiet_then_sends_one; [quiet_step|]. intros documents.
  apply quiet_then_sends_one; [quiet_step|]. intros [[] saved].
  - do 2 (apply quiet_then_sends_one; [quiet_step|intros ?]).
    apply sends_one_never. by intros ? ? [= <-].
  - apply quiet_then_sends_one; [quiet_step|]. intros _.
    apply sends_one_then_quiet; [|intros ?; quiet_step].
    apply sends_one_then_quiet; [|intros ?; quiet_step].
    apply save_docs_sends_one.
Qed.

Lemma load_data_true_sends_one_witness :
  exists req,
    requests (load_data test_env (test_importer "/good") false
                        (World [] [])).2 = requests (World [] []) ++ [req].
Proof. apply load_data_true_sends_one. reflexivity. Defined.

End DataSourcesMore.

(* ===================================================================== *)
(** * [do_import], [main] and the paths of the module                     *)
(* ===================================================================== *)

Section DataSourcesMainProofs.
Import DataSources DataSourcesSpec DataSourcesMain MoreSpec.

(** X25. The exit status of the script does not tell whether the data
    validated.  [main] leaves with status 1 when [load_data] raised and
    with status 0 whenever [load_data] returned, also when it returned
    [False] because of validation errors or an unreadable file; the value
    returned by [load_data] is dropped by [do_import]. *)
Theorem main_exit_status E P w dry_run importer :
  parse_args P = Returned dry_run ->
  new_Importer P = Ok importer ->
  (main E P w).1 =
  match (load_data E importer dry_run (started w)).1 with
  | Ok _ => Exited 0
  | Raise _ => Exited 1
  end.
Proof.
  intros Hargs Hnew. unfold main, do_import. rewrite Hargs, Hnew.
  rewrite note_run. cbn [snd]. fold (started w).
  destruct (load_data E importer dry_run (started w)) as [[b|e] w1];
    reflexivity.
Qed.

Lemma main_exit_status_witness :
  (main test_env (test_process "/data" (Returned false)) (World [] [])).1 =
  match (load_data test_env (test_importer "/data") false
                   (started (World [] []))).1 with
  | Ok _ => Exited 0
  | Raise _ => Exited 1
  end.
Proof.
  apply (main_exit_status test_env (test_process "/data" (Returned false))
           (World [] []) false (test_importer "/data")); reflexivity.
Defined.

(** [main] never returns to its caller: it ends in [sys.exit] or in an
    exception. *)
Remark main_never_returns E P w u : (main E P w).1 <> Returned u.
Proof.
  unfold main. destruct (parse_args P) as [dry_run|e|code]; [|done|done].
  by destruct (do_import E P dry_run w) as [[[]|e|code] w1].
Qed.

(** [do_import] once the importer object exists: the [finally] clause
    prints its line after the notes of the [except] clause, and
    [sys.exit(1)] leaves through it. *)
Lemma do_import_run E P w dry_run importer :
  new_Importer P = Ok importer ->
  do_import E P dry_run w =
  let loaded := load_data E importer dry_run (started w) in
  match loaded.1 with
  | Ok _ =>
      (Returned tt,
       World (stdout loaded.2 ++ [note_line "info" "Finished Import"])
             (requests loaded.2))
  | Raise err =>
      (Exited 1,
       World (stdout loaded.2
              ++ [ note_line "error" "Unhandled exception:";
                   note_line "error" (str_of P err);
                   note_line "error" (format_exc P err);
                   note_line "info" "Finished Import" ])
             (requests loaded.2))
  end.
Proof.
  intros Hnew. unfold do_import. rewrite Hnew.
  rewrite note_run. cbn [snd]. fold (started w). cbv zeta.
  destruct (load_data E importer dry_run (started w)) as [[b|e] w1];
    cbn [fst snd]; rewrite !note_run; cbn [snd stdout requests];
    rewrite <- ?app_assoc; reflexivity.
Qed.

(** X26. A run of the script on data that do not validate: between
    [Starting Import] and [Finished Import] it prints the parameters, the
    error report of every document and the two closing error notes; it
    sends nothing, and it exits with status 0. *)
Theorem main_invalid_data E P w dry_run importer api_url v docs :
  parse_args P = Returned dry_run ->
  new_Importer P = Ok importer ->
  _config importer !! "API_URL" = Some api_url ->
  get_schema_validator E (schema_file E) = Ok v ->
  read_data_file E importer = Ok (JArr docs) ->
  Forall (schema_contract v) docs ->
  Exists (fun d => is_valid v d = false) docs ->
  main E P w =
  (Exited 0,
   World (stdout w
          ++ note_line "info" "Starting Import"
          :: preamble E importer api_url dry_run
          ++ flat_map (error_report v) docs
          ++ [ note_line "error" "Data did not validate";
               note_line "error"
                 (if dry_run then "Dry run completed with errors"
                  else "Due to errors, data will not be loaded");
               note_line "info" "Finished Import" ])
         (requests w)).
Proof.
  intros Hargs Hnew Hurl Hval Hread Hdocs Hbad.
  unfold main. rewrite Hargs, (do_import_run E P w dry_run importer Hnew).
  cbv zeta.
  rewrite (load_data_start E importer dry_run _ api_url v Hurl Hval).
  rewrite (load_documents_invalid E importer dry_run v _ docs Hread Hdocs
             Hbad).
  cbn [fst snd stdout requests started]. f_equal. f_equal.
  rewrite <- !app_assoc. reflexivity.
Qed.

Lemma main_invalid_data_witness :
  main test_env (test_process "/data" (Returned false)) (World [] []) =
  (Exited 0,
   World (stdout (World [] [])
          ++ note_line "info" "Starting Import"
          :: preamble test_env (test_importer "/data") (Some "http://re")
               false
          ++ flat_map (error_report test_validator)
               [good_doc "a"; bad_doc; good_doc "b"; JArr []]
          ++ [ note_line "error" "Data did not validate";
               note_line "error" "Due to errors, data will not be loaded";
               note_line "info" "Finished Import" ])
         (requests (World [] []))).
Proof.
  apply (main_invalid_data test_env (test_process "/data" (Returned false))
           (World [] []) false (test_importer "/data") (Some "http://re")
           test_validator [good_doc "a"; bad_doc; good_doc "b"; JArr []]).
  - reflexivity.
  - reflexivity.
  - reflexivity.
  - reflexivity.
  - reflexivity.
  - repeat constructor.
    + change (has_ns (good_doc "a")).
      eexists _, (JStr "a"). split; reflexivity.
    + change (iter_errors test_validator bad_doc <> []). discriminate.
    + change (has_ns (good_doc "b")).
      eexists _, (JStr "b"). split; reflexivity.
    + change (iter_errors test_validator (JArr []) <> []). discriminate.
  - apply Exists_cons_tl, Exists_cons_hd. reflexivity.
Defined.

(** X27. A run of the script whose configuration has no [API_URL]: the
    [KeyError] of [load_data] is caught by [do_import], its text and the
    traceback are printed between the marker and [Finished Import], nothing
    is sent, and the script exits with status 1. *)
Theorem main_missing_api_url E P w dry_run importer :
  parse_args P = Returned dry_run ->
  new_Importer P = Ok importer ->
  _config importer !! "API_URL" = None ->
  let err := Exn KeyError
               ("No such config key: " +:+ dquote +:+ "API_URL" +:+ dquote) in
  main E P w =
  (Exited 1,
   World (stdout w
          ++ [ note_line "info" "Starting Import";
               note_line "info" "Loading data";
               note_line "info" "Parameters:";
               note_line "error" "Unhandled exception:";
               note_line "error" (str_of P err);
               note_line "error" (format_exc P err);
               note_line "info" "Finished Import" ])
         (requests w)).
Proof.
  intros Hargs Hnew Hurl err.
  unfold main. rewrite Hargs, (do_import_run E P w dry_run importer Hnew).
  cbv zeta. unfold load_data, get_config_or_fail. rewrite Hurl.
  unfold bind, note, print, lift.
  cbn [fst snd stdout requests started]. f_equal. f_equal.
  rewrite <- !app_assoc. reflexivity.
Qed.

Lemma main_missing_api_url_witness :
  main test_env
    (Process (Ok ∅) exn_msg exn_msg (Returned true) "__main__")
    (World [] []) =
  (Exited 1,
   World (stdout (World [] [])
          ++ [ note_line "info" "Starting Import";
               note_line "info" "Loading data";
               note_line "info" "Parameters:";
               note_line "error" "Unhandled exception:";
               note_line "error"
                 ("No such config key: " +:+ dquote +:+ "API_URL" +:+ dquote);
               note_line "error"
                 ("No such config key: " +:+ dquote +:+ "API_URL" +:+ dquote);
               note_line "info" "Finished Import" ])
         (requests (World [] []))).
Proof.
  apply (main_missing_api_url test_env
           (Process (Ok ∅) exn_msg exn_msg (Returned true) "__main__")
           (World [] []) true {| _config := ∅ |}); reflexivity.
Defined.

(** X28. An exception raised while the configuration is loaded is outside
    the [try] of [do_import]: it leaves [do_import] and [main] as it is,
    not as exit status 1, and [Finished Import] is not printed. *)
Theorem do_import_configuration_error E P w dry_run e :
  load_from_env P = Raise e ->
  do_import E P dry_run w = (Raised e, started w)
  /\ (parse_args P = Returned dry_run ->
      main E P w = (Raised e, started w)).
Proof.
  intros Hcfg.
  assert (Hdo : do_import E P dry_run w = (Raised e, started w)).
  { unfold do_import, new_Importer. by rewrite Hcfg. }
  split; [exact Hdo|]. intros Hargs. unfold main. by rewrite Hargs, Hdo.
Qed.

Lemma do_import_configuration_error_witness :
  do_import test_env
    (Process (Raise (Exn RuntimeError "Missing required env var: API_URL"))
             exn_msg exn_msg (Returned true) "__main__")
    true (World [] []) =
  (Raised (Exn RuntimeError "Missing required env var: API_URL"),
   started (World [] [])).
Proof.
  refine (proj1 (do_import_configuration_error test_env
           (Process (Raise (Exn RuntimeError
                              "Missing required env var: API_URL"))
                    exn_msg exn_msg (Returned true) "__main__")
           (World [] []) true _ _)).
  reflexivity.
Defined.

Lemma ends_with_slash_app (a b : string) :
  b <> "" -> ends_with_slash (a +:+ b) = ends_with_slash b.
Proof.
  intros Hb. induction a as [|c a IH]; [done|].
  change (String c a +:+ b) with (String c (a +:+ b)).
  cbn [ends_with_slash]. rewrite IH.
  destruct (a +:+ b) eqn:Hab; [|done].
  destruct a; [|discriminate]. by destruct Hb.
Qed.

Lemma join_component_relative (path b : string) :
  path <> "" -> starts_with_slash b = false ->
  join_component path b =
  if ends_with_slash path then path +:+ b else path +:+ "/" +:+ b.
Proof.
  intros Hp Hb. unfold join_component. rewrite Hb.
  destruct path; [done|]. reflexivity.
Qed.

Lemma join_after (dir tail b r : string) :
  tail <> "" -> starts_with_slash b = false ->
  (if ends_with_slash tail then tail +:+ b else tail +:+ "/" +:+ b) = r ->
  join_component (dir +:+ tail) b = dir +:+ r.
Proof.
  intros Ht Hb <-. rewrite join_component_relative; [| |done].
  - rewrite ends_with_slash_app by done.
    destruct (ends_with_slash tail); by rewrite !append_assoc.
  - destruct dir; [done|discriminate].
Qed.

(** X29. The schema of the data sources is looked up two directories above
    the directory of the module: for a module directory [dir] that is not
    the root, the schema file is
    [dir/../../spec/datasets/data_sources/data_sources_nodes.yaml] and the
    default data directory is [dir/data]; an absolute path given to
    [get_relative_dir] is returned as it is. *)
Theorem module_paths E :
  module_dir E <> "" ->
  ends_with_slash (module_dir E) = false ->
  get_dataset_schema_dir E =
    module_dir E +:+ "/../../spec/datasets/data_sources"
  /\ schema_file E =
     module_dir E
     +:+ "/../../spec/datasets/data_sources/data_sources_nodes.yaml"
  /\ get_relative_dir E "data" = module_dir E +:+ "/data"
  /\ forall p, starts_with_slash p = true -> get_relative_dir E p = p.
Proof.
  intros Hne Hslash.
  assert (Hdir : get_dataset_schema_dir E =
                 module_dir E +:+ "/../../spec/datasets/data_sources").
  { unfold get_dataset_schema_dir, os_path_join. cbn [fold_left].
    rewrite (join_component_relative (module_dir E) "../") by done.
    rewrite Hslash. change ("/" +:+ "../") with "/../".
    rewrite (join_after _ "/../" "../" "/../../") by done.
    rewrite (join_after _ "/../../" "spec" "/../../spec") by done.
    rewrite (join_after _ "/../../spec" "datasets" "/../../spec/datasets")
      by done.
    by rewrite (join_after _ "/../../spec/datasets" "data_sources"
                  "/../../spec/datasets/data_sources"). }
  split; [exact Hdir|]. split; [|split].
  - unfold schema_file. rewrite Hdir. unfold os_path_join. cbn [fold_left].
    by rewrite (join_after _ "/../../spec/datasets/data_sources"
                  "data_sources_nodes.yaml"
                  "/../../spec/datasets/data_sources/data_sources_nodes.yaml").
  - unfold get_relative_dir, os_path_join. cbn [fold_left].
    rewrite join_component_relative by done. by rewrite Hslash.
  - intros p Hp. unfold get_relative_dir, os_path_join. cbn [fold_left].
    unfold join_component. by rewrite Hp.
Qed.

Lemma module_paths_witness :
  get_dataset_schema_dir test_env =
    "/app/importers/data_sources" +:+ "/../../spec/datasets/data_sources"
  /\ schema_file test_env =
     "/app/importers/data_sources"
     +:+ "/../../spec/datasets/data_sources/data_sources_nodes.yaml"
  /\ get_relative_dir test_env "data" = "/app/importers/data_sources" +:+ "/data"
  /\ forall p, starts_with_slash p = true -> get_relative_dir test_env p = p.
Proof.
  apply (module_paths test_env); [discriminate | reflexivity].
Defined.

End DataSourcesMainProofs.
